(** * Diagram synchronisation: wire codec, sync client, sync coordinator
      and startup reconciler

    A shallow embedding of
      - [src/lib/sync-service.ts]   (class [SyncService]: the wire codec and
                                     the remote sync client),
      - [src/hooks/use-sync.ts]     (hook [useSync]: the sync coordinator),
      - [src/pages/editor-page/use-diagram-loader.tsx]
                                    (hook [useDiagramLoader]: the startup
                                     reconciler),
      - [src/app.tsx]               (component [App]: the initialisation of
                                     the service),
    followed by the properties the specification states about them and by
    further properties of the same code.

    Conventions.
      - A JavaScript string is a [string] whose characters are read as UTF-16
        code units below 256 (the Latin-1 block); other code units are outside
        the model.
      - A JavaScript [number] is a [Z]: the code copies numbers, tests them
        for truthiness and, in the message of an error, converts one to a
        string; fractions, NaN and infinities are left out, and the text of
        a number is stated for safe integers only.
      - A [Date] is its time value in milliseconds, [None] for the Invalid
        Date.
      - An [async] function is a program of the free monad [Prog]: a tree of
        operations on the hooks' references, the clock, the local catalog and
        the user interface, with one suspension point, [Await], at each
        [fetch]: there the program waits for the network, and other calls
        may run.  The other [await]s ([response.json()], the local catalog)
        take no input from outside and touch no state of the hooks; they are
        run in place.
      - Console output is not modelled, nor is the debounced variant of the
        push, which wraps [pushDiagram] in [useDebounceFn] of the library
        ahooks. *)

From Stdlib Require Import String Ascii ZArith List Bool Lia DecimalString.
Import ListNotations.
Local Open Scope string_scope.
Local Open Scope Z_scope.

Set Implicit Arguments.
Set Warnings "-register-all".

(* ===================================================================== *)
(** ** JavaScript values used by the code *)
(* ===================================================================== *)

Module JS.

(** An [Error] object: the constructor's name and the message. *)
Record Error := mkError { errName : string; message : string }.

(** [new Error(msg)] *)
Definition newError (msg : string) : Error := mkError "Error" msg.

(** The outcome of an expression that may throw. *)
Inductive Result (A : Type) : Type :=
| Ok (a : A)
| Err (e : Error).
Arguments Ok {A} a.
Arguments Err {A} e.

(** Number to string, for a safe integer (magnitude at most 2^53 - 1): its
    decimal digits.  JavaScript writes a larger number with the shortest
    digits that denote it, and from 10^21 on in exponent notation; such
    numbers are excluded by [printable] below where a text is stated. *)
Definition string_of_number (n : Z) : string :=
  NilZero.string_of_int (Z.to_int n).

(** Code unit of a character. *)
Definition code (c : ascii) : Z := Z.of_N (N_of_ascii c).

(** The characters the regular expression class [\s] matches, among the
    code units below 256: TAB, LF, VT, FF, CR, SPACE and NO-BREAK SPACE. *)
Definition isWhiteSpace (c : ascii) : bool :=
  let n := code c in
  ((9 <=? n) && (n <=? 13)) || (n =? 32) || (n =? 160).

(** [String.prototype.toLowerCase] on one code unit below 256: the letters
    A-Z, and the Latin-1 capitals U+00C0-U+00DE except the multiplication
    sign U+00D7, move 32 places up. *)
Definition lowerChar (c : ascii) : ascii :=
  let n := code c in
  if ((65 <=? n) && (n <=? 90))
     || ((192 <=? n) && (n <=? 222) && negb (n =? 215))
  then ascii_of_N (Z.to_N (n + 32))
  else c.

Fixpoint toLowerCase (s : string) : string :=
  match s with
  | EmptyString => EmptyString
  | String c rest => String (lowerChar c) (toLowerCase rest)
  end.

(** [s.replace(/\s+/g, r)]: scanning from the left, each maximal run of
    whitespace is replaced by [r]; the other characters are copied.  The
    flag [inRun] is true while the scan is inside a run whose replacement
    has been written. *)
Fixpoint replaceRuns (r : string) (inRun : bool) (s : string) : string :=
  match s with
  | EmptyString => EmptyString
  | String c rest =>
      if isWhiteSpace c
      then (if inRun then replaceRuns r true rest
            else r ++ replaceRuns r true rest)
      else String c (replaceRuns r false rest)
  end.

Definition replaceWhiteSpaceRuns (s r : string) : string :=
  replaceRuns r false s.

(** *** JSON values, as [response.json()] yields them *)

Inductive JSON : Type :=
| JNull
| JBool (b : bool)
| JNumber (n : Z)
| JString (s : string)
| JArray (items : list JSON)
| JObject (props : list (string * JSON)).

(** The value of the last property named [key]: [JSON.parse] keeps the last
    of duplicate keys. *)
Fixpoint lookupProp (key : string) (props : list (string * JSON))
  : option JSON :=
  match props with
  | [] => None
  | (k, v) :: rest =>
      match lookupProp key rest with
      | Some v' => Some v'
      | None => if String.eqb k key then Some v else None
      end
  end.

(** [j.key] for a key that is not a built-in property: [None] is
    [undefined]; reading a property of [null] throws a TypeError. *)
Definition getProp (j : JSON) (key : string) : Result (option JSON) :=
  match j with
  | JNull =>
      Err (mkError "TypeError"
             ("Cannot read properties of null (reading '" ++ key ++ "')"))
  | JObject props => Ok (lookupProp key props)
  | _ => Ok None
  end.

(** ToBoolean, on a value that may be [undefined]. *)
Definition truthy (v : option JSON) : bool :=
  match v with
  | None => false
  | Some JNull => false
  | Some (JBool b) => b
  | Some (JNumber n) => negb (n =? 0)
  | Some (JString s) => negb (String.eqb s EmptyString)
  | Some (JArray _) => true
  | Some (JObject _) => true
  end.

(** ToString, as [new Error(v)] applies it to its argument: an array is
    joined, an object gives "[object Object]" (an object with a property
    [toString] of its own makes the conversion throw instead).  The
    properties state a text for the values of [printable] below only. *)
Fixpoint toString (j : JSON) : string :=
  match j with
  | JNull => "null"
  | JBool true => "true"
  | JBool false => "false"
  | JNumber n => string_of_number n
  | JString s => s
  | JArray items =>
      (fix join (l : list JSON) : string :=
         match l with
         | [] => EmptyString
         | x :: rest =>
             (match x with JNull => EmptyString | _ => toString x end)
             ++ (match rest with
                 | [] => EmptyString
                 | _ :: _ => "," ++ join rest
                 end)
         end) items
  | JObject _ => "[object Object]"
  end.


End JS.
Import JS.

(* ===================================================================== *)
(** ** The diagram model ([@/lib/domain]) *)
(* ===================================================================== *)

(** Modelled from the spec: the declarations of [@/lib/domain] ([Diagram],
    [DBTable], [DBField], ...) are imported by the code and not part of it.
    The records below have the properties section 3 of the specification
    lists, which are also the ones the codec reads and writes, with what
    [deserializeDiagram], whose result is a [Diagram], shows in addition: an
    index and a dependency carry a [createdAt], and the type of a field is
    the structured pair (the bare name exists on the wire only, in
    [BackendField]).  Enumerations ([DatabaseType], [DatabaseEdition],
    [Cardinality], [DBCustomTypeKind]) are strings at run time. *)

Definition Date := option Z.
Definition DatabaseType := string.
Definition DatabaseEdition := string.
Definition Cardinality := string.
Definition DBCustomTypeKind := string.

Module DataType.
Record t := mk { id : string; name : string }.
End DataType.

Module DBField.
Record t := mk {
  id : string;
  name : string;
  type : DataType.t;
  primaryKey : bool;
  unique : bool;
  nullable : bool;
  createdAt : Z;
  check : option string;
  default : option string;
  collation : option string;
  comments : option string }.
End DBField.

Module DBIndex.
Record t := mk {
  id : string;
  name : string;
  unique : bool;
  fieldIds : list string;
  createdAt : Z }.
End DBIndex.

Module DBTable.
Record t := mk {
  id : string;
  name : string;
  schema : option string;
  x : Z;
  y : Z;
  color : string;
  isView : bool;
  createdAt : Z;
  fields : list DBField.t;
  indexes : list DBIndex.t;
  comments : option string }.
End DBTable.

Module DBRelationship.
Record t := mk {
  id : string;
  name : string;
  sourceTableId : string;
  targetTableId : string;
  sourceFieldId : string;
  targetFieldId : string;
  sourceCardinality : Cardinality;
  targetCardinality : Cardinality;
  createdAt : Z }.
End DBRelationship.

Module DBDependency.
Record t := mk {
  id : string;
  tableId : string;
  dependentTableId : string;
  createdAt : Z }.
End DBDependency.

Module Area.
Record t := mk {
  id : string;
  name : string;
  x : Z;
  y : Z;
  width : Z;
  height : Z;
  color : string }.
End Area.

Module DBCustomTypeField.
Record t := mk { field : string; type : string }.
End DBCustomTypeField.

Module DBCustomType.
Record t := mk {
  id : string;
  name : string;
  schema : option string;
  kind : DBCustomTypeKind;
  fields : option (list DBCustomTypeField.t) }.
End DBCustomType.

Module Note.
Record t := mk {
  id : string;
  content : string;
  x : Z;
  y : Z;
  width : Z;
  height : Z;
  color : string }.
End Note.

Module Diagram.
Record t := mk {
  id : string;
  name : string;
  databaseType : DatabaseType;
  databaseEdition : option DatabaseEdition;
  createdAt : Date;
  updatedAt : Date;
  tables : option (list DBTable.t);
  relationships : option (list DBRelationship.t);
  dependencies : option (list DBDependency.t);
  areas : option (list Area.t);
  customTypes : option (list DBCustomType.t);
  notes : option (list Note.t) }.
End Diagram.

(** [DiagramListItem] ([sync-service.ts], lines 26-33). *)
Module DiagramListItem.
Record t := mk {
  id : string;
  name : string;
  databaseType : string;
  databaseEdition : option string;
  createdAt : Date;
  updatedAt : Date }.
End DiagramListItem.

(* ===================================================================== *)
(** ** The wire schema ([sync-service.ts], lines 35-130) *)
(* ===================================================================== *)

(** The [Backend...] interfaces, with in addition the properties that
    [serializeDiagram] writes and the interfaces do not declare: [diagramId]
    on every entity, and [createdAt] on an index (an index travels as the
    internal object).  An optional property is an [option]. *)

Module BackendField.
Record t := mk {
  id : string;
  name : string;
  type : string + DataType.t;
  primaryKey : bool;
  unique : bool;
  nullable : bool;
  createdAt : option Z;
  check : option string;
  default : option string;
  collation : option string;
  comments : option string }.
End BackendField.

Module BackendIndex.
Record t := mk {
  id : string;
  name : string;
  unique : bool;
  fieldIds : list string;
  createdAt : option Z }.
End BackendIndex.

Module BackendTable.
Record t := mk {
  id : string;
  diagramId : option string;
  name : string;
  schema : option string;
  x : Z;
  y : Z;
  color : string;
  isView : bool;
  createdAt : option Z;
  fields : list BackendField.t;
  indexes : option (list BackendIndex.t);
  comments : option string }.
End BackendTable.

Module BackendRelationship.
Record t := mk {
  id : string;
  diagramId : option string;
  name : string;
  sourceTableId : string;
  targetTableId : string;
  sourceFieldId : string;
  targetFieldId : string;
  sourceCardinality : string;
  targetCardinality : string;
  createdAt : option Z }.
End BackendRelationship.

Module BackendDependency.
Record t := mk {
  id : string;
  diagramId : option string;
  tableId : string;
  dependentTableId : string;
  createdAt : option Z }.
End BackendDependency.

Module BackendArea.
Record t := mk {
  id : string;
  diagramId : option string;
  name : string;
  x : Z;
  y : Z;
  width : Z;
  height : Z;
  color : string }.
End BackendArea.

Module BackendCustomType.
Record t := mk {
  id : string;
  diagramId : option string;
  name : string;
  schema : option string;
  kind : string;
  fields : option (list DBCustomTypeField.t) }.
End BackendCustomType.

Module BackendNote.
Record t := mk {
  id : string;
  diagramId : option string;
  content : string;
  x : Z;
  y : Z;
  width : Z;
  height : Z;
  color : string }.
End BackendNote.

Module BackendDiagramResponse.
Record t := mk {
  id : string;
  name : string;
  databaseType : string;
  databaseEdition : option string;
  createdAt : string;
  updatedAt : string;
  tables : option (list BackendTable.t);
  relationships : option (list BackendRelationship.t);
  dependencies : option (list BackendDependency.t);
  areas : option (list BackendArea.t);
  customTypes : option (list BackendCustomType.t);
  notes : option (list BackendNote.t) }.
End BackendDiagramResponse.

(** An entry of the list endpoint's answer ([sync-service.ts], lines
    206-213). *)
Module BackendListItem.
Record t := mk {
  id : string;
  name : string;
  database_type : string;
  database_edition : option string;
  created_at : string;
  updated_at : string }.
End BackendListItem.

(* ===================================================================== *)
(** ** The environment of the hooks *)
(* ===================================================================== *)

(** [SyncConfig] ([sync-service.ts], lines 10-13); a [SyncService] object is
    its configuration. *)
Module SyncConfig.
Record t := mk { apiUrl : string; enabled : bool }.
End SyncConfig.

(** [UseSyncOptions] ([use-sync.ts], lines 6-11).  A callback is opaque: the
    record says whether one was supplied, and a call of it is an [Event]. *)
Module UseSyncOptions.
Record t := mk {
  enabled : option bool;
  debounceMs : option Z;
  onSyncSuccess : bool;
  onSyncError : bool }.
End UseSyncOptions.

(** [PushRequest] ([sync-service.ts], lines 15-17), before
    [JSON.stringify]. *)
Record PushRequest := { diagram : BackendDiagramResponse.t }.

(** The argument of a [fetch]. *)
Inductive Request : Type :=
| POST (url : string) (body : PushRequest)
| GET (url : string).

(** What [response.json()] settles to: a rejection when the body is not JSON
    text, else the parsed value. *)
Inductive Body : Type :=
| Malformed (e : Error)
| Parsed (j : JSON).

Record Response := { status : Z; statusText : string; body : Body }.

(** [response.ok] *)
Definition ok (r : Response) : bool :=
  (200 <=? status r) && (status r <=? 299).

(** What the promise of a [fetch] settles to. *)
Inductive FetchOutcome : Type :=
| Rejected (e : Error)
| Resolved (r : Response).

(** Calls that leave the hooks: the network, the callbacks of [useSync], and
    the collaborators of [useDiagramLoader] ([useStorage]'s [addDiagram],
    [useChartDB]'s [loadDiagram], [useState], [useFullScreenLoader],
    [useRedoUndoStack], [useDialog], [useNavigate]).  Listing the local
    catalog reads the state and is not an event. *)
Inductive Event : Type :=
| NetworkRequest (r : Request)
| OnSyncSuccess (diagramId : string)
| OnSyncError (e : Error)
| AddDiagram (d : Diagram.t)
| LoadDiagramCalled (id : string)
| SetInitialDiagram (d : option Diagram.t)
| ShowLoader
| HideLoader
| ResetRedoStack
| ResetUndoStack
| OpenOpenDiagramDialog (canClose : bool)
| OpenCreateDiagramDialog
| Navigate (to : string).

(** Modelled from the spec: the local catalog ([listDiagrams] and
    [addDiagram] of [useStorage], [loadDiagram] of [useChartDB]) is not part
    of the code; section 6 of the specification describes it as a collection
    of diagrams keyed by id, with list, add and load by id.  Here it is the
    list of its diagrams in the order they were added. *)
Definition LocalCatalog := list Diagram.t.

(** The mutable state the hooks share: the two references of [useSync], the
    number of clock readings so far, the reference of [useDiagramLoader], and
    the local catalog. *)
Record World := {
  isSyncingRef : bool;
  lastSyncedDiagramRef : option string;
  clockReads : nat;
  currentDiagramLoadingRef : option string;
  localCatalog : LocalCatalog }.

Definition setIsSyncing (b : bool) (w : World) : World :=
  {| isSyncingRef := b;
     lastSyncedDiagramRef := lastSyncedDiagramRef w;
     clockReads := clockReads w;
     currentDiagramLoadingRef := currentDiagramLoadingRef w;
     localCatalog := localCatalog w |}.

Definition setLastSynced (s : string) (w : World) : World :=
  {| isSyncingRef := isSyncingRef w;
     lastSyncedDiagramRef := Some s;
     clockReads := clockReads w;
     currentDiagramLoadingRef := currentDiagramLoadingRef w;
     localCatalog := localCatalog w |}.

Definition tick (w : World) : World :=
  {| isSyncingRef := isSyncingRef w;
     lastSyncedDiagramRef := lastSyncedDiagramRef w;
     clockReads := S (clockReads w);
     currentDiagramLoadingRef := currentDiagramLoadingRef w;
     localCatalog := localCatalog w |}.

Definition setLoadingRef (s : string) (w : World) : World :=
  {| isSyncingRef := isSyncingRef w;
     lastSyncedDiagramRef := lastSyncedDiagramRef w;
     clockReads := clockReads w;
     currentDiagramLoadingRef := Some s;
     localCatalog := localCatalog w |}.

(** Modelled from the spec: [addDiagram] of [useStorage] adds the diagram to
    the local catalog. *)
Definition addToCatalog (d : Diagram.t) (w : World) : World :=
  {| isSyncingRef := isSyncingRef w;
     lastSyncedDiagramRef := lastSyncedDiagramRef w;
     clockReads := clockReads w;
     currentDiagramLoadingRef := currentDiagramLoadingRef w;
     localCatalog := (localCatalog w ++ [d])%list |}.

(** Modelled from the spec: [loadDiagram] of [useChartDB] loads the diagram
    with the given id from the local catalog, [None] when there is none. *)
Definition findDiagram (id : string) (l : LocalCatalog)
  : option Diagram.t :=
  find (fun d => String.eqb (Diagram.id d) id) l.

(** The operations a program performs without suspending. *)
Inductive Op : Type -> Type :=
| ReadIsSyncing : Op bool
| WriteIsSyncing (b : bool) : Op unit
| ReadLastSynced : Op (option string)
| WriteLastSynced (s : string) : Op unit
| ReadLoadingRef : Op (option string)
| WriteLoadingRef (s : string) : Op unit
| DateNow : Op Z
| Call (e : Event) : Op unit
| StorageListDiagrams : Op (list Diagram.t)
| StorageAddDiagram (d : Diagram.t) : Op unit
| LoadDiagram (id : string) : Op (option Diagram.t).

(** A program: it returns, throws, performs an operation, or awaits a
    [fetch]. *)
Inductive Prog (A : Type) : Type :=
| Ret (a : A)
| Throw (e : Error)
| Vis (X : Type) (op : Op X) (k : X -> Prog A)
| Await (req : Request) (k : FetchOutcome -> Prog A).
Arguments Ret {A} a.
Arguments Throw {A} e.
Arguments Vis {A X} op k.
Arguments Await {A} req k.

Fixpoint bind {A B} (p : Prog A) (f : A -> Prog B) : Prog B :=
  match p with
  | Ret a => f a
  | Throw e => Throw e
  | Vis op k => Vis op (fun x => bind (k x) f)
  | Await req k => Await req (fun o => bind (k o) f)
  end.

Declare Scope prog_scope.
Delimit Scope prog_scope with prog.
Notation "x <- p ;; q" := (bind p (fun x => q))
  (at level 61, p at next level, right associativity) : prog_scope.
Notation "p ;; q" := (bind p (fun _ => q))
  (at level 61, right associativity) : prog_scope.
Local Open Scope prog_scope.

Definition perform {X} (op : Op X) : Prog X := Vis op (fun x => Ret x).

Definition liftResult {A} (r : Result A) : Prog A :=
  match r with
  | Ok a => Ret a
  | Err e => Throw e
  end.

(** [try { p } catch (e) { h e }] *)
Fixpoint tryCatch {A} (p : Prog A) (h : Error -> Prog A) : Prog A :=
  match p with
  | Ret a => Ret a
  | Throw e => h e
  | Vis op k => Vis op (fun x => tryCatch (k x) h)
  | Await req k => Await req (fun o => tryCatch (k o) h)
  end.

(** [try { p } finally { f }] *)
Fixpoint tryFinally {A} (p : Prog A) (f : Prog unit) : Prog A :=
  match p with
  | Ret a => f ;; Ret a
  | Throw e => f ;; Throw e
  | Vis op k => Vis op (fun x => tryFinally (k x) f)
  | Await req k => Await req (fun o => tryFinally (k o) f)
  end.

(** [for (const x of l) { await body x }] *)
Fixpoint forOf {X} (l : list X) (body : X -> Prog unit) : Prog unit :=
  match l with
  | [] => Ret tt
  | x :: rest => body x ;; forOf rest body
  end.

(** [l.map(f)] for a callback that performs operations. *)
Fixpoint mapProg {X Y} (f : X -> Prog Y) (l : list X) : Prog (list Y) :=
  match l with
  | [] => Ret []
  | x :: rest => y <- f x ;; ys <- mapProg f rest ;; Ret (y :: ys)
  end.

(** [o?.map(f)] *)
Definition optMapProg {X Y} (f : X -> Prog Y) (o : option (list X))
  : Prog (option (list Y)) :=
  match o with
  | None => Ret None
  | Some l => ys <- mapProg f l ;; Ret (Some ys)
  end.

(** [callback?.(...)]: the call happens when a callback was supplied. *)
Definition optCall (supplied : bool) (e : Event) : Prog unit :=
  if supplied then perform (Call e) else Ret tt.

(** How a run ends: the program finished, or it is suspended at a [fetch]
    whose promise has not settled. *)
Inductive Status (A : Type) : Type :=
| Done (r : Result A)
| Suspended (k : FetchOutcome -> Prog A).
Arguments Done {A} r.
Arguments Suspended {A} k.

(* ===================================================================== *)
(** ** A reference platform *)
(* ===================================================================== *)

(** The embedding below takes what the platform provides as parameters.
    This is one platform, used to run the code on examples: the dates of
    ECMAScript in the format of [toISOString], a clock that advances by one
    at each reading, and readers of the bodies the endpoints answer with. *)

Module Reference.

(** Days since 1970-01-01 to year, month and day of the proleptic Gregorian
    calendar, and back. *)
Definition civilFromDays (day : Z) : Z * Z * Z :=
  let z := day + 719468 in
  let era := z / 146097 in
  let doe := z mod 146097 in
  let yoe := (doe - doe / 1460 + doe / 36524 - doe / 146096) / 365 in
  let doy := doe - (365 * yoe + yoe / 4 - yoe / 100) in
  let mp := (5 * doy + 2) / 153 in
  let d := doy - (153 * mp + 2) / 5 + 1 in
  let m := if mp <? 10 then mp + 3 else mp - 9 in
  (yoe + era * 400 + (if m <=? 2 then 1 else 0), m, d).

Definition daysFromCivil (year m d : Z) : Z :=
  let y := year - (if m <=? 2 then 1 else 0) in
  let yoe := y mod 400 in
  let mp := if 2 <? m then m - 3 else m + 9 in
  let doy := (153 * mp + 2) / 5 + d - 1 in
  (y / 400) * 146097 + (yoe * 365 + yoe / 4 - yoe / 100 + doy) - 719468.

Definition digitChar (n : Z) : ascii := ascii_of_N (Z.to_N (48 + n)).

(** [n] in decimal on [width] digits. *)
Fixpoint digits (width : nat) (n : Z) : string :=
  match width with
  | O => EmptyString
  | S w => String (digitChar (n / 10 ^ Z.of_nat w))
             (digits w (n mod 10 ^ Z.of_nat w))
  end.

Definition yearString (y : Z) : string :=
  if (0 <=? y) && (y <=? 9999) then digits 4 y
  else if y <? 0 then String "-" (digits 6 (- y))
  else String "+" (digits 6 y).

(** [YYYY-MM-DDTHH:mm:ss.sssZ], the year on six digits with a sign outside
    0..9999. *)
Definition toISOString (t : Z) : string :=
  let day := t / 86400000 in
  let ms := t mod 86400000 in
  let '(y, m, d) := civilFromDays day in
  yearString y ++ "-" ++ digits 2 m ++ "-" ++ digits 2 d ++ "T"
  ++ digits 2 (ms / 3600000) ++ ":" ++ digits 2 (ms / 60000 mod 60) ++ ":"
  ++ digits 2 (ms / 1000 mod 60) ++ "." ++ digits 3 (ms mod 1000) ++ "Z".

Definition isDigit (c : ascii) : bool := (48 <=? code c) && (code c <=? 57).

Fixpoint readDigits (width : nat) (acc : Z) (s : string)
  : option (Z * string) :=
  match width with
  | O => Some (acc, s)
  | S w =>
      match s with
      | String c rest =>
          if isDigit c then readDigits w (10 * acc + (code c - 48)) rest
          else None
      | EmptyString => None
      end
  end.

Definition expect (c : ascii) (s : string) : option string :=
  match s with
  | String c' rest => if Ascii.eqb c' c then Some rest else None
  | EmptyString => None
  end.

Definition readYear (s : string) : option (Z * string) :=
  match s with
  | String c rest =>
      if Ascii.eqb c "+" then readDigits 6 0 rest
      else if Ascii.eqb c "-"
      then match readDigits 6 0 rest with
           | Some (y, rest') => Some (- y, rest')
           | None => None
           end
      else readDigits 4 0 s
  | EmptyString => None
  end.

Definition andThen {A B} (o : option A) (f : A -> option B) : option B :=
  match o with
  | Some a => f a
  | None => None
  end.

(** [new Date(text)] for a text in the format of [toISOString]; any other
    text gives the Invalid Date. *)
Definition newDate (text : string) : Date :=
  andThen (readYear text) (fun '(y, s) =>
  andThen (expect "-" s) (fun s =>
  andThen (readDigits 2 0 s) (fun '(m, s) =>
  andThen (expect "-" s) (fun s =>
  andThen (readDigits 2 0 s) (fun '(d, s) =>
  andThen (expect "T" s) (fun s =>
  andThen (readDigits 2 0 s) (fun '(h, s) =>
  andThen (expect ":" s) (fun s =>
  andThen (readDigits 2 0 s) (fun '(mi, s) =>
  andThen (expect ":" s) (fun s =>
  andThen (readDigits 2 0 s) (fun '(sec, s) =>
  andThen (expect "." s) (fun s =>
  andThen (readDigits 3 0 s) (fun '(milli, s) =>
  andThen (expect "Z" s) (fun s =>
    let day := daysFromCivil y m d in
    let t := day * 86400000 + h * 3600000 + mi * 60000 + sec * 1000
             + milli in
    if String.eqb s EmptyString
       && (let '(y', m', d') := civilFromDays day in
           (y' =? y) && (m' =? m) && (d' =? d))
       && (h <? 24) && (mi <? 60) && (sec <? 60)
       && (-8640000000000000 <=? t) && (t <=? 8640000000000000)
    then Some t
    else None)))))))))))))).

(** The reading number [n] of the clock. *)
Definition clock (n : nat) : Z := 1800000000000 + Z.of_nat n.

(** A stand-in for [JSON.stringify] on a diagram: the properties only ask
    that equal diagrams have equal texts.  It writes the scalar properties
    and the number of tables. *)
Definition dateText (d : Date) : string :=
  match d with
  | Some t => toISOString t
  | None => "null"
  end.

Definition JSON_stringify (d : Diagram.t) : string :=
  "{id:" ++ Diagram.id d ++ ",name:" ++ Diagram.name d
  ++ ",databaseType:" ++ Diagram.databaseType d
  ++ ",createdAt:" ++ dateText (Diagram.createdAt d)
  ++ ",updatedAt:" ++ dateText (Diagram.updatedAt d)
  ++ ",tables:"
  ++ match Diagram.tables d with
     | Some ts => string_of_number (Z.of_nat (length ts))
     | None => "undefined"
     end
  ++ "}".

Definition shapeError : Error :=
  mkError "TypeError" "the body does not have the declared shape".

Definition getString (j : JSON) (key : string) : option string :=
  match getProp j key with
  | Ok (Some (JString s)) => Some s
  | _ => None
  end.

Definition absent (j : JSON) (key : string) : bool :=
  match getProp j key with
  | Ok None => true
  | _ => false
  end.

(** An entry of the list: an object whose five mandatory properties are
    strings. *)
Definition asListItem (j : JSON) : Result BackendListItem.t :=
  match getString j "id", getString j "name", getString j "database_type",
        getString j "created_at", getString j "updated_at" with
  | Some i, Some n, Some t, Some c, Some u =>
      Ok {| BackendListItem.id := i;
            BackendListItem.name := n;
            BackendListItem.database_type := t;
            BackendListItem.database_edition :=
              getString j "database_edition";
            BackendListItem.created_at := c;
            BackendListItem.updated_at := u |}
  | _, _, _, _, _ => Err shapeError
  end.

Fixpoint asListItems (l : list JSON) : Result (list BackendListItem.t) :=
  match l with
  | [] => Ok []
  | j :: rest =>
      match asListItem j, asListItems rest with
      | Ok x, Ok xs => Ok (x :: xs)
      | Err e, _ => Err e
      | _, Err e => Err e
      end
  end.

Definition asBackendList (j : JSON) : Result (list BackendListItem.t) :=
  match j with
  | JArray items => asListItems items
  | _ => Err shapeError
  end.

(** The body of a pull, for a diagram without collections. *)
Definition asBackendDiagram (j : JSON) : Result BackendDiagramResponse.t :=
  match getString j "id", getString j "name", getString j "databaseType",
        getString j "createdAt", getString j "updatedAt" with
  | Some i, Some n, Some t, Some c, Some u =>
      if absent j "tables" && absent j "relationships"
         && absent j "dependencies" && absent j "areas"
         && absent j "customTypes" && absent j "notes"
      then
        Ok {| BackendDiagramResponse.id := i;
              BackendDiagramResponse.name := n;
              BackendDiagramResponse.databaseType := t;
              BackendDiagramResponse.databaseEdition :=
                getString j "databaseEdition";
              BackendDiagramResponse.createdAt := c;
              BackendDiagramResponse.updatedAt := u;
              BackendDiagramResponse.tables := None;
              BackendDiagramResponse.relationships := None;
              BackendDiagramResponse.dependencies := None;
              BackendDiagramResponse.areas := None;
              BackendDiagramResponse.customTypes := None;
              BackendDiagramResponse.notes := None |}
      else Err shapeError
  | _, _, _, _, _ => Err shapeError
  end.

End Reference.

(* ===================================================================== *)
(** ** Sample data *)
(* ===================================================================== *)

Module Sample.

Definition config : SyncConfig.t :=
  {| SyncConfig.apiUrl := "http://localhost:8080";
     SyncConfig.enabled := true |}.

Definition notConfigured : SyncConfig.t :=
  {| SyncConfig.apiUrl := EmptyString; SyncConfig.enabled := true |}.

Definition options : UseSyncOptions.t :=
  {| UseSyncOptions.enabled := None;
     UseSyncOptions.debounceMs := None;
     UseSyncOptions.onSyncSuccess := true;
     UseSyncOptions.onSyncError := true |}.

Definition world : World :=
  {| isSyncingRef := false;
     lastSyncedDiagramRef := None;
     clockReads := 0;
     currentDiagramLoadingRef := None;
     localCatalog := [] |}.

Definition field (createdAt : Z) : DBField.t :=
  {| DBField.id := "f1";
     DBField.name := "id";
     DBField.type := {| DataType.id := "bigint"; DataType.name := "bigint" |};
     DBField.primaryKey := true;
     DBField.unique := true;
     DBField.nullable := false;
     DBField.createdAt := createdAt;
     DBField.check := None;
     DBField.default := None;
     DBField.collation := None;
     DBField.comments := None |}.

Definition index : DBIndex.t :=
  {| DBIndex.id := "i1";
     DBIndex.name := "users_pkey";
     DBIndex.unique := true;
     DBIndex.fieldIds := ["f1"];
     DBIndex.createdAt := 1700000000002 |}.

Definition table (fieldCreatedAt : Z) : DBTable.t :=
  {| DBTable.id := "t1";
     DBTable.name := "users";
     DBTable.schema := Some "public";
     DBTable.x := 10;
     DBTable.y := 20;
     DBTable.color := "#ff0000";
     DBTable.isView := false;
     DBTable.createdAt := 1700000000000;
     DBTable.fields := [field fieldCreatedAt];
     DBTable.indexes := [index];
     DBTable.comments := None |}.

Definition relationship : DBRelationship.t :=
  {| DBRelationship.id := "r1";
     DBRelationship.name := "users_self";
     DBRelationship.sourceTableId := "t1";
     DBRelationship.targetTableId := "t1";
     DBRelationship.sourceFieldId := "f1";
     DBRelationship.targetFieldId := "f1";
     DBRelationship.sourceCardinality := "one";
     DBRelationship.targetCardinality := "many";
     DBRelationship.createdAt := 1700000000003 |}.

(** A diagram with all its collections present, whose only field has the
    given [createdAt]. *)
Definition diagramWith (fieldCreatedAt : Z) : Diagram.t :=
  {| Diagram.id := "d1";
     Diagram.name := "Shop";
     Diagram.databaseType := "postgresql";
     Diagram.databaseEdition := None;
     Diagram.createdAt := Some 1700000000000;
     Diagram.updatedAt := Some 1700000360000;
     Diagram.tables := Some [table fieldCreatedAt];
     Diagram.relationships := Some [relationship];
     Diagram.dependencies := Some [];
     Diagram.areas := Some [];
     Diagram.customTypes := Some [];
     Diagram.notes := Some [] |}.

Definition diagram : Diagram.t := diagramWith 1700000000001.

(** The same diagram with a field created at time zero. *)
Definition diagramFieldAtZero : Diagram.t := diagramWith 0.

Definition response (status : Z) (statusText : string) (body : Body)
  : Response :=
  {| status := status; statusText := statusText; body := body |}.


(** 500 with the body [{"error": "disk full"}]. *)
Definition serverError : Response :=
  response 500 "Internal Server Error"
    (Parsed (JObject [("error", JString "disk full")])).

(** 200 with the body [{"success": true, "diagram_id": "d1"}]. *)
Definition pushAccepted : Response :=
  response 200 "OK"
    (Parsed (JObject [("success", JBool true);
                      ("diagram_id", JString "d1")])).

(** 200 with the body [{"success": false, "diagram_id": "d1"}]. *)
Definition pushRefused : Response :=
  response 200 "OK"
    (Parsed (JObject [("success", JBool false);
                      ("diagram_id", JString "d1")])).

Definition notFound : Response :=
  response 404 "Not Found" (Malformed (mkError "SyntaxError"
                                         "Unexpected end of JSON input")).

(** The local diagram A, and the remote entries A and B. *)
Definition localA : Diagram.t := diagram.

Definition remoteEntry (id name : string) : JSON :=
  JObject [("id", JString id); ("name", JString name);
           ("database_type", JString "postgresql");
           ("created_at", JString "2023-11-14T22:13:20.000Z");
           ("updated_at", JString "2023-11-14T22:19:20.000Z")].

Definition remoteList : Response :=
  response 200 "OK"
    (Parsed (JArray [remoteEntry "d1" "Shop (remote)";
                     remoteEntry "d2" "Blog"])).

Definition worldWithA : World :=
  {| isSyncingRef := false;
     lastSyncedDiagramRef := None;
     clockReads := 0;
     currentDiagramLoadingRef := None;
     localCatalog := [localA] |}.

(** The diagram with an Invalid Date as [createdAt]. *)
Definition undatedDiagram : Diagram.t :=
  {| Diagram.id := "d1";
     Diagram.name := "Shop";
     Diagram.databaseType := "postgresql";
     Diagram.databaseEdition := None;
     Diagram.createdAt := None;
     Diagram.updatedAt := Some 1700000360000;
     Diagram.tables := None;
     Diagram.relationships := None;
     Diagram.dependencies := None;
     Diagram.areas := None;
     Diagram.customTypes := None;
     Diagram.notes := None |}.

(** A wire diagram whose one table and one field carry a [createdAt]. *)
Definition wireField : BackendField.t :=
  {| BackendField.id := "f1";
     BackendField.name := "id";
     BackendField.type := inl "Big Int";
     BackendField.primaryKey := true;
     BackendField.unique := true;
     BackendField.nullable := false;
     BackendField.createdAt := Some 1700000000001;
     BackendField.check := None;
     BackendField.default := None;
     BackendField.collation := None;
     BackendField.comments := None |}.

Definition wireTable : BackendTable.t :=
  {| BackendTable.id := "t1";
     BackendTable.diagramId := Some "d1";
     BackendTable.name := "users";
     BackendTable.schema := Some "public";
     BackendTable.x := 10;
     BackendTable.y := 20;
     BackendTable.color := "#ff0000";
     BackendTable.isView := false;
     BackendTable.createdAt := Some 1700000000000;
     BackendTable.fields := [wireField];
     BackendTable.indexes := None;
     BackendTable.comments := None |}.

Definition wireDiagram : BackendDiagramResponse.t :=
  {| BackendDiagramResponse.id := "d1";
     BackendDiagramResponse.name := "Shop";
     BackendDiagramResponse.databaseType := "postgresql";
     BackendDiagramResponse.databaseEdition := None;
     BackendDiagramResponse.createdAt := "2023-11-14T22:13:20.000Z";
     BackendDiagramResponse.updatedAt := "2023-11-14T22:19:20.000Z";
     BackendDiagramResponse.tables := Some [wireTable];
     BackendDiagramResponse.relationships := Some [];
     BackendDiagramResponse.dependencies := None;
     BackendDiagramResponse.areas := None;
     BackendDiagramResponse.customTypes := None;
     BackendDiagramResponse.notes := None |}.

(** 200 with a body that is not JSON, and 200 with the body [null]. *)
Definition notJSON : Response :=
  response 200 "OK" (Malformed (mkError "SyntaxError"
                                  "Unexpected token < in JSON")).

Definition nullBody : Response := response 200 "OK" (Parsed JNull).

(** The answer of a pull: a diagram without collections. *)
Definition pulledBody : JSON :=
  JObject [("id", JString "d1"); ("name", JString "Shop");
           ("databaseType", JString "postgresql");
           ("createdAt", JString "2023-11-14T22:13:20.000Z");
           ("updatedAt", JString "2023-11-14T22:19:20.000Z")].

Definition pulled : Response := response 200 "OK" (Parsed pulledBody).

End Sample.

Section Platform.

(** *** What the platform provides *)

(** [Date.prototype.toISOString] on a valid time value. *)
Variable toISOString : Z -> string.
(** [new Date(text)]: the time value the text denotes, or the Invalid Date. *)
Variable newDate : string -> Date.
(** [JSON.stringify] on a diagram. *)
Variable JSON_stringify : Diagram.t -> string.
(** [clock n] is what the reading number [n] of [Date.now()] returns. *)
Variable clock : nat -> Z.
(** The parsed body of a pull seen as a [BackendDiagramResponse], and the
    parsed body of a list seen as an array of entries.  TypeScript trusts the
    declared type; a body of another shape makes the code that reads it throw,
    which is the [Err] case. *)
Variable asBackendDiagram : JSON -> Result BackendDiagramResponse.t.
Variable asBackendList : JSON -> Result (list BackendListItem.t).

(** *** Running a program *)

Definition handle {X} (op : Op X) (w : World) : X * World * list Event :=
  match op in Op X return X * World * list Event with
  | ReadIsSyncing => (isSyncingRef w, w, [])
  | WriteIsSyncing b => (tt, setIsSyncing b w, [])
  | ReadLastSynced => (lastSyncedDiagramRef w, w, [])
  | WriteLastSynced s => (tt, setLastSynced s w, [])
  | ReadLoadingRef => (currentDiagramLoadingRef w, w, [])
  | WriteLoadingRef s => (tt, setLoadingRef s w, [])
  | DateNow => (clock (clockReads w), tick w, [])
  | Call e => (tt, w, [e])
  | StorageListDiagrams => (localCatalog w, w, [])
  | StorageAddDiagram d => (tt, addToCatalog d w, [AddDiagram d])
  | LoadDiagram id =>
      (findDiagram id (localCatalog w), w, [LoadDiagramCalled id])
  end.

(** [run p w net] runs [p] from [w]; a [fetch] records its request and
    resumes with the next outcome of [net], and when [net] is exhausted the run
    stops there, suspended.  The result is the final state, the events in
    order, and how the run ended. *)
Fixpoint run {A} (p : Prog A) (w : World) (net : list FetchOutcome)
  : World * list Event * Status A :=
  match p with
  | Ret a => (w, [], Done (Ok a))
  | Throw e => (w, [], Done (Err e))
  | Vis op k =>
      let '(x, w1, evs) := handle op w in
      let '(w2, tr, s) := run (k x) w1 net in
      (w2, (evs ++ tr)%list, s)
  | Await req k =>
      match net with
      | [] => (w, [NetworkRequest req], Suspended k)
      | o :: net' =>
          let '(w2, tr, s) := run (k o) w net' in
          (w2, NetworkRequest req :: tr, s)
      end
  end.

Definition isNetworkRequest (e : Event) : bool :=
  match e with
  | NetworkRequest _ => true
  | _ => false
  end.

(** Number of network requests in a trace. *)
Definition networkRequests (tr : list Event) : nat :=
  length (filter isNetworkRequest tr).

(* ===================================================================== *)
(** ** Wire codec ([sync-service.ts], lines 239-402) *)
(* ===================================================================== *)

(** [date.toISOString()]: a RangeError on the Invalid Date. *)
Definition Date_toISOString (d : Date) : Result string :=
  match d with
  | Some t => Ok (toISOString t)
  | None => Err (mkError "RangeError" "Invalid time value")
  end.

(** [fields: t.fields] and [indexes: t.indexes] (lines 256-257): the internal
    objects travel as they are; these are the same objects at the wire
    type. *)
Definition wireField (f : DBField.t) : BackendField.t :=
  {| BackendField.id := DBField.id f;
     BackendField.name := DBField.name f;
     BackendField.type := inr (DBField.type f);
     BackendField.primaryKey := DBField.primaryKey f;
     BackendField.unique := DBField.unique f;
     BackendField.nullable := DBField.nullable f;
     BackendField.createdAt := Some (DBField.createdAt f);
     BackendField.check := DBField.check f;
     BackendField.default := DBField.default f;
     BackendField.collation := DBField.collation f;
     BackendField.comments := DBField.comments f |}.

Definition wireIndex (i : DBIndex.t) : BackendIndex.t :=
  {| BackendIndex.id := DBIndex.id i;
     BackendIndex.name := DBIndex.name i;
     BackendIndex.unique := DBIndex.unique i;
     BackendIndex.fieldIds := DBIndex.fieldIds i;
     BackendIndex.createdAt := Some (DBIndex.createdAt i) |}.

(** The callbacks of [serializeDiagram] (lines 247-304). *)
Definition serializeTable (diagramId : string) (t : DBTable.t)
  : BackendTable.t :=
  {| BackendTable.id := DBTable.id t;
     BackendTable.diagramId := Some diagramId;
     BackendTable.name := DBTable.name t;
     BackendTable.schema := DBTable.schema t;
     BackendTable.x := DBTable.x t;
     BackendTable.y := DBTable.y t;
     BackendTable.color := DBTable.color t;
     BackendTable.isView := DBTable.isView t;
     BackendTable.createdAt := None;
     BackendTable.fields := map wireField (DBTable.fields t);
     BackendTable.indexes := Some (map wireIndex (DBTable.indexes t));
     BackendTable.comments := DBTable.comments t |}.

Definition serializeRelationship (diagramId : string) (r : DBRelationship.t)
  : BackendRelationship.t :=
  {| BackendRelationship.id := DBRelationship.id r;
     BackendRelationship.diagramId := Some diagramId;
     BackendRelationship.name := DBRelationship.name r;
     BackendRelationship.sourceTableId := DBRelationship.sourceTableId r;
     BackendRelationship.targetTableId := DBRelationship.targetTableId r;
     BackendRelationship.sourceFieldId := DBRelationship.sourceFieldId r;
     BackendRelationship.targetFieldId := DBRelationship.targetFieldId r;
     BackendRelationship.sourceCardinality :=
       DBRelationship.sourceCardinality r;
     BackendRelationship.targetCardinality :=
       DBRelationship.targetCardinality r;
     BackendRelationship.createdAt := None |}.

Definition serializeDependency (diagramId : string) (d : DBDependency.t)
  : BackendDependency.t :=
  {| BackendDependency.id := DBDependency.id d;
     BackendDependency.diagramId := Some diagramId;
     BackendDependency.tableId := DBDependency.tableId d;
     BackendDependency.dependentTableId := DBDependency.dependentTableId d;
     BackendDependency.createdAt := None |}.

Definition serializeArea (diagramId : string) (a : Area.t) : BackendArea.t :=
  {| BackendArea.id := Area.id a;
     BackendArea.diagramId := Some diagramId;
     BackendArea.name := Area.name a;
     BackendArea.x := Area.x a;
     BackendArea.y := Area.y a;
     BackendArea.width := Area.width a;
     BackendArea.height := Area.height a;
     BackendArea.color := Area.color a |}.

Definition serializeCustomType (diagramId : string) (ct : DBCustomType.t)
  : BackendCustomType.t :=
  {| BackendCustomType.id := DBCustomType.id ct;
     BackendCustomType.diagramId := Some diagramId;
     BackendCustomType.name := DBCustomType.name ct;
     BackendCustomType.schema := DBCustomType.schema ct;
     BackendCustomType.kind := DBCustomType.kind ct;
     BackendCustomType.fields := DBCustomType.fields ct |}.

Definition serializeNote (diagramId : string) (n : Note.t) : BackendNote.t :=
  {| BackendNote.id := Note.id n;
     BackendNote.diagramId := Some diagramId;
     BackendNote.content := Note.content n;
     BackendNote.x := Note.x n;
     BackendNote.y := Note.y n;
     BackendNote.width := Note.width n;
     BackendNote.height := Note.height n;
     BackendNote.color := Note.color n |}.

(** [SyncService.serializeDiagram] (lines 239-306).  [o?.map(f)] is
    [option_map (map f) o]. *)
Definition serializeDiagram (d : Diagram.t)
  : Result BackendDiagramResponse.t :=
  match Date_toISOString (Diagram.createdAt d) with
  | Err e => Err e
  | Ok created =>
      match Date_toISOString (Diagram.updatedAt d) with
      | Err e => Err e
      | Ok updated =>
          Ok {| BackendDiagramResponse.id := Diagram.id d;
                BackendDiagramResponse.name := Diagram.name d;
                BackendDiagramResponse.databaseType := Diagram.databaseType d;
                BackendDiagramResponse.databaseEdition :=
                  Diagram.databaseEdition d;
                BackendDiagramResponse.createdAt := created;
                BackendDiagramResponse.updatedAt := updated;
                BackendDiagramResponse.tables :=
                  option_map (map (serializeTable (Diagram.id d)))
                    (Diagram.tables d);
                BackendDiagramResponse.relationships :=
                  option_map (map (serializeRelationship (Diagram.id d)))
                    (Diagram.relationships d);
                BackendDiagramResponse.dependencies :=
                  option_map (map (serializeDependency (Diagram.id d)))
                    (Diagram.dependencies d);
                BackendDiagramResponse.areas :=
                  option_map (map (serializeArea (Diagram.id d)))
                    (Diagram.areas d);
                BackendDiagramResponse.customTypes :=
                  option_map (map (serializeCustomType (Diagram.id d)))
                    (Diagram.customTypes d);
                BackendDiagramResponse.notes :=
                  option_map (map (serializeNote (Diagram.id d)))
                    (Diagram.notes d) |}
      end
  end.

(** [c || Date.now()] (lines 326, 342, 368, 374): the clock is read when the
    property is absent or zero. *)
Definition orDateNow (c : option Z) : Prog Z :=
  match c with
  | Some n => if n =? 0 then perform DateNow else Ret n
  | None => perform DateNow
  end.

(** The constant [fieldType] (lines 328-334). *)
Definition fieldType (ty : string + DataType.t) : DataType.t :=
  match ty with
  | inl s =>
      {| DataType.id := replaceWhiteSpaceRuns (toLowerCase s) "_";
         DataType.name := s |}
  | inr structured => structured
  end.

(** The callbacks of [deserializeDiagram] (lines 318-400).  The properties of
    an object literal are evaluated in the order they are written. *)
Definition deserializeField (f : BackendField.t) : Prog DBField.t :=
  let fieldType := fieldType (BackendField.type f) in
  createdAt <- orDateNow (BackendField.createdAt f) ;;
  Ret {| DBField.id := BackendField.id f;
         DBField.name := BackendField.name f;
         DBField.type := fieldType;
         DBField.primaryKey := BackendField.primaryKey f;
         DBField.unique := BackendField.unique f;
         DBField.nullable := BackendField.nullable f;
         DBField.createdAt := createdAt;
         DBField.check := BackendField.check f;
         DBField.default := BackendField.default f;
         DBField.collation := BackendField.collation f;
         DBField.comments := BackendField.comments f |}.

Definition deserializeIndex (i : BackendIndex.t) : Prog DBIndex.t :=
  createdAt <- perform DateNow ;;
  Ret {| DBIndex.id := BackendIndex.id i;
         DBIndex.name := BackendIndex.name i;
         DBIndex.unique := BackendIndex.unique i;
         DBIndex.fieldIds := BackendIndex.fieldIds i;
         DBIndex.createdAt := createdAt |}.

Definition deserializeTable (t : BackendTable.t) : Prog DBTable.t :=
  createdAt <- orDateNow (BackendTable.createdAt t) ;;
  fields <- mapProg deserializeField (BackendTable.fields t) ;;
  indexes <- match BackendTable.indexes t with
             | Some l => mapProg deserializeIndex l
             | None => Ret []
             end ;;
  Ret {| DBTable.id := BackendTable.id t;
         DBTable.name := BackendTable.name t;
         DBTable.schema := BackendTable.schema t;
         DBTable.x := BackendTable.x t;
         DBTable.y := BackendTable.y t;
         DBTable.color := BackendTable.color t;
         DBTable.isView := BackendTable.isView t;
         DBTable.createdAt := createdAt;
         DBTable.fields := fields;
         DBTable.indexes := indexes;
         DBTable.comments := BackendTable.comments t |}.

Definition deserializeRelationship (r : BackendRelationship.t)
  : Prog DBRelationship.t :=
  createdAt <- orDateNow (BackendRelationship.createdAt r) ;;
  Ret {| DBRelationship.id := BackendRelationship.id r;
         DBRelationship.name := BackendRelationship.name r;
         DBRelationship.sourceTableId := BackendRelationship.sourceTableId r;
         DBRelationship.targetTableId := BackendRelationship.targetTableId r;
         DBRelationship.sourceFieldId := BackendRelationship.sourceFieldId r;
         DBRelationship.targetFieldId := BackendRelationship.targetFieldId r;
         DBRelationship.sourceCardinality :=
           BackendRelationship.sourceCardinality r;
         DBRelationship.targetCardinality :=
           BackendRelationship.targetCardinality r;
         DBRelationship.createdAt := createdAt |}.

Definition deserializeDependency (d : BackendDependency.t)
  : Prog DBDependency.t :=
  createdAt <- orDateNow (BackendDependency.createdAt d) ;;
  Ret {| DBDependency.id := BackendDependency.id d;
         DBDependency.tableId := BackendDependency.tableId d;
         DBDependency.dependentTableId :=
           BackendDependency.dependentTableId d;
         DBDependency.createdAt := createdAt |}.

Definition deserializeArea (a : BackendArea.t) : Prog Area.t :=
  Ret {| Area.id := BackendArea.id a;
         Area.name := BackendArea.name a;
         Area.x := BackendArea.x a;
         Area.y := BackendArea.y a;
         Area.width := BackendArea.width a;
         Area.height := BackendArea.height a;
         Area.color := BackendArea.color a |}.

Definition deserializeCustomType (ct : BackendCustomType.t)
  : Prog DBCustomType.t :=
  Ret {| DBCustomType.id := BackendCustomType.id ct;
         DBCustomType.name := BackendCustomType.name ct;
         DBCustomType.schema := BackendCustomType.schema ct;
         DBCustomType.kind := BackendCustomType.kind ct;
         DBCustomType.fields := BackendCustomType.fields ct |}.

Definition deserializeNote (n : BackendNote.t) : Prog Note.t :=
  Ret {| Note.id := BackendNote.id n;
         Note.content := BackendNote.content n;
         Note.x := BackendNote.x n;
         Note.y := BackendNote.y n;
         Note.width := BackendNote.width n;
         Note.height := BackendNote.height n;
         Note.color := BackendNote.color n |}.

(** [SyncService.deserializeDiagram] (lines 308-402). *)
Definition deserializeDiagram (data : BackendDiagramResponse.t)
  : Prog Diagram.t :=
  tables <- optMapProg deserializeTable
              (BackendDiagramResponse.tables data) ;;
  relationships <- optMapProg deserializeRelationship
                     (BackendDiagramResponse.relationships data) ;;
  dependencies <- optMapProg deserializeDependency
                    (BackendDiagramResponse.dependencies data) ;;
  areas <- optMapProg deserializeArea (BackendDiagramResponse.areas data) ;;
  customTypes <- optMapProg deserializeCustomType
                   (BackendDiagramResponse.customTypes data) ;;
  notes <- optMapProg deserializeNote (BackendDiagramResponse.notes data) ;;
  Ret {| Diagram.id := BackendDiagramResponse.id data;
         Diagram.name := BackendDiagramResponse.name data;
         Diagram.databaseType := BackendDiagramResponse.databaseType data;
         Diagram.databaseEdition :=
           BackendDiagramResponse.databaseEdition data;
         Diagram.createdAt := newDate (BackendDiagramResponse.createdAt data);
         Diagram.updatedAt := newDate (BackendDiagramResponse.updatedAt data);
         Diagram.tables := tables;
         Diagram.relationships := relationships;
         Diagram.dependencies := dependencies;
         Diagram.areas := areas;
         Diagram.customTypes := customTypes;
         Diagram.notes := notes |}.

(* ===================================================================== *)
(** ** Remote sync client ([sync-service.ts], lines 132-237) *)
(* ===================================================================== *)

(** [get isEnabled] (lines 139-141) *)
Definition isEnabled (config : SyncConfig.t) : bool :=
  SyncConfig.enabled config
  && negb (String.eqb (SyncConfig.apiUrl config) EmptyString).

Definition notEnabledError : Error :=
  newError "Sync service is not enabled".

(** [await fetch(req)] *)
Definition fetch (req : Request) : Prog Response :=
  Await req (fun o =>
    match o with
    | Rejected e => Throw e
    | Resolved r => Ret r
    end).

(** [await response.json()] *)
Definition responseJson (r : Response) : Prog JSON :=
  match body r with
  | Malformed e => Throw e
  | Parsed j => Ret j
  end.

(** [v || fallback] *)
Definition orString (v : option JSON) (fallback : string) : JSON :=
  match v with
  | Some j => if truthy v then j else JString fallback
  | None => JString fallback
  end.

(** The branch of a response that is not ok (lines 158-163, 181-186,
    199-204):
      [const error = await response.json().catch(() => ({error: `HTTP ...`}));
       throw new Error(error.error || fallback);] *)
Definition statusLine (r : Response) : string :=
  "HTTP " ++ string_of_number (status r) ++ ": " ++ statusText r.

Definition errorPayload (r : Response) : JSON :=
  match body r with
  | Parsed j => j
  | Malformed _ => JObject [("error", JString (statusLine r))]
  end.

Definition throwHttpError {A} (r : Response) (fallback : string) : Prog A :=
  let error := errorPayload r in
  v <- liftResult (getProp error "error") ;;
  Throw (newError (toString (orString v fallback))).

(** [SyncService.push] (lines 143-166); the result is the parsed body. *)
Definition push (config : SyncConfig.t) (d : Diagram.t) : Prog JSON :=
  if negb (isEnabled config) then Throw notEnabledError
  else
    wire <- liftResult (serializeDiagram d) ;;
    response <- fetch (POST (SyncConfig.apiUrl config ++ "/api/sync/push")
                            {| diagram := wire |}) ;;
    if negb (ok response)
    then throwHttpError response "Failed to push diagram"
    else responseJson response.

(** [SyncService.pull] (lines 168-190); [None] is [null]. *)
Definition pull (config : SyncConfig.t) (diagramId : string)
  : Prog (option Diagram.t) :=
  if negb (isEnabled config) then Throw notEnabledError
  else
    response <- fetch (GET (SyncConfig.apiUrl config ++ "/api/sync/pull/"
                            ++ diagramId)) ;;
    if status response =? 404 then Ret None
    else if negb (ok response)
    then throwHttpError response "Failed to pull diagram"
    else
      data <- responseJson response ;;
      wire <- liftResult (asBackendDiagram data) ;;
      d <- deserializeDiagram wire ;;
      Ret (Some d).

(** The callback of [diagrams.map] (lines 214-221). *)
Definition listItem (d : BackendListItem.t) : DiagramListItem.t :=
  {| DiagramListItem.id := BackendListItem.id d;
     DiagramListItem.name := BackendListItem.name d;
     DiagramListItem.databaseType := BackendListItem.database_type d;
     DiagramListItem.databaseEdition := BackendListItem.database_edition d;
     DiagramListItem.createdAt := newDate (BackendListItem.created_at d);
     DiagramListItem.updatedAt := newDate (BackendListItem.updated_at d) |}.

(** [SyncService.listDiagrams] (lines 192-222) *)
Definition listDiagrams (config : SyncConfig.t)
  : Prog (list DiagramListItem.t) :=
  if negb (isEnabled config) then Throw notEnabledError
  else
    response <- fetch (GET (SyncConfig.apiUrl config
                            ++ "/api/sync/diagrams")) ;;
    if negb (ok response)
    then throwHttpError response "Failed to list diagrams"
    else
      data <- responseJson response ;;
      diagrams <- liftResult (asBackendList data) ;;
      Ret (map listItem diagrams).

(** [SyncService.healthCheck] (lines 224-237) *)
Definition healthCheck (config : SyncConfig.t) : Prog bool :=
  if negb (isEnabled config) then Ret false
  else
    tryCatch
      (response <- fetch (GET (SyncConfig.apiUrl config ++ "/health")) ;;
       Ret (ok response))
      (fun _ => Ret false).

(* ===================================================================== *)
(** ** Sync coordinator ([use-sync.ts]) *)
(* ===================================================================== *)

Section UseSync.

(** [getSyncService()] (line 21): [None] is [null]. *)
Variable syncService : option SyncConfig.t.
Variable options : UseSyncOptions.t.

(** [enabled = true] (line 15) *)
Definition enabled : bool :=
  match UseSyncOptions.enabled options with
  | Some b => b
  | None => true
  end.

(** [debounceMs = 2000] (line 16) *)
Definition debounceMs : Z :=
  match UseSyncOptions.debounceMs options with
  | Some ms => ms
  | None => 2000
  end.

(** [syncService?.isEnabled], as a condition *)
Definition serviceIsEnabled : bool :=
  match syncService with
  | Some service => isEnabled service
  | None => false
  end.

(** [lastSyncedDiagramRef.current === diagramJSON] *)
Definition sameJSON (last : option string) (diagramJSON : string) : bool :=
  match last with
  | Some s => String.eqb s diagramJSON
  | None => false
  end.

(** [pushDiagram] (lines 25-60), returned as [pushDiagramImmediate]. *)
Definition pushDiagram (d : Diagram.t) : Prog unit :=
  match syncService with
  | None => Ret tt
  | Some service =>
      if negb (isEnabled service) || negb enabled then Ret tt
      else
        syncing <- perform ReadIsSyncing ;;
        if syncing then Ret tt
        else
          tryFinally
            (tryCatch
               (perform (WriteIsSyncing true) ;;
                let diagramJSON := JSON_stringify d in
                last <- perform ReadLastSynced ;;
                if sameJSON last diagramJSON then Ret tt
                else
                  response <- push service d ;;
                  success <- liftResult (getProp response "success") ;;
                  if truthy success
                  then
                    perform (WriteLastSynced diagramJSON) ;;
                    optCall (UseSyncOptions.onSyncSuccess options)
                            (OnSyncSuccess (Diagram.id d))
                  else Ret tt)
               (fun error =>
                  optCall (UseSyncOptions.onSyncError options)
                          (OnSyncError error)))
            (perform (WriteIsSyncing false))
  end.

(** [pullDiagram] (lines 66-91) *)
Definition pullDiagram (diagramId : string) : Prog (option Diagram.t) :=
  match syncService with
  | None => Ret None
  | Some service =>
      if negb (isEnabled service) || negb enabled then Ret None
      else
        tryCatch
          (diagram <- pull service diagramId ;;
           match diagram with
           | Some d =>
               perform (WriteLastSynced (JSON_stringify d)) ;;
               Ret (Some d)
           | None => Ret None
           end)
          (fun error =>
             optCall (UseSyncOptions.onSyncError options)
                     (OnSyncError error) ;;
             Ret None)
  end.

(** [listDiagrams] (lines 93-108) *)
Definition useSync_listDiagrams : Prog (list DiagramListItem.t) :=
  match syncService with
  | None => Ret []
  | Some service =>
      if negb (isEnabled service) || negb enabled then Ret []
      else
        tryCatch
          (listDiagrams service)
          (fun error =>
             optCall (UseSyncOptions.onSyncError options)
                     (OnSyncError error) ;;
             Ret [])
  end.

(** [checkHealth] (lines 110-127) *)
Definition checkHealth : Prog bool :=
  match syncService with
  | None => Ret false
  | Some service =>
      if negb (isEnabled service) then Ret false
      else tryCatch (healthCheck service) (fun _ => Ret false)
  end.

(** [handleBeforeUnload] (lines 140-145): leaving the page is held back
    while a push is in flight. *)
Definition handleBeforeUnload (w : World) : bool := isSyncingRef w.

End UseSync.

(** [useSync()] without options, as [useDiagramLoader] calls it (line 24). *)
Definition noOptions : UseSyncOptions.t :=
  {| UseSyncOptions.enabled := None;
     UseSyncOptions.debounceMs := None;
     UseSyncOptions.onSyncSuccess := false;
     UseSyncOptions.onSyncError := false |}.

(* ===================================================================== *)
(** ** Startup reconciler ([use-diagram-loader.tsx]) *)
(* ===================================================================== *)

Section UseDiagramLoader.

Variable syncService : option SyncConfig.t.

(** [const { diagramId } = useParams()]: [None] is [undefined]. *)
Variable diagramId : option string.

(** [config.defaultDiagramId] *)
Variable defaultDiagramId : option string.

(** A string that may be undefined, as a condition. *)
Definition nonEmpty (s : option string) : option string :=
  match s with
  | Some v => if String.eqb v EmptyString then None else Some v
  | None => None
  end.

Definition listRemoteDiagrams : Prog (list DiagramListItem.t) :=
  useSync_listDiagrams syncService noOptions.

(** The argument of [addDiagram] (lines 76-87). *)
Definition catalogEntry (remote : DiagramListItem.t) : Diagram.t :=
  {| Diagram.id := DiagramListItem.id remote;
     Diagram.name := DiagramListItem.name remote;
     Diagram.databaseType := DiagramListItem.databaseType remote;
     Diagram.databaseEdition := DiagramListItem.databaseEdition remote;
     Diagram.createdAt := DiagramListItem.createdAt remote;
     Diagram.updatedAt := DiagramListItem.updatedAt remote;
     Diagram.tables := None;
     Diagram.relationships := None;
     Diagram.dependencies := None;
     Diagram.areas := None;
     Diagram.customTypes := None;
     Diagram.notes := None |}.

(** [localIds.has(id)] for [localIds = new Set(localDiagrams.map(d => d.id))] *)
Definition has (localIds : list string) (id : string) : bool :=
  existsb (String.eqb id) localIds.

(** The [try] block of lines 63-92. *)
Definition mergeRemoteCatalog : Prog unit :=
  remoteDiagrams <- listRemoteDiagrams ;;
  if (0 <? length remoteDiagrams)%nat
  then
    localDiagrams <- perform StorageListDiagrams ;;
    let localIds := map Diagram.id localDiagrams in
    forOf remoteDiagrams (fun remote =>
      if negb (has localIds (DiagramListItem.id remote))
      then perform (StorageAddDiagram (catalogEntry remote))
      else Ret tt)
  else Ret tt.

(** Lines 63-105: the merge, whose failure is only logged, then the
    prompt. *)
Definition reconcileAndPrompt : Prog unit :=
  tryCatch mergeRemoteCatalog (fun _ => Ret tt) ;;
  diagrams <- perform StorageListDiagrams ;;
  if (0 <? length diagrams)%nat
  then perform (Call (OpenOpenDiagramDialog false))
  else perform (Call OpenCreateDiagramDialog).

(** [loadDefaultDiagram] (lines 37-106) *)
Definition loadDefaultDiagram : Prog unit :=
  match nonEmpty diagramId with
  | Some id =>
      perform (Call (SetInitialDiagram None)) ;;
      perform (Call ShowLoader) ;;
      perform (Call ResetRedoStack) ;;
      perform (Call ResetUndoStack) ;;
      diagram <- perform (LoadDiagram id) ;;
      match diagram with
      | None =>
          perform (Call (OpenOpenDiagramDialog false)) ;;
          perform (Call HideLoader)
      | Some d =>
          perform (Call (SetInitialDiagram (Some d))) ;;
          perform (Call HideLoader)
      end
  | None =>
      match nonEmpty defaultDiagramId with
      | Some defaultId =>
          diagram <- perform (LoadDiagram defaultId) ;;
          match diagram with
          | Some _ => perform (Call (Navigate ("/diagrams/" ++ defaultId)))
          | None => reconcileAndPrompt
          end
      | None => reconcileAndPrompt
      end
  end.

(** [diagramId ?? ''] *)
Definition orEmpty (s : option string) : string :=
  match s with
  | Some v => v
  | None => EmptyString
  end.

Definition sameOptString (a b : option string) : bool :=
  match a, b with
  | Some x, Some y => String.eqb x y
  | None, None => true
  | _, _ => false
  end.

(** The effect of [useDiagramLoader] (lines 28-132), for a configuration that
    may not be loaded yet and the id of the current diagram, if any. *)
Definition loaderEffect (configLoaded : bool)
  (currentDiagramId : option string) : Prog unit :=
  if negb configLoaded then Ret tt
  else if sameOptString currentDiagramId diagramId then Ret tt
  else
    loading <- perform ReadLoadingRef ;;
    if sameOptString loading (Some (orEmpty diagramId)) then Ret tt
    else
      perform (WriteLoadingRef (orEmpty diagramId)) ;;
      loadDefaultDiagram.

End UseDiagramLoader.

(* ===================================================================== *)
(** ** Notions used to state the properties *)
(* ===================================================================== *)

Unset Implicit Arguments.

(** [n] more readings of the clock. *)
Definition advance (n : nat) (w : World) : World :=
  {| isSyncingRef := isSyncingRef w;
     lastSyncedDiagramRef := lastSyncedDiagramRef w;
     clockReads := (n + clockReads w)%nat;
     currentDiagramLoadingRef := currentDiagramLoadingRef w;
     localCatalog := localCatalog w |}.

(** [p] runs from [w] to [w'] without suspending, with events [tr], and
    returns [a]. *)
Definition returns {A} (p : Prog A) (w w' : World) (tr : list Event) (a : A)
  : Prop :=
  forall net, run p w net = (w', tr, Done (Ok a)).

(** Texts made of whitespace only, and texts that start with whitespace. *)
Fixpoint allWhiteSpace (s : string) : bool :=
  match s with
  | EmptyString => true
  | String c rest => isWhiteSpace c && allWhiteSpace rest
  end.

Definition startsWithWhiteSpace (s : string) : bool :=
  match s with
  | EmptyString => false
  | String c _ => isWhiteSpace c
  end.

(** The longest prefix of whitespace, and what follows it. *)
Fixpoint takeWhiteSpace (s : string) : string :=
  match s with
  | EmptyString => EmptyString
  | String c rest =>
      if isWhiteSpace c then String c (takeWhiteSpace rest) else EmptyString
  end.

Fixpoint skipWhiteSpace (s : string) : string :=
  match s with
  | EmptyString => EmptyString
  | String c rest => if isWhiteSpace c then skipWhiteSpace rest else s
  end.

(** "The string with every whitespace run replaced by an underscore", said
    without a scan: the text is cut into characters that are not whitespace,
    copied one by one, and maximal runs of whitespace, each written as one
    underscore. *)
Inductive RunsReplaced : string -> string -> Prop :=
| RunsReplaced_end : RunsReplaced EmptyString EmptyString
| RunsReplaced_char c rest out :
    isWhiteSpace c = false ->
    RunsReplaced rest out ->
    RunsReplaced (String c rest) (String c out)
| RunsReplaced_run c ws rest out :
    isWhiteSpace c = true ->
    allWhiteSpace ws = true ->
    startsWithWhiteSpace rest = false ->
    RunsReplaced rest out ->
    RunsReplaced (String c (ws ++ rest)) (String "_" out).

(** The time values a [Date] can hold (ECMAScript's time clip). *)
Definition validTime (t : Z) : Prop :=
  -8640000000000000 <= t <= 8640000000000000.

Definition validDate (d : Date) : Prop :=
  exists t, d = Some t /\ validTime t.

(** Every field of every table has a [createdAt] other than zero. *)
Definition fieldStamped (f : DBField.t) : Prop := DBField.createdAt f <> 0.

Definition fieldsStamped (d : Diagram.t) : Prop :=
  match Diagram.tables d with
  | Some ts => Forall (fun t => Forall fieldStamped (DBTable.fields t)) ts
  | None => True
  end.

(** The [createdAt] of the indexes and of the fields, in a diagram and on the
    wire, in order. *)
Definition indexStamps (d : Diagram.t) : list Z :=
  flat_map (fun t => map DBIndex.createdAt (DBTable.indexes t))
    (match Diagram.tables d with Some ts => ts | None => [] end).

Definition fieldStamps (d : Diagram.t) : list Z :=
  flat_map (fun t => map DBField.createdAt (DBTable.fields t))
    (match Diagram.tables d with Some ts => ts | None => [] end).

Definition wireIndexStamps (w : BackendDiagramResponse.t)
  : list (option Z) :=
  flat_map (fun t =>
              match BackendTable.indexes t with
              | Some l => map BackendIndex.createdAt l
              | None => []
              end)
    (match BackendDiagramResponse.tables w with
     | Some ts => ts
     | None => []
     end).

Definition wireFieldStamps (w : BackendDiagramResponse.t)
  : list (option Z) :=
  flat_map (fun t => map BackendField.createdAt (BackendTable.fields t))
    (match BackendDiagramResponse.tables w with
     | Some ts => ts
     | None => []
     end).

(** A diagram with the [createdAt] of its tables, indexes, relationships and
    dependencies set to zero: two diagrams with the same image differ at most
    in these values. *)
Definition unstampIndex (i : DBIndex.t) : DBIndex.t :=
  {| DBIndex.id := DBIndex.id i;
     DBIndex.name := DBIndex.name i;
     DBIndex.unique := DBIndex.unique i;
     DBIndex.fieldIds := DBIndex.fieldIds i;
     DBIndex.createdAt := 0 |}.

Definition unstampTable (t : DBTable.t) : DBTable.t :=
  {| DBTable.id := DBTable.id t;
     DBTable.name := DBTable.name t;
     DBTable.schema := DBTable.schema t;
     DBTable.x := DBTable.x t;
     DBTable.y := DBTable.y t;
     DBTable.color := DBTable.color t;
     DBTable.isView := DBTable.isView t;
     DBTable.createdAt := 0;
     DBTable.fields := DBTable.fields t;
     DBTable.indexes := map unstampIndex (DBTable.indexes t);
     DBTable.comments := DBTable.comments t |}.

Definition unstampRelationship (r : DBRelationship.t) : DBRelationship.t :=
  {| DBRelationship.id := DBRelationship.id r;
     DBRelationship.name := DBRelationship.name r;
     DBRelationship.sourceTableId := DBRelationship.sourceTableId r;
     DBRelationship.targetTableId := DBRelationship.targetTableId r;
     DBRelationship.sourceFieldId := DBRelationship.sourceFieldId r;
     DBRelationship.targetFieldId := DBRelationship.targetFieldId r;
     DBRelationship.sourceCardinality := DBRelationship.sourceCardinality r;
     DBRelationship.targetCardinality := DBRelationship.targetCardinality r;
     DBRelationship.createdAt := 0 |}.

Definition unstampDependency (d : DBDependency.t) : DBDependency.t :=
  {| DBDependency.id := DBDependency.id d;
     DBDependency.tableId := DBDependency.tableId d;
     DBDependency.dependentTableId := DBDependency.dependentTableId d;
     DBDependency.createdAt := 0 |}.

Definition unstamp (d : Diagram.t) : Diagram.t :=
  {| Diagram.id := Diagram.id d;
     Diagram.name := Diagram.name d;
     Diagram.databaseType := Diagram.databaseType d;
     Diagram.databaseEdition := Diagram.databaseEdition d;
     Diagram.createdAt := Diagram.createdAt d;
     Diagram.updatedAt := Diagram.updatedAt d;
     Diagram.tables := option_map (map unstampTable) (Diagram.tables d);
     Diagram.relationships :=
       option_map (map unstampRelationship) (Diagram.relationships d);
     Diagram.dependencies :=
       option_map (map unstampDependency) (Diagram.dependencies d);
     Diagram.areas := Diagram.areas d;
     Diagram.customTypes := Diagram.customTypes d;
     Diagram.notes := Diagram.notes d |}.

(** The events of [callback?.(...)]. *)
Definition callEvents (supplied : bool) (e : Event) : list Event :=
  if supplied then [e] else [].

(** What [await syncService.push(diagram)] gives once the [fetch] has
    settled with [o]. *)
Definition pushSettled (o : FetchOutcome) : Result JSON :=
  match o with
  | Rejected e => Err e
  | Resolved r =>
      if negb (ok r)
      then match getProp (errorPayload r) "error" with
           | Ok v =>
               Err (newError (toString (orString v "Failed to push diagram")))
           | Err e => Err e
           end
      else match body r with
           | Malformed e => Err e
           | Parsed j => Ok j
           end
  end.

(** What is left of [pushDiagram] at its [fetch]. *)
Definition pushResumed (opts : UseSyncOptions.t) (d : Diagram.t)
  (o : FetchOutcome) : Prog unit :=
  tryFinally
    (tryCatch
       (response <-
          (response <- match o with
                       | Rejected e => Throw e
                       | Resolved r => Ret r
                       end ;;
           if negb (ok response)
           then throwHttpError response "Failed to push diagram"
           else responseJson response) ;;
        success <- liftResult (getProp response "success") ;;
        if truthy success
        then
          perform (WriteLastSynced (JSON_stringify d)) ;;
          optCall (UseSyncOptions.onSyncSuccess opts)
                  (OnSyncSuccess (Diagram.id d))
        else Ret tt)
       (fun error =>
          optCall (UseSyncOptions.onSyncError opts) (OnSyncError error)))
    (perform (WriteIsSyncing false)).

(** The request of a push. *)
Definition pushRequest (config : SyncConfig.t)
  (wire : BackendDiagramResponse.t) : Request :=
  POST (SyncConfig.apiUrl config ++ "/api/sync/push") {| diagram := wire |}.


(** The request of a pull. *)
Definition pullRequest (config : SyncConfig.t) (diagramId : string)
  : Request :=
  GET (SyncConfig.apiUrl config ++ "/api/sync/pull/" ++ diagramId).

(** The remote entries whose id the local catalog does not have. *)
Definition missingLocally (localIds : list string)
  (remote : list DiagramListItem.t) : list DiagramListItem.t :=
  filter (fun x => negb (has localIds (DiagramListItem.id x))) remote.

(** The words of the specification for the merge, to compare the code
    with.  A remote entry counts when its id is not among the ids of the
    local catalog; the local entry made for it has the entry's [id], [name],
    [databaseType], [databaseEdition], [createdAt] and [updatedAt], the two
    dates read from the texts of the answer, and no collection. *)
Definition absentLocally (localIds : list string)
  (item : BackendListItem.t) : bool :=
  if in_dec string_dec (BackendListItem.id item) localIds
  then false else true.

Definition populatedFromRemote (item : BackendListItem.t) (d : Diagram.t)
  : Prop :=
  Diagram.id d = BackendListItem.id item
  /\ Diagram.name d = BackendListItem.name item
  /\ Diagram.databaseType d = BackendListItem.database_type item
  /\ Diagram.databaseEdition d = BackendListItem.database_edition item
  /\ Diagram.createdAt d = newDate (BackendListItem.created_at item)
  /\ Diagram.updatedAt d = newDate (BackendListItem.updated_at item)
  /\ Diagram.tables d = None
  /\ Diagram.relationships d = None
  /\ Diagram.dependencies d = None
  /\ Diagram.areas d = None
  /\ Diagram.customTypes d = None
  /\ Diagram.notes d = None.

(** The state after [addDiagram] on each of [ds], in order. *)
Definition addAll (ds : list Diagram.t) (w : World) : World :=
  fold_left (fun w0 d => addToCatalog d w0) ds w.

(** The prompt the reconciler ends with. *)
Definition prompt (catalog : list Diagram.t) : Event :=
  if (0 <? length catalog)%nat
  then OpenOpenDiagramDialog false
  else OpenCreateDiagramDialog.

(** What follows the answer of the list request in [reconcileAndPrompt]. *)
Definition mergeAndPrompt (remoteDiagrams : list DiagramListItem.t)
  : Prog unit :=
  tryCatch
    (if (0 <? length remoteDiagrams)%nat
     then
       localDiagrams <- perform StorageListDiagrams ;;
       let localIds := map Diagram.id localDiagrams in
       forOf remoteDiagrams (fun remote =>
         if negb (has localIds (DiagramListItem.id remote))
         then perform (StorageAddDiagram (catalogEntry remote))
         else Ret tt)
     else Ret tt)
    (fun _ => Ret tt) ;;
  diagrams <- perform StorageListDiagrams ;;
  if (0 <? length diagrams)%nat
  then perform (Call (OpenOpenDiagramDialog false))
  else perform (Call OpenCreateDiagramDialog).

(** The request of the list. *)
Definition listRequest (config : SyncConfig.t) : Request :=
  GET (SyncConfig.apiUrl config ++ "/api/sync/diagrams").

(** The attempt to load the default diagram, when one is configured. *)
Definition defaultAttempt (defaultDiagramId : option string) : list Event :=
  match nonEmpty defaultDiagramId with
  | Some id => [LoadDiagramCalled id]
  | None => []
  end.

(* ===================================================================== *)
(** ** The application's start ([app.tsx]) and the service singleton *)
(* ===================================================================== *)

(** [initSyncService] ([sync-service.ts], lines 405-410): the new value of
    the module variable [syncServiceInstance], which starts as [null] and
    which [getSyncService] (lines 412-414) returns. *)
Definition initSyncService (config : SyncConfig.t) : option SyncConfig.t :=
  Some config.

(** The effect of [App] ([app.tsx], lines 11-24), for the constant
    [SYNC_API_URL] of [./lib/env], which is not part of the code: the value
    of [syncServiceInstance] afterwards. *)
Definition appStart (SYNC_API_URL : string) : option SyncConfig.t :=
  let syncEnabled := negb (String.eqb SYNC_API_URL EmptyString) in
  initSyncService {| SyncConfig.apiUrl := SYNC_API_URL;
                     SyncConfig.enabled := syncEnabled |}.

(** The effect of lines 129-133 of [use-sync.ts]: a health check when the
    coordinator is active. *)
Definition healthEffect (syncService : option SyncConfig.t)
  (options : UseSyncOptions.t) : Prog unit :=
  if serviceIsEnabled syncService && enabled options
  then checkHealth syncService ;; Ret tt
  else Ret tt.

(* ===================================================================== *)
(** ** More notions used to state properties *)
(* ===================================================================== *)

(** A property of every element of a collection that may be absent, and a
    relation between two such collections, element by element. *)
Definition optForall {X} (P : X -> Prop) (o : option (list X)) : Prop :=
  match o with
  | Some l => Forall P l
  | None => True
  end.

Definition optForall2 {X Y} (R : X -> Y -> Prop) (o : option (list X))
  (o' : option (list Y)) : Prop :=
  match o, o' with
  | Some l, Some l' => Forall2 R l l'
  | None, None => True
  | _, _ => False
  end.

(** A [createdAt] that is on the wire and not zero, and a decoded value that
    keeps such a [createdAt]. *)
Definition stamped (c : option Z) : Prop :=
  exists x, c = Some x /\ x <> 0.

Definition keepsStamp (c : option Z) (v : Z) : Prop :=
  forall x, c = Some x -> x <> 0 -> v = x.

(** What a decoded entity has in common with the wire entity. *)
Definition fieldDecoded (wf : BackendField.t) (f : DBField.t) : Prop :=
  DBField.id f = BackendField.id wf
  /\ DBField.name f = BackendField.name wf
  /\ DBField.type f = fieldType (BackendField.type wf)
  /\ keepsStamp (BackendField.createdAt wf) (DBField.createdAt f).

Definition indexDecoded (wi : BackendIndex.t) (i : DBIndex.t) : Prop :=
  DBIndex.id i = BackendIndex.id wi
  /\ DBIndex.name i = BackendIndex.name wi
  /\ DBIndex.unique i = BackendIndex.unique wi
  /\ DBIndex.fieldIds i = BackendIndex.fieldIds wi.

Definition wireIndexes (wt : BackendTable.t) : list BackendIndex.t :=
  match BackendTable.indexes wt with
  | Some l => l
  | None => []
  end.

Definition tableDecoded (wt : BackendTable.t) (t : DBTable.t) : Prop :=
  DBTable.id t = BackendTable.id wt
  /\ DBTable.name t = BackendTable.name wt
  /\ keepsStamp (BackendTable.createdAt wt) (DBTable.createdAt t)
  /\ Forall2 fieldDecoded (BackendTable.fields wt) (DBTable.fields t)
  /\ Forall2 indexDecoded (wireIndexes wt) (DBTable.indexes t).

Definition relationshipDecoded (wr : BackendRelationship.t)
  (r : DBRelationship.t) : Prop :=
  DBRelationship.id r = BackendRelationship.id wr
  /\ DBRelationship.sourceTableId r = BackendRelationship.sourceTableId wr
  /\ DBRelationship.targetTableId r = BackendRelationship.targetTableId wr
  /\ DBRelationship.sourceFieldId r = BackendRelationship.sourceFieldId wr
  /\ DBRelationship.targetFieldId r = BackendRelationship.targetFieldId wr
  /\ keepsStamp (BackendRelationship.createdAt wr)
       (DBRelationship.createdAt r).

Definition dependencyDecoded (wd : BackendDependency.t)
  (d : DBDependency.t) : Prop :=
  DBDependency.id d = BackendDependency.id wd
  /\ DBDependency.tableId d = BackendDependency.tableId wd
  /\ DBDependency.dependentTableId d = BackendDependency.dependentTableId wd
  /\ keepsStamp (BackendDependency.createdAt wd) (DBDependency.createdAt d).

(** A wire diagram in which every table, field, relationship and dependency
    has a [createdAt] other than zero, and no table has an index. *)
Definition tableFullyStamped (wt : BackendTable.t) : Prop :=
  stamped (BackendTable.createdAt wt)
  /\ Forall (fun f => stamped (BackendField.createdAt f))
       (BackendTable.fields wt)
  /\ wireIndexes wt = [].

Definition fullyStamped (data : BackendDiagramResponse.t) : Prop :=
  optForall tableFullyStamped (BackendDiagramResponse.tables data)
  /\ optForall (fun r => stamped (BackendRelationship.createdAt r))
       (BackendDiagramResponse.relationships data)
  /\ optForall (fun d => stamped (BackendDependency.createdAt d))
       (BackendDiagramResponse.dependencies data).

(** Texts without whitespace, and without capital letters (A-Z and the
    capitals of Latin-1). *)
Definition isCapital (c : ascii) : bool :=
  let n := code c in
  ((65 <=? n) && (n <=? 90))
  || ((192 <=? n) && (n <=? 222) && negb (n =? 215)).

Fixpoint noWhiteSpace (s : string) : bool :=
  match s with
  | EmptyString => true
  | String c rest => negb (isWhiteSpace c) && noWhiteSpace rest
  end.

Fixpoint noCapital (s : string) : bool :=
  match s with
  | EmptyString => true
  | String c rest => negb (isCapital c) && noCapital rest
  end.

(** The answer makes the push count as done: a success status and a body
    whose [success] is truthy. *)
Definition accepts (o : FetchOutcome) : bool :=
  match o with
  | Rejected _ => false
  | Resolved r =>
      ok r
      && match body r with
         | Malformed _ => false
         | Parsed j =>
             match getProp j "success" with
             | Ok v => truthy v
             | Err _ => false
             end
         end
  end.

(** The list request fails: the transport throws, the status is not a
    success status, the body is not JSON, or it is not a list of entries. *)
Definition listFails (o : FetchOutcome) : Prop :=
  match o with
  | Rejected _ => True
  | Resolved r =>
      ok r = false
      \/ (exists e, body r = Malformed e)
      \/ (exists j e, body r = Parsed j /\ asBackendList j = Err e)
  end.

(** The request of a health check. *)
Definition healthRequest (config : SyncConfig.t) : Request :=
  GET (SyncConfig.apiUrl config ++ "/health").

(** What is left of [pullDiagram] once the body of a pull has been read as
    [wire]. *)
Definition pullDecoded (opts : UseSyncOptions.t)
  (wire : BackendDiagramResponse.t) : Prog (option Diagram.t) :=
  tryCatch
    (diagram <- (d <- deserializeDiagram wire ;; Ret (Some d)) ;;
     match diagram with
     | Some d =>
         perform (WriteLastSynced (JSON_stringify d)) ;;
         Ret (Some d)
     | None => Ret None
     end)
    (fun error =>
       optCall (UseSyncOptions.onSyncError opts) (OnSyncError error) ;;
       Ret None).

(** The state is [w] but for the local catalog, to which diagrams were
    added. *)
Definition onlyAdds (w w' : World) : Prop :=
  exists ds, w' = addAll ds w.

(* ===================================================================== *)
(** ** Running programs: general facts *)
(* ===================================================================== *)

Lemma advance_0 (w : World) : advance 0 w = w.
Proof. destruct w; reflexivity. Qed.

Lemma advance_tick (w : World) : tick w = advance 1 w.
Proof. reflexivity. Qed.

Lemma advance_advance (n m : nat) (w : World) :
  advance m (advance n w) = advance (n + m) w.
Proof.
  unfold advance; simpl. f_equal. lia.
Qed.

Lemma returns_Ret {A} (a : A) (w : World) : returns (Ret a) w w [] a.
Proof. intros net; reflexivity. Qed.

Lemma returns_bind {A B} (p : Prog A) (f : A -> Prog B)
  (w w1 w2 : World) (tr1 tr2 : list Event) (a : A) (b : B) :
  returns p w w1 tr1 a ->
  returns (f a) w1 w2 tr2 b ->
  returns (bind p f) w w2 (tr1 ++ tr2)%list b.
Proof.
  revert w tr1.
  induction p as [a0 | e | X op k IH | req k IH]; intros w tr1 Hp Hf.
  - specialize (Hp []); simpl in Hp.
    injection Hp as -> <- ->. exact Hf.
  - specialize (Hp []); discriminate Hp.
  - intros net. simpl.
    destruct (handle op w) as [[x w'] evs] eqn:Hop.
    assert (Hk : exists tr', tr1 = (evs ++ tr')%list
                             /\ returns (k x) w' w1 tr' a).
    { pose proof (Hp []) as H0. simpl in H0. rewrite Hop in H0.
      destruct (run (k x) w' []) as [[w0 tr0] s0] eqn:Hr0.
      injection H0 as -> <- ->.
      exists tr0. split; [reflexivity|].
      intros net'. pose proof (Hp net') as H1. simpl in H1.
      rewrite Hop in H1.
      destruct (run (k x) w' net') as [[w3 tr3] s3].
      injection H1 as -> H1 ->.
      apply app_inv_head in H1. subst tr3. reflexivity. }
    destruct Hk as (tr' & -> & Hk).
    rewrite (IH x w' tr' Hk Hf net).
    rewrite app_assoc. reflexivity.
  - specialize (Hp []); discriminate Hp.
Qed.

Lemma returns_perform_DateNow (w : World) :
  returns (perform DateNow) w (advance 1 w) [] (clock (clockReads w)).
Proof. intros net; reflexivity. Qed.

(** Mapping a decoder over an encoded list: when each element decodes to
    itself up to [erase], reading only the clock, so does the list. *)
Lemma returns_mapProg {X W} (g : X -> W) (f : W -> Prog X) (erase : X -> X)
  (P : X -> Prop) :
  (forall x w, P x ->
     exists n y, returns (f (g x)) w (advance n w) [] y
                 /\ erase y = erase x) ->
  forall l w, Forall P l ->
    exists n ys, returns (mapProg f (map g l)) w (advance n w) [] ys
                 /\ map erase ys = map erase l.
Proof.
  intros Hf l. induction l as [|x l IH]; intros w HP.
  - exists 0%nat, []. rewrite advance_0. split; [apply returns_Ret|reflexivity].
  - inversion HP as [|? ? Hx Hl]; subst.
    destruct (Hf x w Hx) as (n1 & y & Hy & Ey).
    destruct (IH (advance n1 w) Hl) as (n2 & ys & Hys & Eys).
    exists (n1 + n2)%nat, (y :: ys). split.
    + simpl.
      change (@nil Event) with (([] : list Event) ++ [])%list.
      eapply returns_bind; [exact Hy|].
      change (@nil Event) with (([] : list Event) ++ [])%list.
      eapply returns_bind; [exact Hys|].
      rewrite advance_advance. apply returns_Ret.
    + simpl. rewrite Ey, Eys. reflexivity.
Qed.

(* ===================================================================== *)
(** ** Field type normalisation *)
(* ===================================================================== *)

Lemma replaceRuns_skip (r ws rest : string) :
  allWhiteSpace ws = true ->
  replaceRuns r true (ws ++ rest) = replaceRuns r true rest.
Proof.
  induction ws as [|c ws IH]; simpl; intros H; [reflexivity|].
  apply andb_true_iff in H as [Hc Hws]. rewrite Hc. auto.
Qed.

Lemma replaceRuns_flag (r rest : string) :
  startsWithWhiteSpace rest = false ->
  replaceRuns r true rest = replaceRuns r false rest.
Proof.
  destruct rest as [|c rest]; simpl; intros H; [reflexivity|].
  rewrite H. reflexivity.
Qed.

Lemma take_skip (s : string) : s = takeWhiteSpace s ++ skipWhiteSpace s.
Proof.
  induction s as [|c s IH]; simpl; [reflexivity|].
  destruct (isWhiteSpace c); simpl; [f_equal; exact IH|reflexivity].
Qed.

Lemma takeWhiteSpace_all (s : string) :
  allWhiteSpace (takeWhiteSpace s) = true.
Proof.
  induction s as [|c s IH]; simpl; [reflexivity|].
  destruct (isWhiteSpace c) eqn:Hc; simpl; [rewrite Hc; exact IH|reflexivity].
Qed.

Lemma skipWhiteSpace_start (s : string) :
  startsWithWhiteSpace (skipWhiteSpace s) = false.
Proof.
  induction s as [|c s IH]; simpl; [reflexivity|].
  destruct (isWhiteSpace c) eqn:Hc; simpl; [exact IH|exact Hc].
Qed.

Lemma skipWhiteSpace_length (s : string) :
  (String.length (skipWhiteSpace s) <= String.length s)%nat.
Proof.
  induction s as [|c s IH]; simpl; [lia|].
  destruct (isWhiteSpace c); simpl; lia.
Qed.

(** The scan produces the text with its whitespace runs replaced. *)
Lemma replaceRuns_sound (s : string) :
  RunsReplaced s (replaceWhiteSpaceRuns s "_").
Proof.
  unfold replaceWhiteSpaceRuns.
  remember (String.length s) as n eqn:Hn.
  revert s Hn. induction n as [n IH] using lt_wf_ind. intros s Hn.
  destruct s as [|c s]; simpl; [constructor|].
  destruct (isWhiteSpace c) eqn:Hc.
  - assert (E : replaceRuns "_" true s
                 = replaceRuns "_" false (skipWhiteSpace s)).
    { rewrite <- replaceRuns_flag by apply skipWhiteSpace_start.
      rewrite <- (replaceRuns_skip "_" (takeWhiteSpace s) (skipWhiteSpace s))
        by apply takeWhiteSpace_all.
      rewrite <- take_skip. reflexivity. }
    rewrite E.
    replace (String c s)
      with (String c (takeWhiteSpace s ++ skipWhiteSpace s))
      by (rewrite <- take_skip; reflexivity).
    apply RunsReplaced_run;
      [exact Hc|apply takeWhiteSpace_all|apply skipWhiteSpace_start|].
    apply (IH (String.length (skipWhiteSpace s))); [|reflexivity].
    subst n. simpl. pose proof (skipWhiteSpace_length s). lia.
  - apply RunsReplaced_char; [exact Hc|].
    apply (IH (String.length s)); [subst n; simpl; lia|reflexivity].
Qed.

(** No other text is the one with the runs replaced. *)
Lemma replaceRuns_complete (s out : string) :
  RunsReplaced s out -> out = replaceWhiteSpaceRuns s "_".
Proof.
  unfold replaceWhiteSpaceRuns.
  induction 1 as [|c rest out Hc _ IH|c ws rest out Hc Hws Hrest _ IH];
    simpl.
  - reflexivity.
  - rewrite Hc, IH. reflexivity.
  - rewrite Hc, replaceRuns_skip, replaceRuns_flag, IH by assumption.
    reflexivity.
Qed.

Lemma returns_orDateNow (c : option Z) (w : World) :
  exists n v, returns (orDateNow c) w (advance n w) [] v
              /\ (forall x, c = Some x -> x <> 0 -> v = x /\ n = 0%nat).
Proof.
  destruct c as [x|]; simpl.
  - destruct (x =? 0) eqn:Hx.
    + exists 1%nat, (clock (clockReads w)). split.
      * apply returns_perform_DateNow.
      * intros y [= <-] Hy. apply Z.eqb_eq in Hx. contradiction.
    + exists 0%nat, x. rewrite advance_0. split.
      * apply returns_Ret.
      * intros y [= <-] _. split; reflexivity.
  - exists 1%nat, (clock (clockReads w)). split.
    + apply returns_perform_DateNow.
    + intros x Hx; discriminate Hx.
Qed.

(** C9.  Decoding a wire field never fails and reads at most the clock.  When
    the wire type is a bare string, the decoded type has that string as its
    name, and its id is the string in lower case with every run of whitespace
    replaced by one underscore; when the wire type is a structured pair, it is
    the decoded type, unchanged. *)
Theorem field_type_normalization (f : BackendField.t) (w : World) :
  exists n f',
    returns (deserializeField f) w (advance n w) [] f'
    /\ match BackendField.type f with
       | inl s =>
           DataType.name (DBField.type f') = s
           /\ forall out,
                RunsReplaced (toLowerCase s) out
                <-> out = DataType.id (DBField.type f')
       | inr structured => DBField.type f' = structured
       end.
Proof.
  destruct (returns_orDateNow (BackendField.createdAt f) w)
    as (n & v & Hv & _).
  exists n. eexists. split.
  - unfold deserializeField.
    change (@nil Event) with (([] : list Event) ++ [])%list.
    eapply returns_bind; [exact Hv|]. apply returns_Ret.
  - simpl. destruct (BackendField.type f) as [s|p]; simpl.
    + split; [reflexivity|]. intros out. split.
      * apply replaceRuns_complete.
      * intros ->. apply replaceRuns_sound.
    + reflexivity.
Qed.

(* ===================================================================== *)
(** ** Round trip through the codec *)
(* ===================================================================== *)

Lemma returns_bind_quiet {A B} (p : Prog A) (f : A -> Prog B)
  (w w1 w2 : World) (a : A) (b : B) :
  returns p w w1 [] a ->
  returns (f a) w1 w2 [] b ->
  returns (bind p f) w w2 [] b.
Proof.
  intros Hp Hf.
  change (@nil Event) with (([] : list Event) ++ [])%list.
  eapply returns_bind; eassumption.
Qed.

Lemma returns_optMapProg {X W} (g : X -> W) (f : W -> Prog X)
  (erase : X -> X) (P : X -> Prop) :
  (forall x w, P x ->
     exists n y, returns (f (g x)) w (advance n w) [] y
                 /\ erase y = erase x) ->
  forall o w,
    match o with Some l => Forall P l | None => True end ->
    exists n o', returns (optMapProg f (option_map (map g) o)) w
                   (advance n w) [] o'
                 /\ option_map (map erase) o' = option_map (map erase) o.
Proof.
  intros Hf [l|] w HP; simpl.
  - destruct (@returns_mapProg _ _ g f erase P Hf l w HP) as (n & ys & Hys & E).
    exists n, (Some ys). split.
    + eapply returns_bind_quiet; [exact Hys|apply returns_Ret].
    + simpl. rewrite E. reflexivity.
  - exists 0%nat, None. rewrite advance_0.
    split; [apply returns_Ret|reflexivity].
Qed.

Lemma decode_field (f : DBField.t) (w : World) :
  fieldStamped f ->
  exists n y, returns (deserializeField (wireField f)) w (advance n w) [] y
              /\ y = f.
Proof.
  intros Hf. exists 0%nat, f. rewrite advance_0. split; [|reflexivity].
  unfold deserializeField, wireField, orDateNow; simpl.
  destruct (DBField.createdAt f =? 0) eqn:E.
  - apply Z.eqb_eq in E. contradiction.
  - destruct f; apply returns_Ret.
Qed.

Lemma decode_index (i : DBIndex.t) (w : World) :
  True ->
  exists n y, returns (deserializeIndex (wireIndex i)) w (advance n w) [] y
              /\ unstampIndex y = unstampIndex i.
Proof.
  intros _. exists 1%nat. eexists. split.
  - unfold deserializeIndex.
    eapply returns_bind_quiet;
      [apply returns_perform_DateNow|apply returns_Ret].
  - reflexivity.
Qed.

Lemma decode_table (diagramId : string) (t : DBTable.t) (w : World) :
  Forall fieldStamped (DBTable.fields t) ->
  exists n y,
    returns (deserializeTable (serializeTable diagramId t)) w
      (advance n w) [] y
    /\ unstampTable y = unstampTable t.
Proof.
  intros Hf.
  destruct (@returns_mapProg _ _ wireField deserializeField (fun f => f)
              fieldStamped
              (fun f w0 H => decode_field f w0 H)
              (DBTable.fields t) (advance 1 w) Hf)
    as (n1 & fs & Hfs & Efs).
  rewrite !map_id in Efs. subst fs.
  destruct (@returns_mapProg _ _ wireIndex deserializeIndex unstampIndex
              (fun _ => True)
              (fun i w0 H => decode_index i w0 H)
              (DBTable.indexes t) (advance n1 (advance 1 w)))
    as (n2 & ixs & Hixs & Eixs).
  { apply Forall_forall. trivial. }
  exists (1 + n1 + n2)%nat. eexists. split.
  - unfold deserializeTable.
    eapply returns_bind_quiet; [apply returns_perform_DateNow|].
    eapply returns_bind_quiet; [exact Hfs|].
    eapply returns_bind_quiet; [exact Hixs|].
    rewrite !advance_advance. apply returns_Ret.
  - unfold unstampTable; simpl. rewrite Eixs. reflexivity.
Qed.

Lemma decode_relationship (diagramId : string) (r : DBRelationship.t)
  (w : World) :
  True ->
  exists n y,
    returns (deserializeRelationship (serializeRelationship diagramId r)) w
      (advance n w) [] y
    /\ unstampRelationship y = unstampRelationship r.
Proof.
  intros _. exists 1%nat. eexists. split.
  - unfold deserializeRelationship.
    eapply returns_bind_quiet;
      [apply returns_perform_DateNow|apply returns_Ret].
  - reflexivity.
Qed.

Lemma decode_dependency (diagramId : string) (d : DBDependency.t)
  (w : World) :
  True ->
  exists n y,
    returns (deserializeDependency (serializeDependency diagramId d)) w
      (advance n w) [] y
    /\ unstampDependency y = unstampDependency d.
Proof.
  intros _. exists 1%nat. eexists. split.
  - unfold deserializeDependency.
    eapply returns_bind_quiet;
      [apply returns_perform_DateNow|apply returns_Ret].
  - reflexivity.
Qed.

Lemma decode_area (diagramId : string) (a : Area.t) (w : World) :
  True ->
  exists n y,
    returns (deserializeArea (serializeArea diagramId a)) w
      (advance n w) [] y
    /\ y = a.
Proof.
  intros _. exists 0%nat, a. rewrite advance_0. split; [|reflexivity].
  destruct a; apply returns_Ret.
Qed.

Lemma decode_customType (diagramId : string) (ct : DBCustomType.t)
  (w : World) :
  True ->
  exists n y,
    returns (deserializeCustomType (serializeCustomType diagramId ct)) w
      (advance n w) [] y
    /\ y = ct.
Proof.
  intros _. exists 0%nat, ct. rewrite advance_0. split; [|reflexivity].
  destruct ct; apply returns_Ret.
Qed.

Lemma decode_note (diagramId : string) (n : Note.t) (w : World) :
  True ->
  exists k y,
    returns (deserializeNote (serializeNote diagramId n)) w
      (advance k w) [] y
    /\ y = n.
Proof.
  intros _. exists 0%nat, n. rewrite advance_0. split; [|reflexivity].
  destruct n; apply returns_Ret.
Qed.

Lemma option_map_map_id {X} (o o' : option (list X)) :
  option_map (map (fun x => x)) o' = option_map (map (fun x => x)) o ->
  o' = o.
Proof.
  destruct o, o'; simpl; rewrite ?map_id; intros H;
    congruence.
Qed.

Lemma all_True {X} (o : option (list X)) :
  match o with Some l => Forall (fun _ => True) l | None => True end.
Proof.
  destruct o; [apply Forall_forall|]; trivial.
Qed.

(** C1 (amended).  For a diagram whose two dates are valid and whose fields
    have a [createdAt] other than zero, encoding succeeds, decoding the
    result succeeds, reads only the clock, and gives back the diagram except
    for the [createdAt] of its tables, indexes, relationships and
    dependencies; this holds whether its optional collections are present or
    absent.  The platform is any in which [new Date] reads back what
    [toISOString] writes. *)
Theorem codec_round_trip (d : Diagram.t) (w : World) :
  (forall t, validTime t -> newDate (toISOString t) = Some t) ->
  validDate (Diagram.createdAt d) ->
  validDate (Diagram.updatedAt d) ->
  fieldsStamped d ->
  exists wire n d',
    serializeDiagram d = Ok wire
    /\ returns (deserializeDiagram wire) w (advance n w) [] d'
    /\ unstamp d' = unstamp d.
Proof.
  intros Hlaw (tc & Hc & Vc) (tu & Hu & Vu) Hstamped.
  unfold serializeDiagram. rewrite Hc, Hu; simpl.
  eexists. 
  destruct (@returns_optMapProg _ _ (serializeTable (Diagram.id d))
              deserializeTable unstampTable
              (fun t => Forall fieldStamped (DBTable.fields t))
              (fun t w0 H => decode_table (Diagram.id d) t w0 H)
              (Diagram.tables d) w Hstamped)
    as (n1 & ts & Hts & Ets).
  destruct (@returns_optMapProg _ _ (serializeRelationship (Diagram.id d))
              deserializeRelationship unstampRelationship (fun _ => True)
              (fun r w0 H => decode_relationship (Diagram.id d) r w0 H)
              (Diagram.relationships d) (advance n1 w) (all_True _))
    as (n2 & rs & Hrs & Ers).
  destruct (@returns_optMapProg _ _ (serializeDependency (Diagram.id d))
              deserializeDependency unstampDependency (fun _ => True)
              (fun r w0 H => decode_dependency (Diagram.id d) r w0 H)
              (Diagram.dependencies d) (advance n2 (advance n1 w))
              (all_True _))
    as (n3 & ds & Hds & Eds).
  destruct (@returns_optMapProg _ _ (serializeArea (Diagram.id d))
              deserializeArea (fun a => a) (fun _ => True)
              (fun r w0 H => decode_area (Diagram.id d) r w0 H)
              (Diagram.areas d) (advance n3 (advance n2 (advance n1 w)))
              (all_True _))
    as (n4 & ars & Hars & Ears).
  apply option_map_map_id in Ears. subst ars.
  destruct (@returns_optMapProg _ _ (serializeCustomType (Diagram.id d))
              deserializeCustomType (fun a => a) (fun _ => True)
              (fun r w0 H => decode_customType (Diagram.id d) r w0 H)
              (Diagram.customTypes d)
              (advance n4 (advance n3 (advance n2 (advance n1 w))))
              (all_True _))
    as (n5 & cts & Hcts & Ects).
  apply option_map_map_id in Ects. subst cts.
  destruct (@returns_optMapProg _ _ (serializeNote (Diagram.id d))
              deserializeNote (fun a => a) (fun _ => True)
              (fun r w0 H => decode_note (Diagram.id d) r w0 H)
              (Diagram.notes d)
              (advance n5
                 (advance n4 (advance n3 (advance n2 (advance n1 w)))))
              (all_True _))
    as (n6 & ns & Hns & Ens).
  apply option_map_map_id in Ens. subst ns.
  exists (n1 + (n2 + (n3 + (n4 + (n5 + n6)))))%nat. eexists.
  split; [reflexivity|]. split.
  - unfold deserializeDiagram.
    eapply returns_bind_quiet; [exact Hts|].
    eapply returns_bind_quiet; [exact Hrs|].
    eapply returns_bind_quiet; [exact Hds|].
    eapply returns_bind_quiet; [exact Hars|].
    eapply returns_bind_quiet; [exact Hcts|].
    eapply returns_bind_quiet; [exact Hns|].
    rewrite !advance_advance. apply returns_Ret.
  - unfold unstamp; simpl.
    rewrite Ets, Ers, Eds, (Hlaw _ Vc), (Hlaw _ Vu), Hc, Hu. reflexivity.
Qed.

(* ===================================================================== *)
(** ** The sync client and the coordinator *)
(* ===================================================================== *)

Lemma isEnabled_false (config : SyncConfig.t) :
  SyncConfig.enabled config = false
  \/ SyncConfig.apiUrl config = EmptyString ->
  isEnabled config = false.
Proof.
  unfold isEnabled. intros [H|H]; rewrite H.
  - reflexivity.
  - apply andb_false_r.
Qed.

(** C5.  When the client is disabled, by its flag or by an empty endpoint,
    [push], [pull] and [listDiagrams] throw the error "Sync service is not
    enabled" before any suspension point and without a network request, and
    the coordinator's push, pull and list return nothing, [null] and the empty
    list, again without a network request or any other event, and leave the
    state as it was. *)
Theorem disabled_short_circuit (config : SyncConfig.t)
  (opts : UseSyncOptions.t) (d : Diagram.t) (diagramId : string)
  (w : World) (net : list FetchOutcome) :
  SyncConfig.enabled config = false
  \/ SyncConfig.apiUrl config = EmptyString ->
  run (push config d) w net = (w, [], Done (Err notEnabledError))
  /\ run (pull config diagramId) w net = (w, [], Done (Err notEnabledError))
  /\ run (listDiagrams config) w net = (w, [], Done (Err notEnabledError))
  /\ run (pushDiagram (Some config) opts d) w net = (w, [], Done (Ok tt))
  /\ run (pullDiagram (Some config) opts diagramId) w net
     = (w, [], Done (Ok None))
  /\ run (useSync_listDiagrams (Some config) opts) w net
     = (w, [], Done (Ok [])).
Proof.
  intros H. apply isEnabled_false in H.
  unfold push, pull, listDiagrams, pushDiagram, pullDiagram,
    useSync_listDiagrams.
  rewrite H. simpl. repeat split; reflexivity.
Qed.

Lemma throwHttpError_eq {A} (r : Response) (fallback : string) :
  @throwHttpError A r fallback
  = match getProp (errorPayload r) "error" with
    | Ok v => Throw (newError (toString (orString v fallback)))
    | Err e => Throw e
    end.
Proof.
  unfold throwHttpError. simpl.
  destruct (getProp (errorPayload r) "error"); reflexivity.
Qed.

Lemma run_optCall (supplied : bool) (e : Event) (w : World)
  (net : list FetchOutcome) :
  run (optCall supplied e) w net = (w, callEvents supplied e, Done (Ok tt)).
Proof. destruct supplied; reflexivity. Qed.

(** A push that starts: the flag is set and the request leaves; the rest runs
    when the [fetch] settles. *)
Lemma pushDiagram_starts (config : SyncConfig.t) (opts : UseSyncOptions.t)
  (d : Diagram.t) (wire : BackendDiagramResponse.t) (w : World) :
  isEnabled config = true ->
  enabled opts = true ->
  isSyncingRef w = false ->
  sameJSON (lastSyncedDiagramRef w) (JSON_stringify d) = false ->
  serializeDiagram d = Ok wire ->
  run (pushDiagram (Some config) opts d) w []
  = (setIsSyncing true w, [NetworkRequest (pushRequest config wire)],
     Suspended (pushResumed opts d))
  /\ forall o net,
       run (pushDiagram (Some config) opts d) w (o :: net)
       = let '(w2, tr, s) :=
           run (pushResumed opts d o) (setIsSyncing true w) net in
         (w2, NetworkRequest (pushRequest config wire) :: tr, s).
Proof.
  intros He Ho Hs Hj Hw.
  unfold pushDiagram, push. rewrite He, Ho, Hw.
  simpl. rewrite Hs. simpl. rewrite Hj. simpl.
  split; [reflexivity|].
  intros o net. unfold pushResumed. simpl.
  match goal with
  | |- context [run ?p ?w0 net] =>
      destruct (run p w0 net) as [[w2 tr] s]
  end.
  reflexivity.
Qed.

(** How a resumed push ends, from any state. *)
Lemma run_pushResumed (opts : UseSyncOptions.t) (d : Diagram.t)
  (o : FetchOutcome) (w : World) (net : list FetchOutcome) :
  run (pushResumed opts d o) w net
  = match pushSettled o with
    | Err e =>
        (setIsSyncing false w,
         callEvents (UseSyncOptions.onSyncError opts) (OnSyncError e),
         Done (Ok tt))
    | Ok j =>
        match getProp j "success" with
        | Err e =>
            (setIsSyncing false w,
             callEvents (UseSyncOptions.onSyncError opts) (OnSyncError e),
             Done (Ok tt))
        | Ok v =>
            if truthy v
            then (setIsSyncing false (setLastSynced (JSON_stringify d) w),
                  callEvents (UseSyncOptions.onSyncSuccess opts)
                             (OnSyncSuccess (Diagram.id d)),
                  Done (Ok tt))
            else (setIsSyncing false w, [], Done (Ok tt))
        end
    end.
Proof.
  unfold pushResumed, pushSettled.
  destruct o as [e|r]; simpl.
  - destruct (UseSyncOptions.onSyncError opts); reflexivity.
  - destruct (ok r); simpl.
    + unfold responseJson. destruct (body r) as [e|j]; simpl.
      * destruct (UseSyncOptions.onSyncError opts); reflexivity.
      * destruct (getProp j "success") as [v|e]; simpl.
        -- destruct (truthy v); simpl; [|reflexivity].
           destruct (UseSyncOptions.onSyncSuccess opts); reflexivity.
        -- destruct (UseSyncOptions.onSyncError opts); reflexivity.
    + rewrite throwHttpError_eq.
      destruct (getProp (errorPayload r) "error") as [v|e]; simpl;
        destruct (UseSyncOptions.onSyncError opts); reflexivity.
Qed.

Lemma statusLine_truthy (r : Response) :
  truthy (Some (JString (statusLine r))) = true.
Proof. reflexivity. Qed.


(** C10.  With sync enabled, when a push that goes to the network is answered
    with a success status and a body whose [success] is [false],
    [pushDiagram] calls neither callback; it ends with the in-flight flag
    cleared and the baseline as it was. *)
Theorem push_success_false_is_silent (config : SyncConfig.t)
  (opts : UseSyncOptions.t) (d : Diagram.t)
  (wire : BackendDiagramResponse.t) (w : World) (r : Response) (j : JSON) :
  isEnabled config = true ->
  enabled opts = true ->
  isSyncingRef w = false ->
  sameJSON (lastSyncedDiagramRef w) (JSON_stringify d) = false ->
  serializeDiagram d = Ok wire ->
  ok r = true ->
  body r = Parsed j ->
  getProp j "success" = Ok (Some (JBool false)) ->
  exists w',
    run (pushDiagram (Some config) opts d) w [Resolved r]
    = (w', [NetworkRequest (pushRequest config wire)], Done (Ok tt))
    /\ isSyncingRef w' = false
    /\ lastSyncedDiagramRef w' = lastSyncedDiagramRef w.
Proof.
  intros He Ho Hs Hj Hw Hok Hb Hsucc.
  destruct (pushDiagram_starts config opts d wire w He Ho Hs Hj Hw) as [_ Hrun].
  exists (setIsSyncing false w). split; [|split; reflexivity].
  rewrite Hrun, run_pushResumed. simpl. rewrite Hok, Hb. simpl.
  rewrite Hsucc. reflexivity.
Qed.

(** C3.  With sync enabled, let a first [pushDiagram] go to the network and
    complete successfully (success status, body with a truthy [success]).
    It sends one request, calls the success callback if there is one, and
    records the diagram's serialisation.  A second [pushDiagram] with the
    same diagram then finds the serialisation equal to the recorded one: it
    produces no event at all (no network request, no success callback) and
    leaves the state as it is; so the two calls together send exactly one
    request. *)
Theorem unchanged_diagram_is_pushed_once (config : SyncConfig.t)
  (opts : UseSyncOptions.t) (d : Diagram.t)
  (wire : BackendDiagramResponse.t) (w : World) (r : Response) (j : JSON)
  (v : option JSON) :
  isEnabled config = true ->
  enabled opts = true ->
  isSyncingRef w = false ->
  sameJSON (lastSyncedDiagramRef w) (JSON_stringify d) = false ->
  serializeDiagram d = Ok wire ->
  ok r = true ->
  body r = Parsed j ->
  getProp j "success" = Ok v ->
  truthy v = true ->
  exists w1 tr1,
    run (pushDiagram (Some config) opts d) w [Resolved r]
    = (w1, tr1, Done (Ok tt))
    /\ tr1 = NetworkRequest (pushRequest config wire)
             :: callEvents (UseSyncOptions.onSyncSuccess opts)
                           (OnSyncSuccess (Diagram.id d))
    /\ lastSyncedDiagramRef w1 = Some (JSON_stringify d)
    /\ networkRequests tr1 = 1%nat
    /\ (forall net,
          run (pushDiagram (Some config) opts d) w1 net
          = (w1, [], Done (Ok tt))).
Proof.
  intros He Ho Hs Hj Hw Hok Hb Hsucc Hv.
  destruct (pushDiagram_starts config opts d wire w He Ho Hs Hj Hw) as [_ Hrun].
  eexists. eexists. split; [|split; [reflexivity|]].
  - rewrite Hrun, run_pushResumed. simpl. rewrite Hok, Hb. simpl.
    rewrite Hsucc, Hv. reflexivity.
  - split; [reflexivity|]. split.
    + destruct (UseSyncOptions.onSyncSuccess opts); reflexivity.
    + intros net. unfold pushDiagram. rewrite He, Ho. simpl.
      rewrite String.eqb_refl. reflexivity.
Qed.

Lemma pushDiagram_dropped (svc : option SyncConfig.t)
  (opts : UseSyncOptions.t) (d : Diagram.t) (w : World)
  (net : list FetchOutcome) :
  isSyncingRef w = true ->
  run (pushDiagram svc opts d) w net = (w, [], Done (Ok tt)).
Proof.
  intros Hs. unfold pushDiagram. destruct svc as [config|]; [|reflexivity].
  destruct (negb (isEnabled config) || negb (enabled opts));
    [reflexivity|].
  simpl. rewrite Hs. reflexivity.
Qed.

Lemma pushResumed_finishes (opts : UseSyncOptions.t) (d : Diagram.t)
  (o : FetchOutcome) (w : World) (net : list FetchOutcome) :
  exists w' tr,
    run (pushResumed opts d o) w net = (w', tr, Done (Ok tt))
    /\ isSyncingRef w' = false.
Proof.
  rewrite run_pushResumed.
  destruct (pushSettled o) as [j|e]; [|eauto].
  destruct (getProp j "success") as [v|e]; [|eauto].
  destruct (truthy v); eauto.
Qed.

(** C4.  Starting with the in-flight flag clear, a call of [pushDiagram]
    either finishes, and then the flag is clear again (the push was skipped,
    succeeded or failed), or is suspended at its one network request with the
    flag set.  While it is suspended, any further call returns at once: no
    event, no network request, nothing recorded for later, the state
    untouched.  When the request settles, whatever the outcome and whatever
    the state then, the suspended call finishes with the flag clear. *)
Theorem push_is_single_flight (svc : option SyncConfig.t)
  (opts : UseSyncOptions.t) (d : Diagram.t) (w : World)
  (net : list FetchOutcome) :
  isSyncingRef w = false ->
  match run (pushDiagram svc opts d) w net with
  | (w1, tr, Done r) => r = Ok tt /\ isSyncingRef w1 = false
  | (w1, tr, Suspended k) =>
      net = []
      /\ isSyncingRef w1 = true
      /\ networkRequests tr = 1%nat
      /\ (forall d2 net2,
            run (pushDiagram svc opts d2) w1 net2 = (w1, [], Done (Ok tt)))
      /\ (forall o w2 net2,
            exists w3 tr3,
              run (k o) w2 net2 = (w3, tr3, Done (Ok tt))
              /\ isSyncingRef w3 = false)
  end.
Proof.
  intros Hs. unfold pushDiagram.
  destruct svc as [config|]; [|simpl; auto].
  destruct (isEnabled config) eqn:He; [|simpl; auto].
  destruct (enabled opts) eqn:Ho; [|simpl; auto].
  simpl. rewrite Hs. simpl.
  destruct (sameJSON (lastSyncedDiagramRef w) (JSON_stringify d)) eqn:Hj;
    [simpl; auto|].
  unfold push. rewrite He. simpl.
  destruct (serializeDiagram d) as [wire|e] eqn:Hw; simpl.
  - destruct net as [|o net'].
    + split; [reflexivity|]. split; [reflexivity|].
      split; [reflexivity|]. split.
      * intros d2 net2. reflexivity.
      * intros o w2 net2. apply (pushResumed_finishes opts d o w2 net2).
    + destruct (pushResumed_finishes opts d o (setIsSyncing true w) net')
        as (w' & tr & Hrun & Hflag).
      unfold pushResumed in Hrun. simpl in Hrun. rewrite Hrun.
      split; [reflexivity|exact Hflag].
  - destruct (UseSyncOptions.onSyncError opts); simpl; auto.
Qed.

(** C6.  With sync enabled and an error callback supplied: a pull answered
    with status 404 makes the client return [null], and the coordinator
    return [null] without calling the error callback; a pull answered with
    any other status that is not a success status, or whose transport throws,
    makes the client throw and the coordinator call the error callback with
    what was thrown and return [null]. *)
Theorem pull_not_found_is_absent (config : SyncConfig.t)
  (opts : UseSyncOptions.t) (diagramId : string) (w : World)
  (o : FetchOutcome) :
  isEnabled config = true ->
  enabled opts = true ->
  UseSyncOptions.onSyncError opts = true ->
  match o with
  | Resolved r =>
      (status r = 404 ->
       run (pull config diagramId) w [o]
       = (w, [NetworkRequest (pullRequest config diagramId)],
          Done (Ok None))
       /\ run (pullDiagram (Some config) opts diagramId) w [o]
          = (w, [NetworkRequest (pullRequest config diagramId)],
             Done (Ok None)))
      /\ (status r <> 404 -> ok r = false ->
          exists e,
            run (pull config diagramId) w [o]
            = (w, [NetworkRequest (pullRequest config diagramId)],
               Done (Err e))
            /\ run (pullDiagram (Some config) opts diagramId) w [o]
               = (w, [NetworkRequest (pullRequest config diagramId);
                      OnSyncError e],
                  Done (Ok None)))
  | Rejected e =>
      run (pull config diagramId) w [o]
      = (w, [NetworkRequest (pullRequest config diagramId)], Done (Err e))
      /\ run (pullDiagram (Some config) opts diagramId) w [o]
         = (w, [NetworkRequest (pullRequest config diagramId);
                OnSyncError e],
            Done (Ok None))
  end.
Proof.
  intros He Ho Hcb.
  unfold pullDiagram, pull, pullRequest. rewrite He, Ho. simpl.
  destruct o as [e|r]; simpl.
  - rewrite Hcb. split; reflexivity.
  - split.
    + intros H404. apply Z.eqb_eq in H404. rewrite H404.
      split; reflexivity.
    + intros H404 Hok. apply Z.eqb_neq in H404. rewrite H404, Hok. simpl.
      rewrite throwHttpError_eq.
      destruct (getProp (errorPayload r) "error") as [v|e]; simpl;
        rewrite Hcb; eexists; split; reflexivity.
Qed.

(* ===================================================================== *)
(** ** The startup reconciler *)
(* ===================================================================== *)

(** C8.  With an explicit diagram identifier that the local catalog does not
    hold, [loadDefaultDiagram] clears the staged diagram, shows the loader,
    resets the two stacks, tries to load the diagram, opens the "open
    diagram" dialog with [canClose] false and then hides the loader, and that
    is all: no network request, no write to the catalog, no "create diagram"
    dialog, and the state is left as it was. *)
Theorem explicit_id_not_found (svc : option SyncConfig.t)
  (defaultDiagramId : option string) (id : string) (w : World)
  (net : list FetchOutcome) :
  id <> EmptyString ->
  findDiagram id (localCatalog w) = None ->
  run (loadDefaultDiagram svc (Some id) defaultDiagramId) w net
  = (w,
     [SetInitialDiagram None; ShowLoader; ResetRedoStack; ResetUndoStack;
      LoadDiagramCalled id; OpenOpenDiagramDialog false; HideLoader],
     Done (Ok tt)).
Proof.
  intros Hid Hfind. unfold loadDefaultDiagram, nonEmpty.
  apply String.eqb_neq in Hid. rewrite Hid. simpl.
  rewrite Hfind. reflexivity.
Qed.

Lemma returns_tryCatch {A} (p : Prog A) (h : Error -> Prog A)
  (w w1 : World) (tr : list Event) (a : A) :
  returns p w w1 tr a -> returns (tryCatch p h) w w1 tr a.
Proof.
  revert w tr.
  induction p as [a0 | e | X op k IH | req k IH]; intros w tr Hp.
  - exact Hp.
  - specialize (Hp []); discriminate Hp.
  - intros net. simpl.
    destruct (handle op w) as [[x w'] evs] eqn:Hop.
    assert (Hk : exists tr', tr = (evs ++ tr')%list
                             /\ returns (k x) w' w1 tr' a).
    { pose proof (Hp []) as H0. simpl in H0. rewrite Hop in H0.
      destruct (run (k x) w' []) as [[w0 tr0] s0] eqn:Hr0.
      injection H0 as -> <- ->.
      exists tr0. split; [reflexivity|].
      intros net'. pose proof (Hp net') as H1. simpl in H1.
      rewrite Hop in H1.
      destruct (run (k x) w' net') as [[w3 tr3] s3].
      injection H1 as -> H1 ->.
      apply app_inv_head in H1. subst tr3. reflexivity. }
    destruct Hk as (tr' & -> & Hk).
    rewrite (IH x w' tr' Hk net). reflexivity.
  - specialize (Hp []); discriminate Hp.
Qed.

Lemma localCatalog_addAll (ds : list Diagram.t) (w : World) :
  localCatalog (addAll ds w) = (localCatalog w ++ ds)%list.
Proof.
  revert w. induction ds as [|d ds IH]; intros w; simpl.
  - rewrite app_nil_r. reflexivity.
  - unfold addAll in IH. rewrite IH. simpl. rewrite <- app_assoc.
    reflexivity.
Qed.

(** The loop of lines 74-89. *)
Lemma returns_merge_loop (localIds : list string)
  (remote : list DiagramListItem.t) (w : World) :
  returns
    (forOf remote (fun r =>
       if negb (has localIds (DiagramListItem.id r))
       then perform (StorageAddDiagram (catalogEntry r))
       else Ret tt))
    w
    (addAll (map catalogEntry (missingLocally localIds remote)) w)
    (map AddDiagram (map catalogEntry (missingLocally localIds remote)))
    tt.
Proof.
  revert w. induction remote as [|r remote IH]; intros w.
  - apply returns_Ret.
  - intros net. unfold missingLocally. simpl.
    destruct (negb (has localIds (DiagramListItem.id r))); simpl;
      fold (missingLocally localIds remote);
      rewrite (IH _ net); reflexivity.
Qed.

Lemma returns_mergeAndPrompt (remote : list DiagramListItem.t) (w : World) :
  let added :=
    map catalogEntry
      (missingLocally (map Diagram.id (localCatalog w)) remote) in
  returns (mergeAndPrompt remote) w (addAll added w)
    (map AddDiagram added ++ [prompt (localCatalog w ++ added)])%list tt.
Proof.
  intros added. unfold mergeAndPrompt.
  eapply returns_bind.
  - apply returns_tryCatch.
    destruct (0 <? length remote)%nat eqn:Hlen.
    + change (map AddDiagram added) with ([] ++ map AddDiagram added)%list.
      eapply returns_bind; [intros net; reflexivity|].
      apply returns_merge_loop.
    + destruct remote; [|discriminate Hlen]. apply returns_Ret.
  - intros net. simpl. rewrite localCatalog_addAll. unfold prompt.
    subst added.
    match goal with
    | |- context [(0 <? ?n)%nat] => destruct (0 <? n)%nat
    end; reflexivity.
Qed.

Lemma has_In (localIds : list string) (id : string) :
  has localIds id = true <-> In id localIds.
Proof.
  unfold has. rewrite existsb_exists. split.
  - intros (x & Hx & Heq). apply String.eqb_eq in Heq. subst x. exact Hx.
  - intros H. exists id. split; [exact H|apply String.eqb_refl].
Qed.

Lemma absentLocally_has (localIds : list string)
  (item : BackendListItem.t) :
  negb (has localIds (DiagramListItem.id (listItem item)))
  = absentLocally localIds item.
Proof.
  unfold absentLocally. simpl.
  destruct (in_dec string_dec (BackendListItem.id item) localIds)
    as [Hin|Hout].
  - apply (proj2 (has_In _ _)) in Hin. rewrite Hin. reflexivity.
  - destruct (has localIds (BackendListItem.id item)) eqn:Hh;
      [|reflexivity].
    apply has_In in Hh. contradiction.
Qed.

Lemma missingLocally_listItem (localIds : list string)
  (items : list BackendListItem.t) :
  missingLocally localIds (map listItem items)
  = map listItem (filter (absentLocally localIds) items).
Proof.
  unfold missingLocally.
  induction items as [|item items IH]; [reflexivity|].
  cbn [map filter]. rewrite absentLocally_has, IH.
  destruct (absentLocally localIds item); reflexivity.
Qed.

Lemma populated_catalogEntry (item : BackendListItem.t) :
  populatedFromRemote item (catalogEntry (listItem item)).
Proof. repeat split. Qed.

Lemma Forall2_map_intro {X Y} (P : X -> Y -> Prop) (f : X -> Y)
  (l : list X) :
  (forall x, P x (f x)) -> Forall2 P l (map f l).
Proof.
  intros H. induction l; simpl; constructor; auto.
Qed.

Lemma absentLocally_spec (localIds : list string)
  (item : BackendListItem.t) :
  absentLocally localIds item = true
  <-> ~ In (BackendListItem.id item) localIds.
Proof using Type.
  unfold absentLocally.
  destruct (in_dec string_dec (BackendListItem.id item) localIds)
    as [Hin|Hout]; split; intros H.
  - discriminate H.
  - contradiction.
  - exact Hout.
  - reflexivity.
Qed.

Lemma NoDup_map_filter {X Y} (f : X -> Y) (p : X -> bool) (l : list X) :
  NoDup (map f l) -> NoDup (map f (filter p l)).
Proof.
  induction l as [|x l IH]; simpl; intros H; [constructor|].
  inversion H as [|y ys Hnotin Hrest]; subst.
  destruct (p x); simpl; [|apply IH; exact Hrest].
  constructor; [|apply IH; exact Hrest].
  intros Hin. apply Hnotin.
  apply in_map_iff in Hin as (z & Hz & Hzin).
  apply filter_In in Hzin as [Hzin _].
  rewrite <- Hz. apply in_map. exact Hzin.
Qed.

(** C7.  On a startup without explicit identifier (none, or the empty one)
    and without a default diagram that the local catalog holds, let the list
    request be answered with a success status and the entries [items], with
    distinct ids (what a second [addDiagram] of the same id does is up to
    the store, which is not part of the code).  Then
    [loadDefaultDiagram] sends that one request, calls [addDiagram] once for
    each remote entry whose id no local diagram has, in the order of the
    answer, and ends with a prompt.  The diagram written for an entry has the
    entry's [id], [name], [database_type], [database_edition], and the dates
    read from [created_at] and [updated_at], and no collection.  The local
    catalog afterwards is the one before, every entry as it was, followed by
    these new diagrams: nothing is written for a remote entry whose id is
    already there, every other remote entry gets its diagram, the ids of the
    catalog are exactly the local and the remote ones, and ids that were
    distinct stay distinct. *)
Theorem catalog_merge (config : SyncConfig.t)
  (diagramId defaultDiagramId : option string) (w : World) (r : Response)
  (j : JSON) (items : list BackendListItem.t) :
  isEnabled config = true ->
  nonEmpty diagramId = None ->
  match nonEmpty defaultDiagramId with
  | Some id => findDiagram id (localCatalog w) = None
  | None => True
  end ->
  ok r = true ->
  body r = Parsed j ->
  asBackendList j = Ok items ->
  NoDup (map BackendListItem.id items) ->
  exists w' added,
    run (loadDefaultDiagram (Some config) diagramId defaultDiagramId) w
      [Resolved r]
    = (w',
       (defaultAttempt defaultDiagramId
        ++ NetworkRequest (listRequest config) :: map AddDiagram added
        ++ [prompt (localCatalog w ++ added)])%list,
       Done (Ok tt))
    /\ localCatalog w' = (localCatalog w ++ added)%list
    /\ Forall2 populatedFromRemote
         (filter (absentLocally (map Diagram.id (localCatalog w))) items)
         added
    /\ Forall (fun d =>
         ~ In (Diagram.id d) (map Diagram.id (localCatalog w))
         /\ exists item, In item items /\ populatedFromRemote item d) added
    /\ (forall item,
          In item items ->
          ~ In (BackendListItem.id item) (map Diagram.id (localCatalog w)) ->
          exists d, In d added /\ populatedFromRemote item d)
    /\ (forall id,
          In id (map Diagram.id (localCatalog w'))
          <-> In id (map Diagram.id (localCatalog w))
              \/ In id (map BackendListItem.id items))
    /\ (NoDup (map Diagram.id (localCatalog w)) ->
        NoDup (map Diagram.id (localCatalog w'))).
Proof using newDate clock asBackendList.
  intros He Hid Hdef Hok Hb Hlist Hnd.
  set (localIds := map Diagram.id (localCatalog w)).
  set (kept := filter (absentLocally localIds) items).
  set (added := map catalogEntry (map listItem kept)).
  assert (Hadded : map catalogEntry
                     (missingLocally localIds (map listItem items))
                   = added).
  { unfold added, kept. rewrite missingLocally_listItem. reflexivity. }
  assert (Hkept : forall item,
            In item kept
            <-> In item items /\ ~ In (BackendListItem.id item) localIds).
  { intros item. unfold kept. rewrite filter_In, absentLocally_spec.
    reflexivity. }
  assert (Hin : forall d,
            In d added
            <-> exists item,
                  In item kept /\ d = catalogEntry (listItem item)).
  { intros d. unfold added. rewrite map_map, in_map_iff. split.
    - intros (item & <- & Hitem). exists item. split; [exact Hitem|].
      reflexivity.
    - intros (item & Hitem & ->). exists item. split; [reflexivity|].
      exact Hitem. }
  assert (Hids : forall id,
            In id (map Diagram.id added)
            <-> In id (map BackendListItem.id items) /\ ~ In id localIds).
  { intros id. rewrite in_map_iff. split.
    - intros (d & <- & Hd). apply Hin in Hd as (item & Hitem & ->).
      apply Hkept in Hitem as [Hitem Hout]. simpl.
      split; [apply in_map; exact Hitem|exact Hout].
    - intros [Hrem Hout]. apply in_map_iff in Hrem as (item & <- & Hitem).
      exists (catalogEntry (listItem item)). split; [reflexivity|].
      apply Hin. exists item. split; [|reflexivity].
      apply Hkept. split; assumption. }
  exists (addAll added w), added.
  split; [|split; [|split; [|split; [|split; [|split]]]]].
  - assert (Hrec : run (reconcileAndPrompt (Some config)) w [Resolved r]
                   = (addAll added w,
                      (NetworkRequest (listRequest config)
                       :: map AddDiagram added
                       ++ [prompt (localCatalog w ++ added)])%list,
                      Done (Ok tt))).
    { pose proof (returns_mergeAndPrompt (map listItem items) w []) as Hm.
      fold localIds in Hm. rewrite Hadded in Hm.
      unfold reconcileAndPrompt, mergeRemoteCatalog, listRemoteDiagrams,
        useSync_listDiagrams, listDiagrams, enabled, noOptions.
      rewrite He. simpl. rewrite Hok. simpl.
      unfold responseJson. rewrite Hb. simpl. rewrite Hlist. simpl.
      match goal with
      | |- context [run ?P w []] =>
          change (run P w []) with (run (mergeAndPrompt (map listItem items))
                                      w [])
      end.
      rewrite Hm. reflexivity. }
    unfold loadDefaultDiagram, defaultAttempt. rewrite Hid. simpl.
    destruct (nonEmpty defaultDiagramId) as [id|]; [|exact Hrec].
    simpl. rewrite Hdef, Hrec. reflexivity.
  - apply localCatalog_addAll.
  - unfold added. rewrite map_map.
    apply Forall2_map_intro. intros item. apply populated_catalogEntry.
  - apply Forall_forall. intros d Hd.
    apply Hin in Hd as (item & Hitem & ->).
    apply Hkept in Hitem as [Hitem Hout].
    split; [exact Hout|].
    exists item. split; [exact Hitem|apply populated_catalogEntry].
  - intros item Hitem Hout.
    exists (catalogEntry (listItem item)).
    split; [|apply populated_catalogEntry].
    apply Hin. exists item. split; [|reflexivity].
    apply Hkept. split; assumption.
  - intros id. rewrite localCatalog_addAll, map_app, in_app_iff, Hids.
    fold localIds. split.
    + intros [Hl|[Hr _]]; [left; exact Hl|right; exact Hr].
    + intros [Hl|Hr]; [left; exact Hl|].
      destruct (in_dec string_dec id localIds) as [Hl|Hl];
        [left; exact Hl|right; split; assumption].
  - intros Hlocal. rewrite localCatalog_addAll, map_app.
    apply NoDup_app.
    + exact Hlocal.
    + unfold added. rewrite !map_map. simpl.
      apply (NoDup_map_filter BackendListItem.id _ items Hnd).
    + intros id Hl Ha. apply Hids in Ha as [_ Hout]. apply Hout. exact Hl.
Qed.

(* ===================================================================== *)
(** ** More about the codec *)
(* ===================================================================== *)

(** X1.  Encoding fails exactly when one of the two dates of the diagram is
    the Invalid Date, and then with the RangeError of [toISOString]; the
    collections play no part. *)
Theorem serializeDiagram_fails_on_invalid_dates (d : Diagram.t) :
  (forall e, serializeDiagram d = Err e ->
     e = mkError "RangeError" "Invalid time value"
     /\ (Diagram.createdAt d = None \/ Diagram.updatedAt d = None))
  /\ (Diagram.createdAt d = None \/ Diagram.updatedAt d = None ->
      serializeDiagram d = Err (mkError "RangeError" "Invalid time value"))
  /\ (forall c u,
        Diagram.createdAt d = Some c -> Diagram.updatedAt d = Some u ->
        exists wire,
          serializeDiagram d = Ok wire
          /\ BackendDiagramResponse.createdAt wire = toISOString c
          /\ BackendDiagramResponse.updatedAt wire = toISOString u).
Proof using toISOString.
  unfold serializeDiagram, Date_toISOString.
  destruct (Diagram.createdAt d) as [c|], (Diagram.updatedAt d) as [u|];
    simpl; (split; [|split]);
    try discriminate;
    try (intros e [= <-]; split;
         [reflexivity|(left; reflexivity) || (right; reflexivity)]);
    try (intros [H|H]; discriminate H);
    try (intros _; reflexivity).
  intros c0 u0 [= <-] [= <-]. eexists. repeat split.
Qed.

Lemma Forall_map_intro {X Y} (f : X -> Y) (P : Y -> Prop) (l : list X) :
  (forall x, P (f x)) -> Forall P (map f l).
Proof.
  intros H. induction l; simpl; constructor; auto.
Qed.

(** X2.  In an encoded diagram every table, relationship, dependency, area,
    custom type and note carries the id of the diagram as [diagramId]; no
    table, relationship or dependency carries a [createdAt]; a collection is
    on the wire exactly when the diagram has it, with as many entries: no
    empty array is put where the diagram has none. *)
Theorem serializeDiagram_stamps_diagramId (d : Diagram.t)
  (wire : BackendDiagramResponse.t) :
  serializeDiagram d = Ok wire ->
  BackendDiagramResponse.id wire = Diagram.id d
  /\ optForall (fun t => BackendTable.diagramId t = Some (Diagram.id d)
                         /\ BackendTable.createdAt t = None)
       (BackendDiagramResponse.tables wire)
  /\ optForall (fun r =>
                  BackendRelationship.diagramId r = Some (Diagram.id d)
                  /\ BackendRelationship.createdAt r = None)
       (BackendDiagramResponse.relationships wire)
  /\ optForall (fun x =>
                  BackendDependency.diagramId x = Some (Diagram.id d)
                  /\ BackendDependency.createdAt x = None)
       (BackendDiagramResponse.dependencies wire)
  /\ optForall (fun a => BackendArea.diagramId a = Some (Diagram.id d))
       (BackendDiagramResponse.areas wire)
  /\ optForall (fun ct =>
                  BackendCustomType.diagramId ct = Some (Diagram.id d))
       (BackendDiagramResponse.customTypes wire)
  /\ optForall (fun n => BackendNote.diagramId n = Some (Diagram.id d))
       (BackendDiagramResponse.notes wire)
  /\ option_map (@length _) (BackendDiagramResponse.tables wire)
     = option_map (@length _) (Diagram.tables d)
  /\ option_map (@length _) (BackendDiagramResponse.relationships wire)
     = option_map (@length _) (Diagram.relationships d)
  /\ option_map (@length _) (BackendDiagramResponse.dependencies wire)
     = option_map (@length _) (Diagram.dependencies d)
  /\ option_map (@length _) (BackendDiagramResponse.areas wire)
     = option_map (@length _) (Diagram.areas d)
  /\ option_map (@length _) (BackendDiagramResponse.customTypes wire)
     = option_map (@length _) (Diagram.customTypes d)
  /\ option_map (@length _) (BackendDiagramResponse.notes wire)
     = option_map (@length _) (Diagram.notes d).
Proof.
  unfold serializeDiagram.
  destruct (Date_toISOString (Diagram.createdAt d)); [|discriminate].
  destruct (Date_toISOString (Diagram.updatedAt d)); [|discriminate].
  intros [= <-]. simpl.
  split; [reflexivity|].
  repeat match goal with
         | |- optForall _ (option_map _ ?o) /\ _ =>
             split;
             [destruct o; simpl;
              [apply Forall_map_intro; intros; simpl; auto|exact I]|]
         end.
  repeat split;
    match goal with
    | |- option_map _ (option_map _ ?o) = _ =>
        destruct o; simpl; [rewrite length_map|]; reflexivity
    end.
Qed.

Lemma returns_mapProg_rel {X Y} (f : X -> Prog Y) (R : X -> Y -> Prop) :
  (forall x w, exists n y, returns (f x) w (advance n w) [] y /\ R x y) ->
  forall l w,
    exists n ys, returns (mapProg f l) w (advance n w) [] ys
                 /\ Forall2 R l ys.
Proof.
  intros Hf l. induction l as [|x l IH]; intros w.
  - exists 0%nat, []. rewrite advance_0. split; [apply returns_Ret|].
    constructor.
  - destruct (Hf x w) as (n1 & y & Hy & Ry).
    destruct (IH (advance n1 w)) as (n2 & ys & Hys & Rys).
    exists (n1 + n2)%nat, (y :: ys). split.
    + simpl.
      eapply returns_bind_quiet; [exact Hy|].
      eapply returns_bind_quiet; [exact Hys|].
      rewrite advance_advance. apply returns_Ret.
    + constructor; assumption.
Qed.

Lemma returns_optMapProg_rel {X Y} (f : X -> Prog Y) (R : X -> Y -> Prop) :
  (forall x w, exists n y, returns (f x) w (advance n w) [] y /\ R x y) ->
  forall o w,
    exists n o', returns (optMapProg f o) w (advance n w) [] o'
                 /\ optForall2 R o o'.
Proof.
  intros Hf [l|] w; simpl.
  - destruct (returns_mapProg_rel f R Hf l w) as (n & ys & Hys & Rys).
    exists n, (Some ys). split; [|exact Rys].
    eapply returns_bind_quiet; [exact Hys|apply returns_Ret].
  - exists 0%nat, None. rewrite advance_0.
    split; [apply returns_Ret|exact I].
Qed.

Lemma keepsStamp_orDateNow (c : option Z) (w : World) :
  exists n v, returns (orDateNow c) w (advance n w) [] v /\ keepsStamp c v.
Proof.
  destruct (returns_orDateNow c w) as (n & v & Hv & Hk).
  exists n, v. split; [exact Hv|].
  intros x Hx Hnz. apply (Hk x Hx Hnz).
Qed.

Lemma decodes_field (wf : BackendField.t) (w : World) :
  exists n f, returns (deserializeField wf) w (advance n w) [] f
              /\ fieldDecoded wf f.
Proof.
  destruct (keepsStamp_orDateNow (BackendField.createdAt wf) w)
    as (n & v & Hv & Hk).
  exists n. eexists. split.
  - unfold deserializeField.
    eapply returns_bind_quiet; [exact Hv|apply returns_Ret].
  - repeat split; assumption.
Qed.

Lemma decodes_index (wi : BackendIndex.t) (w : World) :
  exists n i, returns (deserializeIndex wi) w (advance n w) [] i
              /\ indexDecoded wi i.
Proof.
  exists 1%nat. eexists. split.
  - unfold deserializeIndex.
    eapply returns_bind_quiet;
      [apply returns_perform_DateNow|apply returns_Ret].
  - repeat split.
Qed.

Lemma decodes_table (wt : BackendTable.t) (w : World) :
  exists n t, returns (deserializeTable wt) w (advance n w) [] t
              /\ tableDecoded wt t.
Proof.
  destruct (keepsStamp_orDateNow (BackendTable.createdAt wt) w)
    as (n0 & v & Hv & Hk).
  destruct (returns_mapProg_rel deserializeField fieldDecoded decodes_field
              (BackendTable.fields wt) (advance n0 w))
    as (n1 & fs & Hfs & Rfs).
  destruct (returns_mapProg_rel deserializeIndex indexDecoded decodes_index
              (wireIndexes wt) (advance n1 (advance n0 w)))
    as (n2 & ixs & Hixs & Rixs).
  exists (n0 + (n1 + n2))%nat. eexists. split.
  - unfold deserializeTable.
    eapply returns_bind_quiet; [exact Hv|].
    eapply returns_bind_quiet; [exact Hfs|].
    eapply returns_bind_quiet.
    + unfold wireIndexes in Hixs.
      destruct (BackendTable.indexes wt); exact Hixs.
    + rewrite !advance_advance. apply returns_Ret.
  - repeat split; assumption.
Qed.

Lemma decodes_relationship (wr : BackendRelationship.t) (w : World) :
  exists n r, returns (deserializeRelationship wr) w (advance n w) [] r
              /\ relationshipDecoded wr r.
Proof.
  destruct (keepsStamp_orDateNow (BackendRelationship.createdAt wr) w)
    as (n & v & Hv & Hk).
  exists n. eexists. split.
  - unfold deserializeRelationship.
    eapply returns_bind_quiet; [exact Hv|apply returns_Ret].
  - repeat split; assumption.
Qed.

Lemma decodes_dependency (wd : BackendDependency.t) (w : World) :
  exists n d, returns (deserializeDependency wd) w (advance n w) [] d
              /\ dependencyDecoded wd d.
Proof.
  destruct (keepsStamp_orDateNow (BackendDependency.createdAt wd) w)
    as (n & v & Hv & Hk).
  exists n. eexists. split.
  - unfold deserializeDependency.
    eapply returns_bind_quiet; [exact Hv|apply returns_Ret].
  - repeat split; assumption.
Qed.

Lemma decodes_pure {X Y} (f : X -> Prog Y) (g : X -> Y) (R : X -> Y -> Prop) :
  (forall x, f x = Ret (g x)) -> (forall x, R x (g x)) ->
  forall x w, exists n y, returns (f x) w (advance n w) [] y /\ R x y.
Proof.
  intros Hf HR x w. exists 0%nat, (g x). rewrite advance_0, Hf.
  split; [apply returns_Ret|apply HR].
Qed.

(** Decoding any wire diagram returns, with no event, reading only the
    clock. *)
Lemma decodes_diagram (data : BackendDiagramResponse.t) (w : World) :
  exists n d,
    returns (deserializeDiagram data) w (advance n w) [] d
    /\ Diagram.id d = BackendDiagramResponse.id data
    /\ Diagram.createdAt d = newDate (BackendDiagramResponse.createdAt data)
    /\ Diagram.updatedAt d = newDate (BackendDiagramResponse.updatedAt data)
    /\ optForall2 tableDecoded
         (BackendDiagramResponse.tables data) (Diagram.tables d)
    /\ optForall2 relationshipDecoded
         (BackendDiagramResponse.relationships data)
         (Diagram.relationships d)
    /\ optForall2 dependencyDecoded
         (BackendDiagramResponse.dependencies data)
         (Diagram.dependencies d)
    /\ optForall2 (fun wa a => Area.id a = BackendArea.id wa)
         (BackendDiagramResponse.areas data) (Diagram.areas d)
    /\ optForall2 (fun wc c => DBCustomType.id c = BackendCustomType.id wc)
         (BackendDiagramResponse.customTypes data) (Diagram.customTypes d)
    /\ optForall2 (fun wn n0 => Note.id n0 = BackendNote.id wn)
         (BackendDiagramResponse.notes data) (Diagram.notes d).
Proof.
  destruct (returns_optMapProg_rel deserializeTable tableDecoded
              decodes_table (BackendDiagramResponse.tables data) w)
    as (n1 & ts & Hts & Rts).
  destruct (returns_optMapProg_rel deserializeRelationship
              relationshipDecoded decodes_relationship
              (BackendDiagramResponse.relationships data) (advance n1 w))
    as (n2 & rs & Hrs & Rrs).
  destruct (returns_optMapProg_rel deserializeDependency dependencyDecoded
              decodes_dependency
              (BackendDiagramResponse.dependencies data)
              (advance n2 (advance n1 w)))
    as (n3 & ds & Hds & Rds).
  destruct (returns_optMapProg_rel deserializeArea
              (fun wa a => Area.id a = BackendArea.id wa)
              (decodes_pure deserializeArea _ _
                 (fun x => eq_refl) (fun x => eq_refl))
              (BackendDiagramResponse.areas data)
              (advance n3 (advance n2 (advance n1 w))))
    as (n4 & ars & Hars & Rars).
  destruct (returns_optMapProg_rel deserializeCustomType
              (fun wc c => DBCustomType.id c = BackendCustomType.id wc)
              (decodes_pure deserializeCustomType _ _
                 (fun x => eq_refl) (fun x => eq_refl))
              (BackendDiagramResponse.customTypes data)
              (advance n4 (advance n3 (advance n2 (advance n1 w)))))
    as (n5 & cts & Hcts & Rcts).
  destruct (returns_optMapProg_rel deserializeNote
              (fun wn n0 => Note.id n0 = BackendNote.id wn)
              (decodes_pure deserializeNote _ _
                 (fun x => eq_refl) (fun x => eq_refl))
              (BackendDiagramResponse.notes data)
              (advance n5
                 (advance n4 (advance n3 (advance n2 (advance n1 w))))))
    as (n6 & ns & Hns & Rns).
  exists (n1 + (n2 + (n3 + (n4 + (n5 + n6)))))%nat. eexists.
  split.
  - unfold deserializeDiagram.
    eapply returns_bind_quiet; [exact Hts|].
    eapply returns_bind_quiet; [exact Hrs|].
    eapply returns_bind_quiet; [exact Hds|].
    eapply returns_bind_quiet; [exact Hars|].
    eapply returns_bind_quiet; [exact Hcts|].
    eapply returns_bind_quiet; [exact Hns|].
    rewrite !advance_advance. apply returns_Ret.
  - simpl. repeat split; assumption.
Qed.

(** X3.  Decoding never fails, whatever the wire diagram: it returns a
    diagram, produces no event and changes nothing but the number of clock
    readings.  The diagram has the id and the parsed dates of the wire
    diagram; each collection is present exactly when it is on the wire, with
    the same entities in the same order (ids, names, the ends of a
    relationship, the tables of a dependency), the normalised type of every
    field, and each [createdAt] of a table, field, relationship or
    dependency that is on the wire and not zero; a table without [indexes] on
    the wire gets the empty list, and that is the only collection filled
    in. *)
Theorem deserializeDiagram_is_total (data : BackendDiagramResponse.t)
  (w : World) :
  exists n d,
    (forall net,
       run (deserializeDiagram data) w net = (advance n w, [], Done (Ok d)))
    /\ Diagram.id d = BackendDiagramResponse.id data
    /\ Diagram.createdAt d = newDate (BackendDiagramResponse.createdAt data)
    /\ Diagram.updatedAt d = newDate (BackendDiagramResponse.updatedAt data)
    /\ optForall2 tableDecoded
         (BackendDiagramResponse.tables data) (Diagram.tables d)
    /\ optForall2 relationshipDecoded
         (BackendDiagramResponse.relationships data)
         (Diagram.relationships d)
    /\ optForall2 dependencyDecoded
         (BackendDiagramResponse.dependencies data)
         (Diagram.dependencies d)
    /\ optForall2 (fun wa a => Area.id a = BackendArea.id wa)
         (BackendDiagramResponse.areas data) (Diagram.areas d)
    /\ optForall2 (fun wc c => DBCustomType.id c = BackendCustomType.id wc)
         (BackendDiagramResponse.customTypes data) (Diagram.customTypes d)
    /\ optForall2 (fun wn n0 => Note.id n0 = BackendNote.id wn)
         (BackendDiagramResponse.notes data) (Diagram.notes d).
Proof.
  destruct (decodes_diagram data w) as (n & d & Hd & H).
  exists n, d. split; [exact Hd|exact H].
Qed.

Lemma returns_mapProg_fixed {X Y} (f : X -> Prog Y) (P : X -> Prop) :
  (forall x, P x -> exists y, forall w, returns (f x) w w [] y) ->
  forall l, Forall P l ->
    exists ys, forall w, returns (mapProg f l) w w [] ys.
Proof.
  intros Hf l. induction l as [|x l IH]; intros HP.
  - exists []. intros w. apply returns_Ret.
  - inversion HP as [|? ? Hx Hl]; subst.
    destruct (Hf x Hx) as (y & Hy). destruct (IH Hl) as (ys & Hys).
    exists (y :: ys). intros w. simpl.
    eapply returns_bind_quiet; [apply Hy|].
    eapply returns_bind_quiet; [apply Hys|apply returns_Ret].
Qed.

Lemma returns_optMapProg_fixed {X Y} (f : X -> Prog Y) (P : X -> Prop) :
  (forall x, P x -> exists y, forall w, returns (f x) w w [] y) ->
  forall o, optForall P o ->
    exists o', forall w, returns (optMapProg f o) w w [] o'.
Proof.
  intros Hf [l|] HP; simpl in *.
  - destruct (returns_mapProg_fixed f P Hf l HP) as (ys & Hys).
    exists (Some ys). intros w.
    eapply returns_bind_quiet; [apply Hys|apply returns_Ret].
  - exists None. intros w. apply returns_Ret.
Qed.

Lemma orDateNow_stamped (c : option Z) :
  stamped c -> exists v, forall w, returns (orDateNow c) w w [] v.
Proof.
  intros (x & -> & Hx). exists x. intros w. simpl.
  apply Z.eqb_neq in Hx. rewrite Hx. apply returns_Ret.
Qed.

Lemma returns_pure_fixed {X Y} (f : X -> Prog Y) (g : X -> Y) :
  (forall x, f x = Ret (g x)) ->
  forall x, True -> exists y, forall w, returns (f x) w w [] y.
Proof.
  intros Hf x _. exists (g x). intros w. rewrite Hf. apply returns_Ret.
Qed.

Lemma optForall_True {X} (o : option (list X)) : optForall (fun _ => True) o.
Proof. destruct o; simpl; [apply Forall_forall|]; trivial. Qed.

Lemma deserializeField_fixed (wf : BackendField.t) :
  stamped (BackendField.createdAt wf) ->
  exists f, forall w, returns (deserializeField wf) w w [] f.
Proof.
  intros Hs. destruct (orDateNow_stamped _ Hs) as (v & Hv).
  eexists. intros w. unfold deserializeField.
  eapply returns_bind_quiet; [apply Hv|apply returns_Ret].
Qed.

Lemma deserializeRelationship_fixed (wr : BackendRelationship.t) :
  stamped (BackendRelationship.createdAt wr) ->
  exists r, forall w, returns (deserializeRelationship wr) w w [] r.
Proof.
  intros Hs. destruct (orDateNow_stamped _ Hs) as (v & Hv).
  eexists. intros w. unfold deserializeRelationship.
  eapply returns_bind_quiet; [apply Hv|apply returns_Ret].
Qed.

Lemma deserializeDependency_fixed (wd : BackendDependency.t) :
  stamped (BackendDependency.createdAt wd) ->
  exists d, forall w, returns (deserializeDependency wd) w w [] d.
Proof.
  intros Hs. destruct (orDateNow_stamped _ Hs) as (v & Hv).
  eexists. intros w. unfold deserializeDependency.
  eapply returns_bind_quiet; [apply Hv|apply returns_Ret].
Qed.

Lemma deserializeTable_fixed (wt : BackendTable.t) :
  tableFullyStamped wt ->
  exists t, forall w, returns (deserializeTable wt) w w [] t.
Proof.
  intros (Hc & Hf & Hi).
  destruct (orDateNow_stamped _ Hc) as (v & Hv).
  destruct (returns_mapProg_fixed deserializeField
              (fun f => stamped (BackendField.createdAt f))
              deserializeField_fixed (BackendTable.fields wt) Hf)
    as (fs & Hfs).
  eexists. intros w. unfold deserializeTable.
  eapply returns_bind_quiet; [apply Hv|].
  eapply returns_bind_quiet; [apply Hfs|].
  eapply returns_bind_quiet; [|apply returns_Ret].
  unfold wireIndexes in Hi.
  destruct (BackendTable.indexes wt); [subst|]; apply returns_Ret.
Qed.

(** X4.  A wire diagram in which every table, field, relationship and
    dependency has a [createdAt] other than zero, and no table has an index,
    decodes without reading the clock: whenever and however often it is
    decoded, the result is the same diagram and the state is untouched. *)
Theorem decoding_a_fully_stamped_diagram_is_repeatable
  (data : BackendDiagramResponse.t) :
  fullyStamped data ->
  exists d, forall w net,
    run (deserializeDiagram data) w net = (w, [], Done (Ok d)).
Proof.
  intros (Ht & Hr & Hd).
  destruct (returns_optMapProg_fixed deserializeTable tableFullyStamped
              deserializeTable_fixed _ Ht) as (ts & Hts).
  destruct (returns_optMapProg_fixed deserializeRelationship
              (fun r => stamped (BackendRelationship.createdAt r))
              deserializeRelationship_fixed _ Hr) as (rs & Hrs).
  destruct (returns_optMapProg_fixed deserializeDependency
              (fun x => stamped (BackendDependency.createdAt x))
              deserializeDependency_fixed _ Hd) as (ds & Hds).
  destruct (returns_optMapProg_fixed deserializeArea (fun _ => True)
              (returns_pure_fixed deserializeArea _ (fun x => eq_refl))
              (BackendDiagramResponse.areas data) (optForall_True _))
    as (ars & Hars).
  destruct (returns_optMapProg_fixed deserializeCustomType (fun _ => True)
              (returns_pure_fixed deserializeCustomType _
                 (fun x => eq_refl))
              (BackendDiagramResponse.customTypes data) (optForall_True _))
    as (cts & Hcts).
  destruct (returns_optMapProg_fixed deserializeNote (fun _ => True)
              (returns_pure_fixed deserializeNote _ (fun x => eq_refl))
              (BackendDiagramResponse.notes data) (optForall_True _))
    as (ns & Hns).
  eexists. intros w. unfold deserializeDiagram.
  eapply returns_bind_quiet; [apply Hts|].
  eapply returns_bind_quiet; [apply Hrs|].
  eapply returns_bind_quiet; [apply Hds|].
  eapply returns_bind_quiet; [apply Hars|].
  eapply returns_bind_quiet; [apply Hcts|].
  eapply returns_bind_quiet; [apply Hns|].
  apply returns_Ret.
Qed.

(* ===================================================================== *)
(** ** More about the normalised type id *)
(* ===================================================================== *)

Lemma lowerChar_not_capital (c : ascii) : isCapital (lowerChar c) = false.
Proof.
  destruct c as [b0 b1 b2 b3 b4 b5 b6 b7].
  destruct b0, b1, b2, b3, b4, b5, b6, b7; reflexivity.
Qed.

Lemma lowerChar_fixed (c : ascii) : isCapital c = false -> lowerChar c = c.
Proof.
  unfold lowerChar, isCapital. intros ->. reflexivity.
Qed.

Lemma toLowerCase_noCapital (s : string) : noCapital (toLowerCase s) = true.
Proof.
  induction s as [|c s IH]; simpl; [reflexivity|].
  rewrite lowerChar_not_capital, IH. reflexivity.
Qed.

Lemma toLowerCase_fixed (s : string) :
  noCapital s = true -> toLowerCase s = s.
Proof.
  induction s as [|c s IH]; simpl; [reflexivity|].
  intros H. apply andb_true_iff in H as [Hc Hs].
  apply negb_true_iff in Hc.
  rewrite (lowerChar_fixed c Hc), (IH Hs). reflexivity.
Qed.

Lemma replaceRuns_noWhiteSpace (b : bool) (s : string) :
  noWhiteSpace (replaceRuns "_" b s) = true.
Proof.
  revert b. induction s as [|c s IH]; intros b; simpl; [reflexivity|].
  destruct (isWhiteSpace c) eqn:Hc.
  - destruct b; simpl; apply IH.
  - simpl. rewrite Hc. apply IH.
Qed.

Lemma replaceRuns_noCapital (b : bool) (s : string) :
  noCapital s = true -> noCapital (replaceRuns "_" b s) = true.
Proof.
  revert b. induction s as [|c s IH]; intros b; simpl; [reflexivity|].
  intros H. apply andb_true_iff in H as [Hc Hs].
  destruct (isWhiteSpace c).
  - destruct b; simpl; apply IH; exact Hs.
  - simpl. rewrite Hc. apply IH. exact Hs.
Qed.

Lemma replaceRuns_fixed (r : string) (b : bool) (s : string) :
  noWhiteSpace s = true -> replaceRuns r b s = s.
Proof.
  revert b. induction s as [|c s IH]; intros b; simpl; [reflexivity|].
  intros H. apply andb_true_iff in H as [Hc Hs].
  apply negb_true_iff in Hc. rewrite Hc, (IH false Hs). reflexivity.
Qed.

(** X5.  The id derived from a bare type name contains no whitespace and no
    capital letter, and deriving an id from it again gives it back: the
    derivation is idempotent. *)
Theorem derived_type_id_is_normal (s : string) :
  let id := DataType.id (fieldType (inl s)) in
  noWhiteSpace id = true
  /\ noCapital id = true
  /\ fieldType (inl id) = {| DataType.id := id; DataType.name := id |}.
Proof.
  simpl. unfold replaceWhiteSpaceRuns.
  pose proof (replaceRuns_noWhiteSpace false (toLowerCase s)) as Hw.
  pose proof (replaceRuns_noCapital false (toLowerCase s)
                (toLowerCase_noCapital s)) as Hc.
  split; [exact Hw|]. split; [exact Hc|].
  rewrite (toLowerCase_fixed _ Hc), (replaceRuns_fixed "_" false _ Hw).
  reflexivity.
Qed.

(* ===================================================================== *)
(** ** More about the sync client and the coordinator *)
(* ===================================================================== *)

(** X6.  A health check never throws and calls no callback.  Disabled, it
    answers [false] without a network request; enabled, it sends one GET to
    [/health] and answers [true] exactly when the request is answered with a
    success status: a rejected request and any other status give [false].
    The coordinator's [checkHealth] answers the same, and [false] without a
    request when there is no service. *)
Theorem health_check_never_throws (config : SyncConfig.t) (w : World)
  (o : FetchOutcome) :
  let healthy :=
    isEnabled config
    && match o with
       | Resolved r => ok r
       | Rejected _ => false
       end in
  let requests :=
    if isEnabled config then [NetworkRequest (healthRequest config)]
    else [] in
  run (healthCheck config) w [o] = (w, requests, Done (Ok healthy))
  /\ run (checkHealth (Some config)) w [o] = (w, requests, Done (Ok healthy))
  /\ run (checkHealth None) w [o] = (w, [], Done (Ok false)).
Proof.
  unfold checkHealth, healthCheck, healthRequest.
  destruct (isEnabled config) eqn:He; simpl.
  - destruct o as [e|r]; repeat split; reflexivity.
  - repeat split; reflexivity.
Qed.

(** X7.  A diagram with an Invalid Date is never sent: with sync enabled
    and no push in flight, [pushDiagram] makes no network request, passes the
    RangeError of [toISOString] to the error callback, and ends with the
    in-flight flag cleared and the baseline as it was. *)
Theorem push_of_invalid_date_is_reported (config : SyncConfig.t)
  (opts : UseSyncOptions.t) (d : Diagram.t) (w : World)
  (net : list FetchOutcome) :
  isEnabled config = true ->
  enabled opts = true ->
  isSyncingRef w = false ->
  sameJSON (lastSyncedDiagramRef w) (JSON_stringify d) = false ->
  Diagram.createdAt d = None \/ Diagram.updatedAt d = None ->
  run (pushDiagram (Some config) opts d) w net
  = (setIsSyncing false w,
     callEvents (UseSyncOptions.onSyncError opts)
       (OnSyncError (mkError "RangeError" "Invalid time value")),
     Done (Ok tt)).
Proof.
  intros He Ho Hs Hj Hd.
  assert (Hser : serializeDiagram d
                 = Err (mkError "RangeError" "Invalid time value")).
  { unfold serializeDiagram, Date_toISOString.
    destruct Hd as [-> | ->]; [reflexivity|].
    destruct (Diagram.createdAt d); reflexivity. }
  unfold pushDiagram, push. rewrite He, Ho, Hser. simpl.
  rewrite Hs. simpl. rewrite Hj. simpl.
  destruct (UseSyncOptions.onSyncError opts); reflexivity.
Qed.

(** X8.  With sync enabled, a push answered with a success status whose body
    cannot be used is reported as an error, not as a success: a body that is
    not JSON passes the error of [response.json()] to the error callback, and
    the body [null] passes the TypeError of reading [success]; the
    success callback is not called and the baseline stays. *)
Theorem push_success_status_with_bad_body (config : SyncConfig.t)
  (opts : UseSyncOptions.t) (d : Diagram.t)
  (wire : BackendDiagramResponse.t) (w : World) (r : Response) :
  isEnabled config = true ->
  enabled opts = true ->
  isSyncingRef w = false ->
  sameJSON (lastSyncedDiagramRef w) (JSON_stringify d) = false ->
  serializeDiagram d = Ok wire ->
  ok r = true ->
  (forall e, body r = Malformed e ->
     run (pushDiagram (Some config) opts d) w [Resolved r]
     = (setIsSyncing false w,
        NetworkRequest (pushRequest config wire)
        :: callEvents (UseSyncOptions.onSyncError opts) (OnSyncError e),
        Done (Ok tt)))
  /\ (body r = Parsed JNull ->
      run (pushDiagram (Some config) opts d) w [Resolved r]
      = (setIsSyncing false w,
         NetworkRequest (pushRequest config wire)
         :: callEvents (UseSyncOptions.onSyncError opts)
              (OnSyncError
                 (mkError "TypeError"
                    "Cannot read properties of null (reading 'success')")),
         Done (Ok tt))).
Proof.
  intros He Ho Hs Hj Hw Hok.
  destruct (pushDiagram_starts config opts d wire w He Ho Hs Hj Hw)
    as [_ Hrun].
  split.
  - intros e Hb. rewrite Hrun, run_pushResumed. simpl.
    rewrite Hok, Hb. reflexivity.
  - intros Hb. rewrite Hrun, run_pushResumed. simpl.
    rewrite Hok, Hb. reflexivity.
Qed.

Lemma Forall_callEvents_error (b : bool) (e : Error) :
  Forall (fun ev => exists e0, ev = OnSyncError e0)
    (callEvents b (OnSyncError e)).
Proof.
  destruct b; simpl; repeat constructor. exists e. reflexivity.
Qed.

(** X9.  A push that is not accepted (a rejected request, a status that is
    not a success status, a body that is not JSON, a body without a truthy
    [success]) leaves the baseline as it was; so [pushDiagram] called again
    with the same diagram does not skip it: it sends the request again. *)
Theorem failed_push_is_sent_again (config : SyncConfig.t)
  (opts : UseSyncOptions.t) (d : Diagram.t)
  (wire : BackendDiagramResponse.t) (w : World) (o : FetchOutcome) :
  isEnabled config = true ->
  enabled opts = true ->
  isSyncingRef w = false ->
  sameJSON (lastSyncedDiagramRef w) (JSON_stringify d) = false ->
  serializeDiagram d = Ok wire ->
  accepts o = false ->
  exists errors,
    run (pushDiagram (Some config) opts d) w [o]
    = (setIsSyncing false w,
       NetworkRequest (pushRequest config wire) :: errors,
       Done (Ok tt))
    /\ Forall (fun ev => exists e, ev = OnSyncError e) errors
    /\ lastSyncedDiagramRef (setIsSyncing false w) = lastSyncedDiagramRef w
    /\ run (pushDiagram (Some config) opts d) (setIsSyncing false w) []
       = (setIsSyncing true w,
          [NetworkRequest (pushRequest config wire)],
          Suspended (pushResumed opts d)).
Proof.
  intros He Ho Hs Hj Hw Hacc.
  destruct (pushDiagram_starts config opts d wire w He Ho Hs Hj Hw)
    as [_ Hrun].
  destruct (pushDiagram_starts config opts d wire (setIsSyncing false w)
              He Ho eq_refl Hj Hw) as [Hagain _].
  assert (Hfirst : exists errors,
            run (pushResumed opts d o) (setIsSyncing true w) []
            = (setIsSyncing false w, errors, Done (Ok tt))
            /\ Forall (fun ev => exists e, ev = OnSyncError e) errors).
  { rewrite run_pushResumed. unfold accepts in Hacc. unfold pushSettled.
    destruct o as [e|r].
    - eexists. split; [reflexivity|apply Forall_callEvents_error].
    - destruct (ok r); simpl in *.
      + destruct (body r) as [e|j].
        * eexists. split; [reflexivity|apply Forall_callEvents_error].
        * destruct (getProp j "success") as [v|e].
          -- rewrite Hacc. eexists. split; [reflexivity|constructor].
          -- eexists. split; [reflexivity|apply Forall_callEvents_error].
      + destruct (getProp (errorPayload r) "error");
          eexists; (split; [reflexivity|apply Forall_callEvents_error]). }
  destruct Hfirst as (errors & Hfirst & Herr).
  exists errors. split; [rewrite Hrun, Hfirst; reflexivity|].
  split; [exact Herr|]. split; [reflexivity|exact Hagain].
Qed.

Lemma ok_is_not_404 (r : Response) : ok r = true -> (status r =? 404) = false.
Proof.
  unfold ok. intros H. apply andb_true_iff in H as [_ H].
  apply Z.leb_le in H. apply Z.eqb_neq. lia.
Qed.

Lemma returns_pullDecoded (opts : UseSyncOptions.t)
  (wire : BackendDiagramResponse.t) (w : World) :
  exists n d,
    returns (deserializeDiagram wire) w (advance n w) [] d
    /\ returns (pullDecoded opts wire) w
         (setLastSynced (JSON_stringify d) (advance n w)) [] (Some d).
Proof.
  destruct (decodes_diagram wire w) as (n & d & Hd & _).
  exists n, d. split; [exact Hd|].
  unfold pullDecoded. apply returns_tryCatch.
  eapply returns_bind_quiet.
  - eapply returns_bind_quiet; [exact Hd|apply returns_Ret].
  - intros net. reflexivity.
Qed.

Lemma pullDiagram_reads_body (config : SyncConfig.t)
  (opts : UseSyncOptions.t) (diagramId : string) (w : World) (r : Response)
  (j : JSON) (wire : BackendDiagramResponse.t) :
  isEnabled config = true ->
  enabled opts = true ->
  ok r = true ->
  body r = Parsed j ->
  asBackendDiagram j = Ok wire ->
  run (pullDiagram (Some config) opts diagramId) w [Resolved r]
  = let '(w2, tr, s) := run (pullDecoded opts wire) w [] in
    (w2, NetworkRequest (pullRequest config diagramId) :: tr, s).
Proof.
  intros He Ho Hok Hb Hj.
  unfold pullDiagram, pull, pullRequest. rewrite He, Ho. simpl.
  rewrite (ok_is_not_404 r Hok), Hok. simpl.
  unfold responseJson. rewrite Hb. simpl. rewrite Hj. simpl.
  remember (run (pullDecoded opts wire) w []) as R eqn:HR.
  match goal with
  | |- context [run ?p w []] =>
      change (run p w []) with (run (pullDecoded opts wire) w [])
  end.
  rewrite <- HR. destruct R as [[w2 tr] s]. reflexivity.
Qed.

(** X10.  With sync enabled, a pull answered with a success status and the
    body of a diagram returns the decoded diagram, calls no callback and
    records the serialisation of that diagram as the baseline; a
    [pushDiagram] of the diagram just pulled then makes no network request
    and calls no callback. *)
Theorem pulled_diagram_is_not_pushed_back (config : SyncConfig.t)
  (opts : UseSyncOptions.t) (diagramId : string) (w : World) (r : Response)
  (j : JSON) (wire : BackendDiagramResponse.t) :
  isEnabled config = true ->
  enabled opts = true ->
  isSyncingRef w = false ->
  ok r = true ->
  body r = Parsed j ->
  asBackendDiagram j = Ok wire ->
  exists w1 d,
    run (pullDiagram (Some config) opts diagramId) w [Resolved r]
    = (w1, [NetworkRequest (pullRequest config diagramId)],
       Done (Ok (Some d)))
    /\ (exists n, returns (deserializeDiagram wire) w (advance n w) [] d)
    /\ lastSyncedDiagramRef w1 = Some (JSON_stringify d)
    /\ forall net,
         run (pushDiagram (Some config) opts d) w1 net
         = (setIsSyncing false w1, [], Done (Ok tt)).
Proof.
  intros He Ho Hs Hok Hb Hj.
  destruct (returns_pullDecoded opts wire w) as (n & d & Hd & Hp).
  exists (setLastSynced (JSON_stringify d) (advance n w)), d.
  split; [|split; [exists n; exact Hd|split; [reflexivity|]]].
  - rewrite (pullDiagram_reads_body config opts diagramId w r j wire
               He Ho Hok Hb Hj), (Hp []).
    reflexivity.
  - intros net. unfold pushDiagram. rewrite He, Ho. simpl.
    rewrite Hs. simpl. rewrite String.eqb_refl. reflexivity.
Qed.

(** X11.  The coordinator's pull never throws and never touches the
    in-flight flag, whatever the service, the options and the answer: it
    returns a diagram, and then the baseline is the serialisation of that
    diagram, or it returns [null], and then the state is exactly as
    before. *)
Theorem pullDiagram_never_throws (svc : option SyncConfig.t)
  (opts : UseSyncOptions.t) (diagramId : string) (w : World)
  (o : FetchOutcome) :
  exists w' tr res,
    run (pullDiagram svc opts diagramId) w [o] = (w', tr, Done (Ok res))
    /\ isSyncingRef w' = isSyncingRef w
    /\ match res with
       | Some d => lastSyncedDiagramRef w' = Some (JSON_stringify d)
       | None => w' = w
       end.
Proof.
  destruct svc as [config|]; [|do 3 eexists; repeat split; reflexivity].
  destruct (isEnabled config) eqn:He;
    [|unfold pullDiagram; rewrite He; do 3 eexists; repeat split;
      reflexivity].
  destruct (enabled opts) eqn:Ho;
    [|unfold pullDiagram; rewrite He, Ho; do 3 eexists; repeat split;
      reflexivity].
  assert (Hfail : forall r, ok r = false -> (status r =? 404) = false ->
            exists tr,
              run (pullDiagram (Some config) opts diagramId) w [Resolved r]
              = (w, tr, Done (Ok None))).
  { intros r Hok H404. unfold pullDiagram, pull. rewrite He, Ho. simpl.
    rewrite H404, Hok. simpl. rewrite throwHttpError_eq.
    destruct (getProp (errorPayload r) "error"); simpl;
      destruct (UseSyncOptions.onSyncError opts); eexists; reflexivity. }
  destruct o as [e|r].
  - unfold pullDiagram, pull. rewrite He, Ho. simpl.
    destruct (UseSyncOptions.onSyncError opts);
      do 3 eexists; repeat split; reflexivity.
  - destruct (status r =? 404) eqn:H404.
    + unfold pullDiagram, pull. rewrite He, Ho. simpl. rewrite H404.
      do 3 eexists; repeat split; reflexivity.
    + destruct (ok r) eqn:Hok.
      * destruct (body r) as [e|j] eqn:Hb.
        -- unfold pullDiagram, pull. rewrite He, Ho. simpl.
           rewrite H404, Hok. simpl. unfold responseJson. rewrite Hb. simpl.
           destruct (UseSyncOptions.onSyncError opts);
             do 3 eexists; repeat split; reflexivity.
        -- destruct (asBackendDiagram j) as [wire|e] eqn:Hj.
           ++ destruct (returns_pullDecoded opts wire w)
                as (n & d & _ & Hp).
              exists (setLastSynced (JSON_stringify d) (advance n w)).
              exists [NetworkRequest (pullRequest config diagramId)].
              exists (Some d). split; [|split; reflexivity].
              rewrite (pullDiagram_reads_body config opts diagramId w r j
                         wire He Ho Hok Hb Hj), (Hp []).
              reflexivity.
           ++ unfold pullDiagram, pull. rewrite He, Ho. simpl.
              rewrite H404, Hok. simpl. unfold responseJson.
              rewrite Hb. simpl. rewrite Hj. simpl.
              destruct (UseSyncOptions.onSyncError opts);
                do 3 eexists; repeat split; reflexivity.
      * destruct (Hfail r Hok H404) as (tr & Htr).
        exists w, tr, None. repeat split. exact Htr.
Qed.

(** X12.  With sync enabled, the coordinator's list never throws and leaves
    the state as it was.  Answered with a success status and a list of
    entries, it returns one item per entry, in order, with the same ids, and
    calls no callback; when the request fails in any way (rejected, a status
    that is not a success status, a body that is not JSON or not a list of
    entries) it returns the empty list and passes the error to the error
    callback. *)
Theorem coordinator_list_never_throws (config : SyncConfig.t)
  (opts : UseSyncOptions.t) (w : World) (o : FetchOutcome) :
  isEnabled config = true ->
  enabled opts = true ->
  (listFails o ->
   exists e,
     run (useSync_listDiagrams (Some config) opts) w [o]
     = (w,
        NetworkRequest (listRequest config)
        :: callEvents (UseSyncOptions.onSyncError opts) (OnSyncError e),
        Done (Ok [])))
  /\ (forall r j items,
        o = Resolved r -> ok r = true -> body r = Parsed j ->
        asBackendList j = Ok items ->
        run (useSync_listDiagrams (Some config) opts) w [o]
        = (w, [NetworkRequest (listRequest config)],
           Done (Ok (map listItem items)))
        /\ map DiagramListItem.id (map listItem items)
           = map BackendListItem.id items).
Proof.
  intros He Ho.
  unfold useSync_listDiagrams, listDiagrams, listRequest.
  rewrite He, Ho. simpl. split.
  - destruct o as [e|r]; simpl.
    + intros _. exists e.
      destruct (UseSyncOptions.onSyncError opts); reflexivity.
    + intros [Hok | [(e & Hb) | (j & e & Hb & Hj)]].
      * rewrite Hok. simpl. rewrite throwHttpError_eq.
        destruct (getProp (errorPayload r) "error") as [v|e0]; simpl;
          [exists (newError
                     (toString (orString v "Failed to list diagrams")))
          |exists e0];
          destruct (UseSyncOptions.onSyncError opts); reflexivity.
      * destruct (ok r); simpl.
        -- unfold responseJson. rewrite Hb. simpl. exists e.
           destruct (UseSyncOptions.onSyncError opts); reflexivity.
        -- rewrite throwHttpError_eq.
           destruct (getProp (errorPayload r) "error") as [v|e0]; simpl;
             [exists (newError
                        (toString (orString v "Failed to list diagrams")))
             |exists e0];
             destruct (UseSyncOptions.onSyncError opts); reflexivity.
      * destruct (ok r); simpl.
        -- unfold responseJson. rewrite Hb. simpl. rewrite Hj. simpl.
           exists e.
           destruct (UseSyncOptions.onSyncError opts); reflexivity.
        -- rewrite throwHttpError_eq.
           destruct (getProp (errorPayload r) "error") as [v|e0]; simpl;
             [exists (newError
                        (toString (orString v "Failed to list diagrams")))
             |exists e0];
             destruct (UseSyncOptions.onSyncError opts); reflexivity.
  - intros r j items -> Hok Hb Hj. simpl. rewrite Hok. simpl.
    unfold responseJson. rewrite Hb. simpl. rewrite Hj. simpl.
    split; [reflexivity|].
    rewrite map_map. reflexivity.
Qed.

(* ===================================================================== *)
(** ** More about the startup reconciler *)
(* ===================================================================== *)

Lemma findDiagram_Some (id : string) (l : LocalCatalog) (d : Diagram.t) :
  findDiagram id l = Some d -> In d l /\ Diagram.id d = id.
Proof.
  unfold findDiagram. intros H. apply find_some in H as [Hin Heq].
  split; [exact Hin|]. apply String.eqb_eq. exact Heq.
Qed.

(** X13.  With an explicit identifier that the local catalog holds,
    [loadDefaultDiagram] clears the staged diagram, shows the loader, resets
    the two stacks, loads the diagram, stages it and hides the loader; the
    staged diagram is an entry of the local catalog and has the requested id;
    no dialog opens, nothing is sent and the state is untouched. *)
Theorem explicit_id_found (svc : option SyncConfig.t)
  (defaultDiagramId : option string) (id : string) (d : Diagram.t)
  (w : World) (net : list FetchOutcome) :
  id <> EmptyString ->
  findDiagram id (localCatalog w) = Some d ->
  run (loadDefaultDiagram svc (Some id) defaultDiagramId) w net
  = (w,
     [SetInitialDiagram None; ShowLoader; ResetRedoStack; ResetUndoStack;
      LoadDiagramCalled id; SetInitialDiagram (Some d); HideLoader],
     Done (Ok tt))
  /\ In d (localCatalog w)
  /\ Diagram.id d = id.
Proof.
  intros Hid Hfind. split; [|apply findDiagram_Some; exact Hfind].
  unfold loadDefaultDiagram, nonEmpty.
  apply String.eqb_neq in Hid. rewrite Hid. simpl.
  rewrite Hfind. reflexivity.
Qed.

(** X14.  Without explicit identifier and with a default diagram that the
    local catalog holds, [loadDefaultDiagram] only navigates to the route of
    the default diagram: no loader, no dialog, no network request.  The
    evaluation of that route, with the default id as explicit identifier,
    stages the default diagram. *)
Theorem default_diagram_redirects (svc : option SyncConfig.t)
  (diagramId : option string) (id : string) (d : Diagram.t) (w : World)
  (net : list FetchOutcome) :
  nonEmpty diagramId = None ->
  id <> EmptyString ->
  findDiagram id (localCatalog w) = Some d ->
  run (loadDefaultDiagram svc diagramId (Some id)) w net
  = (w, [LoadDiagramCalled id; Navigate ("/diagrams/" ++ id)], Done (Ok tt))
  /\ run (loadDefaultDiagram svc (Some id) (Some id)) w net
     = (w,
        [SetInitialDiagram None; ShowLoader; ResetRedoStack; ResetUndoStack;
         LoadDiagramCalled id; SetInitialDiagram (Some d); HideLoader],
        Done (Ok tt)).
Proof.
  intros Hnone Hid Hfind.
  pose proof Hid as Hid'. apply String.eqb_neq in Hid'.
  split.
  - unfold loadDefaultDiagram. rewrite Hnone. unfold nonEmpty.
    rewrite Hid'. simpl. rewrite Hfind. reflexivity.
  - unfold loadDefaultDiagram, nonEmpty. rewrite Hid'. simpl.
    rewrite Hfind. reflexivity.
Qed.

(** When the reconciliation is reached. *)
Lemma loadDefaultDiagram_reconciles (svc : option SyncConfig.t)
  (diagramId defaultDiagramId : option string) (w : World)
  (net : list FetchOutcome) :
  nonEmpty diagramId = None ->
  match nonEmpty defaultDiagramId with
  | Some id => findDiagram id (localCatalog w) = None
  | None => True
  end ->
  run (loadDefaultDiagram svc diagramId defaultDiagramId) w net
  = let '(w2, tr, s) := run (reconcileAndPrompt svc) w net in
    (w2, (defaultAttempt defaultDiagramId ++ tr)%list, s).
Proof.
  intros Hid Hdef. unfold loadDefaultDiagram, defaultAttempt. rewrite Hid.
  destruct (nonEmpty defaultDiagramId) as [id|]; simpl.
  - rewrite Hdef.
    destruct (run (reconcileAndPrompt svc) w net) as [[w2 tr] s].
    reflexivity.
  - destruct (run (reconcileAndPrompt svc) w net) as [[w2 tr] s].
    reflexivity.
Qed.

Lemma run_reconcile_success (config : SyncConfig.t) (w : World)
  (r : Response) (j : JSON) (items : list BackendListItem.t)
  (net : list FetchOutcome) :
  isEnabled config = true ->
  ok r = true ->
  body r = Parsed j ->
  asBackendList j = Ok items ->
  let added :=
    map catalogEntry
      (missingLocally (map Diagram.id (localCatalog w))
         (map listItem items)) in
  run (reconcileAndPrompt (Some config)) w (Resolved r :: net)
  = (addAll added w,
     (NetworkRequest (listRequest config) :: map AddDiagram added
      ++ [prompt (localCatalog w ++ added)])%list,
     Done (Ok tt)).
Proof.
  intros He Hok Hb Hlist added.
  pose proof (returns_mergeAndPrompt (map listItem items) w net) as Hm.
  fold added in Hm.
  unfold reconcileAndPrompt, mergeRemoteCatalog, listRemoteDiagrams,
    useSync_listDiagrams, listDiagrams, enabled, noOptions.
  rewrite He. simpl. rewrite Hok. simpl.
  unfold responseJson. rewrite Hb. simpl. rewrite Hlist. simpl.
  match goal with
  | |- context [run ?P w net] =>
      change (run P w net)
        with (run (mergeAndPrompt (map listItem items)) w net)
  end.
  rewrite Hm. reflexivity.
Qed.

Lemma run_reconcile_failure (config : SyncConfig.t) (w : World)
  (o : FetchOutcome) (net : list FetchOutcome) :
  isEnabled config = true ->
  listFails o ->
  run (reconcileAndPrompt (Some config)) w (o :: net)
  = (w, [NetworkRequest (listRequest config); prompt (localCatalog w)],
     Done (Ok tt)).
Proof.
  intros He Hfail.
  unfold reconcileAndPrompt, mergeRemoteCatalog, listRemoteDiagrams,
    useSync_listDiagrams, listDiagrams, enabled, noOptions, prompt,
    listRequest.
  rewrite He. simpl.
  destruct o as [e|r]; simpl.
  - destruct (0 <? length (localCatalog w))%nat; reflexivity.
  - destruct Hfail as [Hok | [(e & Hb) | (j & e & Hb & Hj)]].
    + rewrite Hok. simpl. rewrite throwHttpError_eq.
      destruct (getProp (errorPayload r) "error"); simpl;
        destruct (0 <? length (localCatalog w))%nat; reflexivity.
    + destruct (ok r); simpl.
      * unfold responseJson. rewrite Hb. simpl.
        destruct (0 <? length (localCatalog w))%nat; reflexivity.
      * rewrite throwHttpError_eq.
        destruct (getProp (errorPayload r) "error"); simpl;
          destruct (0 <? length (localCatalog w))%nat; reflexivity.
    + destruct (ok r); simpl.
      * unfold responseJson. rewrite Hb. simpl. rewrite Hj. simpl.
        destruct (0 <? length (localCatalog w))%nat; reflexivity.
      * rewrite throwHttpError_eq.
        destruct (getProp (errorPayload r) "error"); simpl;
          destruct (0 <? length (localCatalog w))%nat; reflexivity.
Qed.

Lemma run_reconcile_disabled (svc : option SyncConfig.t) (w : World)
  (net : list FetchOutcome) :
  serviceIsEnabled svc = false ->
  run (reconcileAndPrompt svc) w net
  = (w, [prompt (localCatalog w)], Done (Ok tt)).
Proof.
  intros Hs.
  unfold reconcileAndPrompt, mergeRemoteCatalog, listRemoteDiagrams,
    useSync_listDiagrams, prompt.
  destruct svc as [config|]; simpl in *.
  - rewrite Hs. simpl.
    destruct (0 <? length (localCatalog w))%nat; reflexivity.
  - destruct (0 <? length (localCatalog w))%nat; reflexivity.
Qed.

Lemma list_answer_cases (o : FetchOutcome) :
  listFails o
  \/ exists r j items,
       o = Resolved r /\ ok r = true /\ body r = Parsed j
       /\ asBackendList j = Ok items.
Proof.
  destruct o as [e|r]; [left; exact I|]. simpl.
  destruct (ok r) eqn:Hok; [|left; left; reflexivity].
  destruct (body r) as [e|j] eqn:Hb;
    [left; right; left; exists e; reflexivity|].
  destruct (asBackendList j) as [items|e] eqn:Hj.
  - right. exists r, j, items. repeat split; assumption.
  - left. right. right. exists j, e. split; [reflexivity|exact Hj].
Qed.

(** X15.  A failure of the remote list does not stop the startup and is
    reported to nobody: when the reconciliation is reached with sync enabled
    and the list request fails in any way, [loadDefaultDiagram] sends that
    one request, calls no callback, writes nothing, and ends with the prompt
    that the local catalog alone decides. *)
Theorem remote_failure_does_not_stop_startup (config : SyncConfig.t)
  (diagramId defaultDiagramId : option string) (w : World)
  (o : FetchOutcome) :
  isEnabled config = true ->
  nonEmpty diagramId = None ->
  match nonEmpty defaultDiagramId with
  | Some id => findDiagram id (localCatalog w) = None
  | None => True
  end ->
  listFails o ->
  run (loadDefaultDiagram (Some config) diagramId defaultDiagramId) w [o]
  = (w,
     (defaultAttempt defaultDiagramId
      ++ [NetworkRequest (listRequest config);
          match localCatalog w with
          | [] => OpenCreateDiagramDialog
          | _ :: _ => OpenOpenDiagramDialog false
          end])%list,
     Done (Ok tt)).
Proof.
  intros He Hid Hdef Hfail.
  rewrite (loadDefaultDiagram_reconciles _ _ _ _ _ Hid Hdef).
  rewrite (run_reconcile_failure config w o [] He Hfail).
  unfold prompt. destruct (localCatalog w); reflexivity.
Qed.

Lemma addAll_app (ds ds' : list Diagram.t) (w : World) :
  addAll ds' (addAll ds w) = addAll (ds ++ ds') w.
Proof.
  unfold addAll. rewrite fold_left_app. reflexivity.
Qed.

Lemma addAll_nil (w : World) : addAll [] w = w.
Proof. reflexivity. Qed.

Lemma run_reconcile_world (svc : option SyncConfig.t) (w : World)
  (net : list FetchOutcome) :
  exists ds tr s,
    run (reconcileAndPrompt svc) w net = (addAll ds w, tr, s)
    /\ (net <> [] -> s = Done (Ok tt)).
Proof.
  destruct (serviceIsEnabled svc) eqn:Hs.
  - destruct svc as [config|]; [|discriminate Hs]. simpl in Hs.
    destruct net as [|o net].
    + exists [], [NetworkRequest (listRequest config)]. eexists.
      split; [|intros H; contradiction].
      unfold reconcileAndPrompt, mergeRemoteCatalog, listRemoteDiagrams,
        useSync_listDiagrams, listDiagrams, enabled, noOptions.
      rewrite Hs. simpl. reflexivity.
    + destruct (list_answer_cases o)
        as [Hfail | (r & j & items & -> & Hok & Hb & Hj)].
      * exists []. do 2 eexists.
        split; [apply (run_reconcile_failure config w o net Hs Hfail)|].
        reflexivity.
      * eexists. do 2 eexists.
        split;
          [apply (run_reconcile_success config w r j items net Hs Hok Hb Hj)
          |reflexivity].
  - exists []. do 2 eexists.
    split; [apply (run_reconcile_disabled svc w net Hs)|reflexivity].
Qed.

Lemma run_loadDefaultDiagram_world (svc : option SyncConfig.t)
  (diagramId defaultDiagramId : option string) (w : World)
  (net : list FetchOutcome) :
  exists ds tr s,
    run (loadDefaultDiagram svc diagramId defaultDiagramId) w net
    = (addAll ds w, tr, s)
    /\ (net <> [] -> s = Done (Ok tt)).
Proof.
  destruct (run_reconcile_world svc w net) as (ds & tr & s & Hrec & Hs).
  unfold loadDefaultDiagram.
  destruct (nonEmpty diagramId) as [id|].
  - exists []. simpl.
    destruct (findDiagram id (localCatalog w));
      do 2 eexists; split; reflexivity.
  - destruct (nonEmpty defaultDiagramId) as [id|].
    + simpl. destruct (findDiagram id (localCatalog w)).
      * exists []. do 2 eexists. split; reflexivity.
      * exists ds. rewrite Hrec. do 2 eexists. split; [reflexivity|exact Hs].
    + exists ds, tr, s. split; assumption.
Qed.

(** X16.  The startup never throws, whatever the identifiers, the service
    and the answer of the network: [loadDefaultDiagram] finishes normally,
    and the state afterwards is the one before except for diagrams added at
    the end of the local catalog; the entries the catalog had are untouched,
    and so are the references of the coordinator. *)
Theorem startup_never_throws (svc : option SyncConfig.t)
  (diagramId defaultDiagramId : option string) (w : World)
  (o : FetchOutcome) :
  exists w' tr,
    run (loadDefaultDiagram svc diagramId defaultDiagramId) w [o]
    = (w', tr, Done (Ok tt))
    /\ onlyAdds w w'
    /\ (exists ds, localCatalog w' = (localCatalog w ++ ds)%list)
    /\ isSyncingRef w' = isSyncingRef w
    /\ lastSyncedDiagramRef w' = lastSyncedDiagramRef w.
Proof.
  destruct (run_loadDefaultDiagram_world svc diagramId defaultDiagramId w
              [o]) as (ds & tr & s & Hrun & Hs).
  rewrite (Hs ltac:(discriminate)) in Hrun.
  exists (addAll ds w), tr. split; [exact Hrun|].
  split; [exists ds; reflexivity|].
  split; [exists ds; apply localCatalog_addAll|].
  unfold addAll. clear. revert w.
  induction ds as [|d ds IH]; intros w; simpl; [split; reflexivity|].
  destruct (IH (addToCatalog d w)) as [H1 H2]. split; assumption.
Qed.

Lemma has_app (l l' : list string) (id : string) :
  has (l ++ l') id = has l id || has l' id.
Proof. unfold has. apply existsb_app. Qed.

Lemma filter_none {A : Type} (f : A -> bool) (l : list A) :
  (forall x, In x l -> f x = false) -> filter f l = [].
Proof.
  induction l as [|x l IH]; intros H; simpl; [reflexivity|].
  rewrite (H x (or_introl eq_refl)). apply IH.
  intros y Hy. apply H. right. exact Hy.
Qed.

Lemma missingLocally_after_merge (localIds : list string)
  (remote : list DiagramListItem.t) :
  missingLocally
    (localIds
     ++ map Diagram.id (map catalogEntry (missingLocally localIds remote)))
    remote
  = [].
Proof.
  unfold missingLocally at 1.
  match goal with
  | |- filter ?f remote = [] =>
      assert (H : forall x, In x remote -> f x = false)
  end.
  { intros x Hx. apply negb_false_iff. rewrite has_app.
    destruct (has localIds (DiagramListItem.id x)) eqn:Hh; [reflexivity|].
    simpl. unfold has. apply existsb_exists.
    exists (DiagramListItem.id x). split; [|apply String.eqb_refl].
    rewrite map_map. simpl.
    apply in_map_iff. exists x. split; [reflexivity|].
    unfold missingLocally. apply filter_In. split; [exact Hx|].
    rewrite Hh. reflexivity. }
  apply filter_none. exact H.
Qed.

(** X17.  The merge is idempotent: after a startup that merged the remote
    list into the local catalog, a second startup answered with the same
    list calls [addDiagram] for nothing and leaves the local catalog as it
    is. *)
Theorem catalog_merge_is_idempotent (config : SyncConfig.t)
  (diagramId : option string) (w : World) (r : Response) (j : JSON)
  (items : list BackendListItem.t) :
  isEnabled config = true ->
  nonEmpty diagramId = None ->
  ok r = true ->
  body r = Parsed j ->
  asBackendList j = Ok items ->
  NoDup (map BackendListItem.id items) ->
  exists w1 tr1,
    run (loadDefaultDiagram (Some config) diagramId None) w [Resolved r]
    = (w1, tr1, Done (Ok tt))
    /\ run (loadDefaultDiagram (Some config) diagramId None) w1 [Resolved r]
       = (w1,
          [NetworkRequest (listRequest config); prompt (localCatalog w1)],
          Done (Ok tt)).
Proof.
  intros He Hid Hok Hb Hj _.
  do 2 eexists. split.
  - rewrite (loadDefaultDiagram_reconciles _ _ None _ _ Hid I).
    rewrite (run_reconcile_success config w r j items [] He Hok Hb Hj).
    reflexivity.
  - rewrite (loadDefaultDiagram_reconciles _ _ None _ _ Hid I).
    rewrite (run_reconcile_success config _ r j items [] He Hok Hb Hj).
    rewrite localCatalog_addAll, map_app, missingLocally_after_merge.
    simpl. rewrite app_nil_r. reflexivity.
Qed.

(** X18.  After a successful answer of the list, the "create diagram" dialog
    opens only when the local catalog and the remote list are both empty; in
    every other case the "open diagram" dialog opens, with [canClose]
    false. *)
Theorem prompt_after_merge (config : SyncConfig.t)
  (diagramId defaultDiagramId : option string) (w : World) (r : Response)
  (j : JSON) (items : list BackendListItem.t) :
  isEnabled config = true ->
  nonEmpty diagramId = None ->
  match nonEmpty defaultDiagramId with
  | Some id => findDiagram id (localCatalog w) = None
  | None => True
  end ->
  ok r = true ->
  body r = Parsed j ->
  asBackendList j = Ok items ->
  NoDup (map BackendListItem.id items) ->
  exists w' writes,
    run (loadDefaultDiagram (Some config) diagramId defaultDiagramId) w
      [Resolved r]
    = (w',
       (defaultAttempt defaultDiagramId
        ++ NetworkRequest (listRequest config) :: map AddDiagram writes
        ++ [match localCatalog w, items with
            | [], [] => OpenCreateDiagramDialog
            | _, _ => OpenOpenDiagramDialog false
            end])%list,
       Done (Ok tt)).
Proof.
  intros He Hid Hdef Hok Hb Hj _.
  set (added :=
         map catalogEntry
           (missingLocally (map Diagram.id (localCatalog w))
              (map listItem items))).
  exists (addAll added w), added.
  rewrite (loadDefaultDiagram_reconciles _ _ _ _ _ Hid Hdef).
  rewrite (run_reconcile_success config w r j items [] He Hok Hb Hj).
  fold added. unfold prompt.
  assert (Hp : (if (0 <? length (localCatalog w ++ added))%nat
                then OpenOpenDiagramDialog false
                else OpenCreateDiagramDialog)
               = match localCatalog w, items with
                 | [], [] => OpenCreateDiagramDialog
                 | _, _ => OpenOpenDiagramDialog false
                 end).
  { subst added. destruct (localCatalog w) as [|a l].
    - destruct items as [|x items]; reflexivity.
    - reflexivity. }
  rewrite Hp. reflexivity.
Qed.

Lemma loadingRef_addAll (ds : list Diagram.t) (w : World) :
  currentDiagramLoadingRef (addAll ds w) = currentDiagramLoadingRef w.
Proof.
  unfold addAll. revert w.
  induction ds as [|d ds IH]; intros w; simpl; [reflexivity|].
  rewrite IH. reflexivity.
Qed.

Lemma sameOptString_refl (a : option string) : sameOptString a a = true.
Proof. destruct a; simpl; [apply String.eqb_refl|reflexivity]. Qed.

(** X19.  The effect of [useDiagramLoader] runs once per identifier: when it
    is evaluated a second time with the same identifier, whether the first
    evaluation has finished or is still waiting for the network, the second
    evaluation does nothing at all. *)
Theorem loader_effect_runs_once (svc : option SyncConfig.t)
  (diagramId defaultDiagramId : option string) (configLoaded : bool)
  (currentDiagramId : option string) (w : World)
  (net net' : list FetchOutcome) :
  let '(w1, _, _) :=
    run (loaderEffect svc diagramId defaultDiagramId configLoaded
           currentDiagramId) w net in
  run (loaderEffect svc diagramId defaultDiagramId configLoaded
         currentDiagramId) w1 net'
  = (w1, [], Done (Ok tt)).
Proof.
  unfold loaderEffect.
  destruct configLoaded; [|reflexivity]. simpl.
  destruct (sameOptString currentDiagramId diagramId); [reflexivity|].
  simpl.
  destruct (sameOptString (currentDiagramLoadingRef w)
              (Some (orEmpty diagramId))) eqn:Href.
  - simpl. rewrite Href. reflexivity.
  - simpl.
    destruct (run_loadDefaultDiagram_world svc diagramId defaultDiagramId
                (setLoadingRef (orEmpty diagramId) w) net)
      as (ds & tr & s & Hrun & _).
    rewrite Hrun. simpl. rewrite loadingRef_addAll. simpl.
    rewrite String.eqb_refl. reflexivity.
Qed.

(* ===================================================================== *)
(** ** Without a configured endpoint *)
(* ===================================================================== *)

Lemma not_configured_is_disabled (svc : option SyncConfig.t) :
  svc = None \/ svc = appStart EmptyString -> serviceIsEnabled svc = false.
Proof. intros [-> | ->]; reflexivity. Qed.

(** X20.  [App] enables the service exactly when [SYNC_API_URL] is not
    empty.  Before [App] has run, and after it has run with an empty
    [SYNC_API_URL], nothing sends a network request or calls a callback:
    the coordinator's push, pull, list and health check return at once, the
    health check of the activation does not run, and the startup that
    reaches the reconciliation goes straight to the prompt that the local
    catalog decides. *)
Theorem nothing_is_sent_without_endpoint (svc : option SyncConfig.t)
  (opts : UseSyncOptions.t) (d : Diagram.t) (diagramId : string)
  (defaultDiagramId : option string) (w : World)
  (net : list FetchOutcome) :
  svc = None \/ svc = appStart EmptyString ->
  (forall url,
     serviceIsEnabled (appStart url) = negb (String.eqb url EmptyString))
  /\ run (pushDiagram svc opts d) w net = (w, [], Done (Ok tt))
  /\ run (pullDiagram svc opts diagramId) w net = (w, [], Done (Ok None))
  /\ run (useSync_listDiagrams svc opts) w net = (w, [], Done (Ok []))
  /\ run (checkHealth svc) w net = (w, [], Done (Ok false))
  /\ run (healthEffect svc opts) w net = (w, [], Done (Ok tt))
  /\ (match nonEmpty defaultDiagramId with
      | Some id => findDiagram id (localCatalog w) = None
      | None => True
      end ->
      run (loadDefaultDiagram svc None defaultDiagramId) w net
      = (w, (defaultAttempt defaultDiagramId ++ [prompt (localCatalog w)])%list,
         Done (Ok tt))).
Proof.
  intros Hsvc. split.
  - intros url. unfold appStart, initSyncService, serviceIsEnabled,
      isEnabled. simpl.
    destruct (String.eqb url EmptyString); reflexivity.
  - pose proof (not_configured_is_disabled svc Hsvc) as Hs.
    repeat split.
    + destruct Hsvc as [-> | ->]; reflexivity.
    + destruct Hsvc as [-> | ->]; reflexivity.
    + destruct Hsvc as [-> | ->]; reflexivity.
    + destruct Hsvc as [-> | ->]; reflexivity.
    + unfold healthEffect. rewrite Hs. reflexivity.
    + intros Hdef.
      rewrite (loadDefaultDiagram_reconciles svc None defaultDiagramId w net
                 eq_refl Hdef).
      rewrite (run_reconcile_disabled svc w net Hs). reflexivity.
Qed.

End Platform.

(* ===================================================================== *)
(** ** The reference platform reads back its own dates *)
(* ===================================================================== *)

Module ReferenceFacts.
Import Reference.

Lemma days_civil_days (day : Z) :
  let c := civilFromDays day in
  daysFromCivil (fst (fst c)) (snd (fst c)) (snd c) = day
  /\ 1 <= snd (fst c) <= 12 /\ 1 <= snd c <= 31
  /\ (day + 719468) / 146097 * 400 <= fst (fst c)
     <= (day + 719468) / 146097 * 400 + 400.
Proof.
  unfold civilFromDays, daysFromCivil. cbv zeta. cbn [fst snd].
  pose proof (Z.mod_pos_bound (day + 719468) 146097 ltac:(lia)) as Hb.
  pose proof (Z.div_mod (day + 719468) 146097 ltac:(lia)) as Hdm.
  set (era := (day + 719468) / 146097) in *.
  set (doe := (day + 719468) mod 146097) in *.
  set (yoe := (doe - doe / 1460 + doe / 36524 - doe / 146096) / 365).
  set (doy := doe - (365 * yoe + yoe / 4 - yoe / 100)).
  set (mp := (5 * doy + 2) / 153).
  assert (Hyoe : 0 <= yoe < 400)
    by (subst yoe; Z.div_mod_to_equations; lia).
  assert (Hdoy : 0 <= doy <= 365)
    by (subst doy yoe; Z.div_mod_to_equations; lia).
  assert (Hmp : 0 <= mp <= 11 /\ 1 <= doy - (153 * mp + 2) / 5 + 1 <= 31)
    by (subst mp; Z.div_mod_to_equations; lia).
  set (m := if mp <? 10 then mp + 3 else mp - 9).
  assert (Hm : 1 <= m <= 12 /\ (if 2 <? m then m - 3 else m + 9) = mp).
  { subst m. destruct (mp <? 10) eqn:E.
    - apply Z.ltb_lt in E. destruct (2 <? mp + 3) eqn:E2; [lia|].
      apply Z.ltb_ge in E2. lia.
    - apply Z.ltb_ge in E. destruct (2 <? mp - 9) eqn:E2; [|lia].
      apply Z.ltb_lt in E2. lia. }
  destruct Hm as [Hm Hmp'].
  replace (yoe + era * 400 + (if m <=? 2 then 1 else 0)
           - (if m <=? 2 then 1 else 0)) with (yoe + era * 400) by lia.
  rewrite Hmp'.
  rewrite Z.div_add, Z.mod_add by lia.
  rewrite Z.div_small, Z.mod_small by lia.
  fold doy.
  repeat split; try lia; destruct (m <=? 2); lia.
Qed.

Lemma digitChar_ok (k : Z) :
  0 <= k <= 9 ->
  isDigit (digitChar k) = true /\ code (digitChar k) - 48 = k
  /\ Ascii.eqb (digitChar k) "+" = false
  /\ Ascii.eqb (digitChar k) "-" = false.
Proof.
  intros H.
  assert (K : k = 0 \/ k = 1 \/ k = 2 \/ k = 3 \/ k = 4 \/ k = 5 \/ k = 6
              \/ k = 7 \/ k = 8 \/ k = 9) by lia.
  repeat (destruct K as [-> | K]; [repeat split; reflexivity|]).
  subst k. repeat split; reflexivity.
Qed.

Lemma readDigits_digits (w : nat) :
  forall n acc rest, 0 <= n < 10 ^ Z.of_nat w ->
    readDigits w acc (digits w n ++ rest)
    = Some (acc * 10 ^ Z.of_nat w + n, rest).
Proof.
  induction w as [|w IH]; intros n acc rest Hn.
  - simpl in *. f_equal. f_equal. lia.
  - rewrite Nat2Z.inj_succ, Z.pow_succ_r in * by lia.
    assert (Hp : 0 < 10 ^ Z.of_nat w) by (apply Z.pow_pos_nonneg; lia).
    pose proof (Z.div_mod n (10 ^ Z.of_nat w) ltac:(lia)) as Hdm.
    pose proof (Z.mod_pos_bound n (10 ^ Z.of_nat w) Hp) as Hmod.
    assert (Hq : 0 <= n / 10 ^ Z.of_nat w <= 9).
    { split; [apply Z.div_pos; lia|].
      assert (n / 10 ^ Z.of_nat w < 10); [|lia].
      apply Z.div_lt_upper_bound; lia. }
    destruct (digitChar_ok _ Hq) as (Hd & Hc & _).
    cbn [digits readDigits append]. rewrite Hd, Hc, IH by exact Hmod.
    f_equal. f_equal. nia.
Qed.

Lemma readYear_yearString (y : Z) (rest : string) :
  -999999 <= y <= 999999 ->
  readYear (yearString y ++ rest) = Some (y, rest).
Proof.
  intros Hy. unfold yearString.
  destruct ((0 <=? y) && (y <=? 9999)) eqn:E.
  - apply andb_true_iff in E as [E1 E2].
    apply Z.leb_le in E1. apply Z.leb_le in E2.
    pose proof (readDigits_digits 4 y 0 rest) as H.
    change (10 ^ Z.of_nat 4) with 10000 in H.
    specialize (H ltac:(lia)).
    assert (Hq : 0 <= y / 10 ^ Z.of_nat 3 <= 9).
    { change (10 ^ Z.of_nat 3) with 1000. Z.div_mod_to_equations. lia. }
    destruct (digitChar_ok _ Hq) as (_ & _ & Hp & Hm).
    cbn [digits append] in *. unfold readYear. rewrite Hp, Hm.
    rewrite H. f_equal.
  - destruct (y <? 0) eqn:E2.
    + apply Z.ltb_lt in E2.
      pose proof (readDigits_digits 6 (- y) 0 rest) as H.
      change (10 ^ Z.of_nat 6) with 1000000 in H.
      specialize (H ltac:(lia)).
      cbn [append readYear]. change (Ascii.eqb "-" "+") with false.
      change (Ascii.eqb "-" "-") with true. cbv iota.
      rewrite H. f_equal. f_equal. lia.
    + apply Z.ltb_ge in E2.
      pose proof (readDigits_digits 6 y 0 rest) as H.
      change (10 ^ Z.of_nat 6) with 1000000 in H.
      specialize (H ltac:(lia)).
      cbn [append readYear]. change (Ascii.eqb "+" "+") with true.
      cbv iota. rewrite H. f_equal.
Qed.

Lemma readTwo (n : Z) (rest : string) :
  0 <= n < 100 ->
  readDigits 2 0 (digits 2 n ++ rest) = Some (n, rest).
Proof.
  intros H. rewrite (readDigits_digits 2 n 0 rest) by exact H.
  reflexivity.
Qed.

Lemma readThree (n : Z) (rest : string) :
  0 <= n < 1000 ->
  readDigits 3 0 (digits 3 n ++ rest) = Some (n, rest).
Proof.
  intros H. rewrite (readDigits_digits 3 n 0 rest) by exact H.
  reflexivity.
Qed.

(** [new Date] reads back what [toISOString] writes. *)
Lemma newDate_toISOString (t : Z) :
  validTime t -> newDate (toISOString t) = Some t.
Proof.
  unfold validTime. intros Ht. unfold toISOString.
  destruct (civilFromDays (t / 86400000)) as [[y m] d] eqn:Hciv.
  pose proof (days_civil_days (t / 86400000)) as Hc.
  rewrite Hciv in Hc. cbn [fst snd] in Hc.
  destruct Hc as (Hday & Hm & Hd & Hy).
  pose proof (Z.mod_pos_bound t 86400000 ltac:(lia)) as Hms.
  pose proof (Z.div_mod t 86400000 ltac:(lia)) as Hdm.
  set (ms := t mod 86400000) in *.
  unfold newDate. cbv beta delta [andThen expect].
  rewrite readYear_yearString
    by (clear - Ht Hy; Z.div_mod_to_equations; lia).
  cbn [append]. change (Ascii.eqb "-" "-") with true. cbv beta iota.
  rewrite readTwo by lia.
  cbn [append]. change (Ascii.eqb "-" "-") with true. cbv beta iota.
  rewrite readTwo by lia.
  cbn [append]. change (Ascii.eqb "T" "T") with true. cbv beta iota.
  rewrite readTwo by (clear - Hms; Z.div_mod_to_equations; lia).
  cbn [append]. change (Ascii.eqb ":" ":") with true. cbv beta iota.
  rewrite readTwo by (clear - Hms; Z.div_mod_to_equations; lia).
  cbn [append]. change (Ascii.eqb ":" ":") with true. cbv beta iota.
  rewrite readTwo by (clear - Hms; Z.div_mod_to_equations; lia).
  cbn [append]. change (Ascii.eqb "." ".") with true. cbv beta iota.
  rewrite readThree by (clear - Hms; Z.div_mod_to_equations; lia).
  cbn [append]. change (Ascii.eqb "Z" "Z") with true. cbv beta iota.
  change (String.eqb EmptyString EmptyString) with true.
  rewrite Hday, Hciv, !Z.eqb_refl.
  assert (Ht' : t / 86400000 * 86400000 + ms / 3600000 * 3600000
                + ms / 60000 mod 60 * 60000 + ms / 1000 mod 60 * 1000
                + ms mod 1000 = t)
    by (clear - Hms Hdm; Z.div_mod_to_equations; lia).
  rewrite Ht'.
  replace (ms / 3600000 <? 24) with true
    by (symmetry; apply Z.ltb_lt; clear - Hms;
        Z.div_mod_to_equations; lia).
  replace (ms / 60000 mod 60 <? 60) with true
    by (symmetry; apply Z.ltb_lt; clear - Hms;
        Z.div_mod_to_equations; lia).
  replace (ms / 1000 mod 60 <? 60) with true
    by (symmetry; apply Z.ltb_lt; clear - Hms;
        Z.div_mod_to_equations; lia).
  replace (-8640000000000000 <=? t) with true
    by (symmetry; apply Z.leb_le; lia).
  replace (t <=? 8640000000000000) with true
    by (symmetry; apply Z.leb_le; lia).
  reflexivity.
Qed.

Example iso_epoch : toISOString 0 = "1970-01-01T00:00:00.000Z".
Proof. reflexivity. Qed.
Example iso_2024 : toISOString 1709210096789 = "2024-02-29T12:34:56.789Z".
Proof. vm_compute. reflexivity. Qed.
Example iso_neg : toISOString (-1) = "1969-12-31T23:59:59.999Z".
Proof. vm_compute. reflexivity. Qed.
Example iso_far : toISOString 8640000000000000 = "+275760-09-13T00:00:00.000Z".
Proof. vm_compute. reflexivity. Qed.
Example iso_bc : toISOString (-62198755200000) = "-000001-01-01T00:00:00.000Z".
Proof. vm_compute. reflexivity. Qed.
End ReferenceFacts.

(* ===================================================================== *)
(** ** The properties on the sample data *)
(* ===================================================================== *)

Example varchar_is_normalized :
  fieldType (inl "VARCHAR")
  = {| DataType.id := "varchar"; DataType.name := "VARCHAR" |}.
Proof. reflexivity. Qed.

Example double_precision_is_normalized :
  fieldType (inl "Double   Precision")
  = {| DataType.id := "double_precision";
       DataType.name := "Double   Precision" |}.
Proof. reflexivity. Qed.

Example uuid_is_unchanged :
  fieldType (inr {| DataType.id := "uuid"; DataType.name := "UUID" |})
  = {| DataType.id := "uuid"; DataType.name := "UUID" |}.
Proof. reflexivity. Qed.

(** A failed push whose body is not JSON: the message is made from the
    status. *)
Example push_failure_with_unreadable_body :
  exists wire,
    serializeDiagram Reference.toISOString Sample.diagram = Ok wire
    /\ run Reference.clock
         (pushDiagram Reference.toISOString Reference.JSON_stringify
            (Some Sample.config) Sample.options Sample.diagram)
         Sample.world
         [Resolved (Sample.response 502 "Bad Gateway"
                      (Malformed (mkError "SyntaxError"
                                    "Unexpected token < in JSON")))]
       = (Sample.world,
          [NetworkRequest (pushRequest Sample.config wire);
           OnSyncError (newError "HTTP 502: Bad Gateway")],
          Done (Ok tt)).
Proof. eexists. split; reflexivity. Qed.

(** A failed push whose body is the JSON text [null]: reading [error] of
    [null] throws, and the error callback receives that TypeError. *)
Example push_failure_with_null_body :
  exists wire,
    serializeDiagram Reference.toISOString Sample.diagram = Ok wire
    /\ run Reference.clock
         (pushDiagram Reference.toISOString Reference.JSON_stringify
            (Some Sample.config) Sample.options Sample.diagram)
         Sample.world
         [Resolved (Sample.response 500 "Internal Server Error"
                      (Parsed JNull))]
       = (Sample.world,
          [NetworkRequest (pushRequest Sample.config wire);
           OnSyncError
             (mkError "TypeError"
                "Cannot read properties of null (reading 'error')")],
          Done (Ok tt)).
Proof. eexists. split; reflexivity. Qed.

(** A failed push whose body carries a number as [error]: the message is
    the number's digits. *)
Example push_failure_with_numeric_error :
  exists wire,
    serializeDiagram Reference.toISOString Sample.diagram = Ok wire
    /\ run Reference.clock
         (pushDiagram Reference.toISOString Reference.JSON_stringify
            (Some Sample.config) Sample.options Sample.diagram)
         Sample.world
         [Resolved (Sample.response 507 "Insufficient Storage"
                      (Parsed (JObject [("error", JNumber 507)])))]
       = (Sample.world,
          [NetworkRequest (pushRequest Sample.config wire);
           OnSyncError (newError "507")],
          Done (Ok tt)).
Proof. eexists. split; reflexivity. Qed.

(** A push while another is in flight: nothing happens. *)
Example push_while_in_flight :
  forall w1 tr k,
    run Reference.clock
      (pushDiagram Reference.toISOString Reference.JSON_stringify
         (Some Sample.config) Sample.options Sample.diagram)
      Sample.world []
    = (w1, tr, Suspended k) ->
    run Reference.clock
      (pushDiagram Reference.toISOString Reference.JSON_stringify
         (Some Sample.config) Sample.options Sample.diagramFieldAtZero)
      w1 [Resolved Sample.pushAccepted]
    = (w1, [], Done (Ok tt)).
Proof.
  intros w1 tr k H. injection H as <- _ _. reflexivity.
Qed.

Lemma sample_dates_valid :
  validDate (Diagram.createdAt Sample.diagram)
  /\ validDate (Diagram.updatedAt Sample.diagram).
Proof.
  split; eexists; (split; [reflexivity|unfold validTime; lia]).
Qed.

Lemma sample_fields_stamped : fieldsStamped Sample.diagram.
Proof.
  unfold fieldsStamped. simpl. repeat constructor.
  unfold fieldStamped. simpl. lia.
Qed.

Lemma codec_round_trip_witness :
  exists wire n d',
    serializeDiagram Reference.toISOString Sample.diagram = Ok wire
    /\ returns Reference.clock
         (deserializeDiagram Reference.newDate wire)
         Sample.world (advance n Sample.world) [] d'
    /\ unstamp d' = unstamp Sample.diagram.
Proof.
  apply (codec_round_trip Reference.toISOString Reference.newDate
           Reference.clock Sample.diagram Sample.world
           ReferenceFacts.newDate_toISOString
           (proj1 sample_dates_valid) (proj2 sample_dates_valid)
           sample_fields_stamped).
Defined.


Lemma push_success_false_is_silent_witness :
  exists wire,
    serializeDiagram Reference.toISOString Sample.diagram = Ok wire
    /\ exists w',
         run Reference.clock
           (pushDiagram Reference.toISOString Reference.JSON_stringify
              (Some Sample.config) Sample.options Sample.diagram)
           Sample.world [Resolved Sample.pushRefused]
         = (w', [NetworkRequest (pushRequest Sample.config wire)],
            Done (Ok tt))
         /\ isSyncingRef w' = false
         /\ lastSyncedDiagramRef w' = lastSyncedDiagramRef Sample.world.
Proof.
  eexists. split; [reflexivity|].
  apply (push_success_false_is_silent Reference.toISOString
           Reference.JSON_stringify Reference.clock Sample.config
           Sample.options Sample.diagram _ Sample.world Sample.pushRefused
           (JObject [("success", JBool false);
                     ("diagram_id", JString "d1")]));
    reflexivity.
Defined.

Lemma unchanged_diagram_is_pushed_once_witness :
  exists wire,
    serializeDiagram Reference.toISOString Sample.diagram = Ok wire
    /\ exists w1 tr1,
         run Reference.clock
           (pushDiagram Reference.toISOString Reference.JSON_stringify
              (Some Sample.config) Sample.options Sample.diagram)
           Sample.world [Resolved Sample.pushAccepted]
         = (w1, tr1, Done (Ok tt))
         /\ tr1 = NetworkRequest (pushRequest Sample.config wire)
                  :: callEvents (UseSyncOptions.onSyncSuccess Sample.options)
                       (OnSyncSuccess (Diagram.id Sample.diagram))
         /\ lastSyncedDiagramRef w1
            = Some (Reference.JSON_stringify Sample.diagram)
         /\ networkRequests tr1 = 1%nat
         /\ (forall net,
               run Reference.clock
                 (pushDiagram Reference.toISOString Reference.JSON_stringify
                    (Some Sample.config) Sample.options Sample.diagram)
                 w1 net
               = (w1, [], Done (Ok tt))).
Proof.
  eexists. split; [reflexivity|].
  apply (unchanged_diagram_is_pushed_once Reference.toISOString
           Reference.JSON_stringify Reference.clock Sample.config
           Sample.options Sample.diagram _ Sample.world Sample.pushAccepted
           (JObject [("success", JBool true);
                     ("diagram_id", JString "d1")])
           (Some (JBool true)));
    reflexivity.
Defined.

Lemma push_is_single_flight_witness :
  match
    run Reference.clock
      (pushDiagram Reference.toISOString Reference.JSON_stringify
         (Some Sample.config) Sample.options Sample.diagram)
      Sample.world []
  with
  | (w1, tr, Done r) => r = Ok tt /\ isSyncingRef w1 = false
  | (w1, tr, Suspended k) =>
      @nil FetchOutcome = []
      /\ isSyncingRef w1 = true
      /\ networkRequests tr = 1%nat
      /\ (forall d2 net2,
            run Reference.clock
              (pushDiagram Reference.toISOString Reference.JSON_stringify
                 (Some Sample.config) Sample.options d2)
              w1 net2
            = (w1, [], Done (Ok tt)))
      /\ (forall o w2 net2,
            exists w3 tr3,
              run Reference.clock (k o) w2 net2 = (w3, tr3, Done (Ok tt))
              /\ isSyncingRef w3 = false)
  end.
Proof.
  apply (push_is_single_flight Reference.toISOString
           Reference.JSON_stringify Reference.clock (Some Sample.config)
           Sample.options Sample.diagram Sample.world []).
  reflexivity.
Defined.

Lemma disabled_short_circuit_witness :
  run Reference.clock
    (push Reference.toISOString Sample.notConfigured Sample.diagram)
    Sample.world []
  = (Sample.world, [], Done (Err notEnabledError))
  /\ run Reference.clock
       (pull Reference.newDate Reference.asBackendDiagram
          Sample.notConfigured "d1")
       Sample.world []
     = (Sample.world, [], Done (Err notEnabledError))
  /\ run Reference.clock
       (listDiagrams Reference.newDate Reference.asBackendList
          Sample.notConfigured)
       Sample.world []
     = (Sample.world, [], Done (Err notEnabledError))
  /\ run Reference.clock
       (pushDiagram Reference.toISOString Reference.JSON_stringify
          (Some Sample.notConfigured) Sample.options Sample.diagram)
       Sample.world []
     = (Sample.world, [], Done (Ok tt))
  /\ run Reference.clock
       (pullDiagram Reference.newDate Reference.JSON_stringify
          Reference.asBackendDiagram (Some Sample.notConfigured)
          Sample.options "d1")
       Sample.world []
     = (Sample.world, [], Done (Ok None))
  /\ run Reference.clock
       (useSync_listDiagrams Reference.newDate Reference.asBackendList
          (Some Sample.notConfigured) Sample.options)
       Sample.world []
     = (Sample.world, [], Done (Ok [])).
Proof.
  apply (disabled_short_circuit Reference.toISOString Reference.newDate
           Reference.JSON_stringify Reference.clock
           Reference.asBackendDiagram Reference.asBackendList
           Sample.notConfigured Sample.options Sample.diagram "d1"
           Sample.world []).
  right. reflexivity.
Defined.

Lemma pull_not_found_is_absent_witness :
  (status Sample.notFound = 404 ->
   run Reference.clock
     (pull Reference.newDate Reference.asBackendDiagram Sample.config "d9")
     Sample.world [Resolved Sample.notFound]
   = (Sample.world, [NetworkRequest (pullRequest Sample.config "d9")],
      Done (Ok None))
   /\ run Reference.clock
        (pullDiagram Reference.newDate Reference.JSON_stringify
           Reference.asBackendDiagram (Some Sample.config) Sample.options
           "d9")
        Sample.world [Resolved Sample.notFound]
      = (Sample.world, [NetworkRequest (pullRequest Sample.config "d9")],
         Done (Ok None)))
  /\ (status Sample.notFound <> 404 -> ok Sample.notFound = false ->
      exists e,
        run Reference.clock
          (pull Reference.newDate Reference.asBackendDiagram Sample.config
             "d9")
          Sample.world [Resolved Sample.notFound]
        = (Sample.world, [NetworkRequest (pullRequest Sample.config "d9")],
           Done (Err e))
        /\ run Reference.clock
             (pullDiagram Reference.newDate Reference.JSON_stringify
                Reference.asBackendDiagram (Some Sample.config)
                Sample.options "d9")
             Sample.world [Resolved Sample.notFound]
           = (Sample.world,
              [NetworkRequest (pullRequest Sample.config "d9");
               OnSyncError e],
              Done (Ok None))).
Proof.
  apply (pull_not_found_is_absent Reference.newDate
           Reference.JSON_stringify Reference.clock
           Reference.asBackendDiagram Sample.config Sample.options "d9"
           Sample.world (Resolved Sample.notFound));
    reflexivity.
Defined.

Lemma explicit_id_not_found_witness :
  run Reference.clock
    (loadDefaultDiagram Reference.newDate Reference.asBackendList
       (Some Sample.config) (Some "x1") None)
    Sample.worldWithA []
  = (Sample.worldWithA,
     [SetInitialDiagram None; ShowLoader; ResetRedoStack; ResetUndoStack;
      LoadDiagramCalled "x1"; OpenOpenDiagramDialog false; HideLoader],
     Done (Ok tt)).
Proof.
  apply (explicit_id_not_found Reference.newDate Reference.clock
           Reference.asBackendList (Some Sample.config) None "x1"
           Sample.worldWithA []).
  - discriminate.
  - reflexivity.
Defined.

Lemma catalog_merge_witness :
  exists items,
    Reference.asBackendList
      (JArray [Sample.remoteEntry "d1" "Shop (remote)";
               Sample.remoteEntry "d2" "Blog"])
    = Ok items
    /\ exists w' added,
         run Reference.clock
           (loadDefaultDiagram Reference.newDate Reference.asBackendList
              (Some Sample.config) None None)
           Sample.worldWithA [Resolved Sample.remoteList]
         = (w',
            (defaultAttempt None
             ++ NetworkRequest (listRequest Sample.config)
             :: map AddDiagram added
             ++ [prompt (localCatalog Sample.worldWithA ++ added)])%list,
            Done (Ok tt))
         /\ localCatalog w'
            = (localCatalog Sample.worldWithA ++ added)%list
         /\ Forall2 (populatedFromRemote Reference.newDate)
              (filter
                 (absentLocally
                    (map Diagram.id (localCatalog Sample.worldWithA)))
                 items)
              added
         /\ Forall (fun d =>
              ~ In (Diagram.id d)
                  (map Diagram.id (localCatalog Sample.worldWithA))
              /\ exists item,
                   In item items
                   /\ populatedFromRemote Reference.newDate item d) added
         /\ (forall item,
               In item items ->
               ~ In (BackendListItem.id item)
                   (map Diagram.id (localCatalog Sample.worldWithA)) ->
               exists d,
                 In d added
                 /\ populatedFromRemote Reference.newDate item d)
         /\ (forall id,
               In id (map Diagram.id (localCatalog w'))
               <-> In id (map Diagram.id (localCatalog Sample.worldWithA))
                   \/ In id (map BackendListItem.id items))
         /\ (NoDup (map Diagram.id (localCatalog Sample.worldWithA)) ->
             NoDup (map Diagram.id (localCatalog w'))).
Proof.
  eexists. split; [reflexivity|].
  apply (catalog_merge Reference.newDate Reference.clock
           Reference.asBackendList Sample.config None None
           Sample.worldWithA
           Sample.remoteList
           (JArray [Sample.remoteEntry "d1" "Shop (remote)";
                    Sample.remoteEntry "d2" "Blog"])).
  - reflexivity.
  - reflexivity.
  - exact I.
  - reflexivity.
  - reflexivity.
  - reflexivity.
  - simpl. constructor.
    + simpl. intros [H|[]]. discriminate H.
    + constructor; [simpl; tauto|constructor].
Defined.

(** The scenario of the specification: the local catalog holds A, the remote
    list holds A and B.  Afterwards the local catalog holds A, as it was, and
    the entry made from B. *)
Example catalog_merge_A_and_AB :
  exists w' tr,
    run Reference.clock
      (loadDefaultDiagram Reference.newDate Reference.asBackendList
         (Some Sample.config) None None)
      Sample.worldWithA [Resolved Sample.remoteList]
    = (w', tr, Done (Ok tt))
    /\ localCatalog w'
       = [Sample.localA;
          {| Diagram.id := "d2";
             Diagram.name := "Blog";
             Diagram.databaseType := "postgresql";
             Diagram.databaseEdition := None;
             Diagram.createdAt := Some 1700000000000;
             Diagram.updatedAt := Some 1700000360000;
             Diagram.tables := None;
             Diagram.relationships := None;
             Diagram.dependencies := None;
             Diagram.areas := None;
             Diagram.customTypes := None;
             Diagram.notes := None |}]
    /\ filter isNetworkRequest tr
       = [NetworkRequest (GET "http://localhost:8080/api/sync/diagrams")]
    /\ In (OpenOpenDiagramDialog false) tr.
Proof.
  do 2 eexists. split; [vm_compute; reflexivity|].
  split; [reflexivity|]. split; [reflexivity|].
  simpl. tauto.
Qed.

(** The scenario of the specification: nothing remote, nothing local, no
    identifier: the "create diagram" dialog opens, the other does not. *)
Example startup_with_nothing :
  run Reference.clock
    (loadDefaultDiagram Reference.newDate Reference.asBackendList
       (Some Sample.config) None None)
    Sample.world [Resolved (Sample.response 200 "OK" (Parsed (JArray [])))]
  = (Sample.world,
     [NetworkRequest (GET "http://localhost:8080/api/sync/diagrams");
      OpenCreateDiagramDialog],
     Done (Ok tt)).
Proof. reflexivity. Qed.

(** C1, as stated, fails.  In this diagram the index has [createdAt]
    1700000000002 and the field has [createdAt] 0; both values are on the
    wire; after decoding, both are readings of the clock. *)
Lemma round_trip_loses_createdAt_present_on_the_wire :
  exists wire d' w',
    serializeDiagram Reference.toISOString Sample.diagramFieldAtZero
    = Ok wire
    /\ run Reference.clock (deserializeDiagram Reference.newDate wire)
         Sample.world []
       = (w', [], Done (Ok d'))
    /\ indexStamps Sample.diagramFieldAtZero = [1700000000002]
    /\ wireIndexStamps wire = [Some 1700000000002]
    /\ indexStamps d' = [1800000000002]
    /\ fieldStamps Sample.diagramFieldAtZero = [0]
    /\ wireFieldStamps wire = [Some 0]
    /\ fieldStamps d' = [1800000000001]
    /\ d' <> Sample.diagramFieldAtZero.
Proof.
  do 3 eexists. split; [reflexivity|].
  split; [vm_compute; reflexivity|].
  repeat (split; [reflexivity|]).
  intros H. apply (f_equal indexStamps) in H. vm_compute in H.
  discriminate H.
Qed.


(* ===================================================================== *)
(** ** The further properties at the sample data *)
(* ===================================================================== *)

Lemma serializeDiagram_stamps_diagramId_witness :
  exists wire,
    serializeDiagram Reference.toISOString Sample.diagram = Ok wire
    /\ BackendDiagramResponse.id wire = Diagram.id Sample.diagram
    /\ optForall
         (fun t => BackendTable.diagramId t = Some (Diagram.id Sample.diagram)
                   /\ BackendTable.createdAt t = None)
         (BackendDiagramResponse.tables wire)
    /\ option_map (@length _) (BackendDiagramResponse.tables wire)
       = option_map (@length _) (Diagram.tables Sample.diagram).
Proof.
  eexists. split; [reflexivity|].
  pose proof (serializeDiagram_stamps_diagramId Reference.toISOString
                Sample.diagram _ eq_refl) as H.
  split; [apply H|]. split; apply H.
Defined.

Lemma decoding_a_fully_stamped_diagram_is_repeatable_witness :
  fullyStamped Sample.wireDiagram
  /\ exists d,
       forall w net,
         run Reference.clock
           (deserializeDiagram Reference.newDate Sample.wireDiagram) w net
         = (w, [], Done (Ok d)).
Proof.
  assert (H : fullyStamped Sample.wireDiagram).
  { repeat split; simpl.
    - constructor; [|constructor]. repeat split.
      + exists 1700000000000. split; [reflexivity|discriminate].
      + constructor; [|constructor].
        exists 1700000000001. split; [reflexivity|discriminate].
    - constructor. }
  split; [exact H|].
  apply (decoding_a_fully_stamped_diagram_is_repeatable Reference.newDate
           Reference.clock Sample.wireDiagram H).
Defined.

Lemma push_of_invalid_date_is_reported_witness :
  run Reference.clock
    (pushDiagram Reference.toISOString Reference.JSON_stringify
       (Some Sample.config) Sample.options Sample.undatedDiagram)
    Sample.world [Resolved Sample.pushAccepted]
  = (setIsSyncing false Sample.world,
     [OnSyncError (mkError "RangeError" "Invalid time value")],
     Done (Ok tt)).
Proof.
  apply (push_of_invalid_date_is_reported Reference.toISOString
           Reference.JSON_stringify Reference.clock Sample.config
           Sample.options Sample.undatedDiagram Sample.world
           [Resolved Sample.pushAccepted]).
  - reflexivity.
  - reflexivity.
  - reflexivity.
  - reflexivity.
  - left. reflexivity.
Defined.

Lemma push_success_status_with_bad_body_witness :
  exists wire,
    serializeDiagram Reference.toISOString Sample.diagram = Ok wire
    /\ run Reference.clock
         (pushDiagram Reference.toISOString Reference.JSON_stringify
            (Some Sample.config) Sample.options Sample.diagram)
         Sample.world [Resolved Sample.notJSON]
       = (setIsSyncing false Sample.world,
          [NetworkRequest (pushRequest Sample.config wire);
           OnSyncError (mkError "SyntaxError" "Unexpected token < in JSON")],
          Done (Ok tt))
    /\ run Reference.clock
         (pushDiagram Reference.toISOString Reference.JSON_stringify
            (Some Sample.config) Sample.options Sample.diagram)
         Sample.world [Resolved Sample.nullBody]
       = (setIsSyncing false Sample.world,
          [NetworkRequest (pushRequest Sample.config wire);
           OnSyncError
             (mkError "TypeError"
                "Cannot read properties of null (reading 'success')")],
          Done (Ok tt)).
Proof.
  eexists. split; [reflexivity|]. split.
  - apply (proj1
             (push_success_status_with_bad_body Reference.toISOString
                Reference.JSON_stringify Reference.clock Sample.config
                Sample.options Sample.diagram _ Sample.world Sample.notJSON
                eq_refl eq_refl eq_refl eq_refl eq_refl eq_refl)).
    reflexivity.
  - apply (proj2
             (push_success_status_with_bad_body Reference.toISOString
                Reference.JSON_stringify Reference.clock Sample.config
                Sample.options Sample.diagram _ Sample.world Sample.nullBody
                eq_refl eq_refl eq_refl eq_refl eq_refl eq_refl)).
    reflexivity.
Defined.

Lemma failed_push_is_sent_again_witness :
  accepts (Resolved Sample.serverError) = false
  /\ exists wire,
       serializeDiagram Reference.toISOString Sample.diagram = Ok wire
       /\ exists errors,
            run Reference.clock
              (pushDiagram Reference.toISOString Reference.JSON_stringify
                 (Some Sample.config) Sample.options Sample.diagram)
              Sample.world [Resolved Sample.serverError]
            = (setIsSyncing false Sample.world,
               NetworkRequest (pushRequest Sample.config wire) :: errors,
               Done (Ok tt))
            /\ Forall (fun ev => exists e, ev = OnSyncError e) errors
            /\ lastSyncedDiagramRef (setIsSyncing false Sample.world)
               = lastSyncedDiagramRef Sample.world
            /\ run Reference.clock
                 (pushDiagram Reference.toISOString Reference.JSON_stringify
                    (Some Sample.config) Sample.options Sample.diagram)
                 (setIsSyncing false Sample.world) []
               = (setIsSyncing true Sample.world,
                  [NetworkRequest (pushRequest Sample.config wire)],
                  Suspended
                    (pushResumed Reference.JSON_stringify Sample.options
                       Sample.diagram)).
Proof.
  split; [reflexivity|].
  eexists. split; [reflexivity|].
  apply (failed_push_is_sent_again Reference.toISOString
           Reference.JSON_stringify Reference.clock Sample.config
           Sample.options Sample.diagram _ Sample.world
           (Resolved Sample.serverError));
    reflexivity.
Defined.

Lemma pulled_diagram_is_not_pushed_back_witness :
  exists wire,
    Reference.asBackendDiagram Sample.pulledBody = Ok wire
    /\ exists w1 d,
         run Reference.clock
           (pullDiagram Reference.newDate Reference.JSON_stringify
              Reference.asBackendDiagram (Some Sample.config) Sample.options
              "d1")
           Sample.world [Resolved Sample.pulled]
         = (w1, [NetworkRequest (pullRequest Sample.config "d1")],
            Done (Ok (Some d)))
         /\ (exists n,
               returns Reference.clock
                 (deserializeDiagram Reference.newDate wire) Sample.world
                 (advance n Sample.world) [] d)
         /\ lastSyncedDiagramRef w1 = Some (Reference.JSON_stringify d)
         /\ (forall net,
               run Reference.clock
                 (pushDiagram Reference.toISOString Reference.JSON_stringify
                    (Some Sample.config) Sample.options d)
                 w1 net
               = (setIsSyncing false w1, [], Done (Ok tt))).
Proof.
  eexists. split; [reflexivity|].
  apply (pulled_diagram_is_not_pushed_back Reference.toISOString
           Reference.newDate Reference.JSON_stringify Reference.clock
           Reference.asBackendDiagram Sample.config Sample.options "d1"
           Sample.world Sample.pulled Sample.pulledBody);
    reflexivity.
Defined.

Lemma coordinator_list_never_throws_witness :
  (exists e,
     run Reference.clock
       (useSync_listDiagrams Reference.newDate Reference.asBackendList
          (Some Sample.config) Sample.options)
       Sample.world [Resolved Sample.serverError]
     = (Sample.world,
        [NetworkRequest (listRequest Sample.config); OnSyncError e],
        Done (Ok [])))
  /\ exists items,
       Reference.asBackendList
         (JArray [Sample.remoteEntry "d1" "Shop (remote)";
                  Sample.remoteEntry "d2" "Blog"])
       = Ok items
       /\ run Reference.clock
            (useSync_listDiagrams Reference.newDate Reference.asBackendList
               (Some Sample.config) Sample.options)
            Sample.world [Resolved Sample.remoteList]
          = (Sample.world, [NetworkRequest (listRequest Sample.config)],
             Done (Ok (map (listItem Reference.newDate) items))).
Proof.
  split.
  - apply (proj1
             (coordinator_list_never_throws Reference.newDate
                Reference.clock Reference.asBackendList Sample.config
                Sample.options Sample.world (Resolved Sample.serverError)
                eq_refl eq_refl)).
    left. reflexivity.
  - eexists. split; [reflexivity|].
    apply (proj2
             (coordinator_list_never_throws Reference.newDate
                Reference.clock Reference.asBackendList Sample.config
                Sample.options Sample.world (Resolved Sample.remoteList)
                eq_refl eq_refl)
             Sample.remoteList
             (JArray [Sample.remoteEntry "d1" "Shop (remote)";
                      Sample.remoteEntry "d2" "Blog"])
             _ eq_refl eq_refl eq_refl eq_refl).
Defined.

Lemma explicit_id_found_witness :
  run Reference.clock
    (loadDefaultDiagram Reference.newDate Reference.asBackendList
       (Some Sample.config) (Some "d1") None)
    Sample.worldWithA []
  = (Sample.worldWithA,
     [SetInitialDiagram None; ShowLoader; ResetRedoStack; ResetUndoStack;
      LoadDiagramCalled "d1"; SetInitialDiagram (Some Sample.localA);
      HideLoader],
     Done (Ok tt))
  /\ In Sample.localA (localCatalog Sample.worldWithA)
  /\ Diagram.id Sample.localA = "d1".
Proof.
  apply (explicit_id_found Reference.newDate Reference.clock
           Reference.asBackendList (Some Sample.config) None "d1"
           Sample.localA Sample.worldWithA []).
  - discriminate.
  - reflexivity.
Defined.

Lemma default_diagram_redirects_witness :
  run Reference.clock
    (loadDefaultDiagram Reference.newDate Reference.asBackendList
       (Some Sample.config) None (Some "d1"))
    Sample.worldWithA []
  = (Sample.worldWithA,
     [LoadDiagramCalled "d1"; Navigate "/diagrams/d1"], Done (Ok tt))
  /\ run Reference.clock
       (loadDefaultDiagram Reference.newDate Reference.asBackendList
          (Some Sample.config) (Some "d1") (Some "d1"))
       Sample.worldWithA []
     = (Sample.worldWithA,
        [SetInitialDiagram None; ShowLoader; ResetRedoStack; ResetUndoStack;
         LoadDiagramCalled "d1"; SetInitialDiagram (Some Sample.localA);
         HideLoader],
        Done (Ok tt)).
Proof.
  apply (default_diagram_redirects Reference.newDate Reference.clock
           Reference.asBackendList (Some Sample.config) None "d1"
           Sample.localA Sample.worldWithA []).
  - reflexivity.
  - discriminate.
  - reflexivity.
Defined.

Lemma remote_failure_does_not_stop_startup_witness :
  run Reference.clock
    (loadDefaultDiagram Reference.newDate Reference.asBackendList
       (Some Sample.config) None (Some "d9"))
    Sample.worldWithA [Resolved Sample.serverError]
  = (Sample.worldWithA,
     [LoadDiagramCalled "d9"; NetworkRequest (listRequest Sample.config);
      OpenOpenDiagramDialog false],
     Done (Ok tt)).
Proof.
  apply (remote_failure_does_not_stop_startup Reference.newDate
           Reference.clock Reference.asBackendList Sample.config None
           (Some "d9") Sample.worldWithA (Resolved Sample.serverError)).
  - reflexivity.
  - reflexivity.
  - reflexivity.
  - left. reflexivity.
Defined.

Lemma catalog_merge_is_idempotent_witness :
  exists w1 tr1,
    run Reference.clock
      (loadDefaultDiagram Reference.newDate Reference.asBackendList
         (Some Sample.config) None None)
      Sample.worldWithA [Resolved Sample.remoteList]
    = (w1, tr1, Done (Ok tt))
    /\ run Reference.clock
         (loadDefaultDiagram Reference.newDate Reference.asBackendList
            (Some Sample.config) None None)
         w1 [Resolved Sample.remoteList]
       = (w1,
          [NetworkRequest (listRequest Sample.config);
           prompt (localCatalog w1)],
          Done (Ok tt)).
Proof.
  apply (catalog_merge_is_idempotent Reference.newDate Reference.clock
           Reference.asBackendList Sample.config None Sample.worldWithA
           Sample.remoteList
           (JArray [Sample.remoteEntry "d1" "Shop (remote)";
                    Sample.remoteEntry "d2" "Blog"])
           _ eq_refl eq_refl eq_refl eq_refl eq_refl).
  simpl. constructor.
  - simpl. intros [H|[]]. discriminate H.
  - constructor; [simpl; tauto|constructor].
Defined.

Lemma prompt_after_merge_witness :
  exists w' writes,
    run Reference.clock
      (loadDefaultDiagram Reference.newDate Reference.asBackendList
         (Some Sample.config) None None)
      Sample.world [Resolved Sample.remoteList]
    = (w',
       (NetworkRequest (listRequest Sample.config) :: map AddDiagram writes
        ++ [OpenOpenDiagramDialog false])%list,
       Done (Ok tt)).
Proof.
  apply (prompt_after_merge Reference.newDate Reference.clock
           Reference.asBackendList Sample.config None None Sample.world
           Sample.remoteList
           (JArray [Sample.remoteEntry "d1" "Shop (remote)";
                    Sample.remoteEntry "d2" "Blog"])
           _ eq_refl eq_refl I eq_refl eq_refl eq_refl).
  simpl. constructor.
  - simpl. intros [H|[]]. discriminate H.
  - constructor; [simpl; tauto|constructor].
Defined.

Lemma nothing_is_sent_without_endpoint_witness :
  run Reference.clock
    (pushDiagram Reference.toISOString Reference.JSON_stringify
       (appStart EmptyString) Sample.options Sample.diagram)
    Sample.worldWithA [Resolved Sample.pushAccepted]
  = (Sample.worldWithA, [], Done (Ok tt))
  /\ run Reference.clock
       (loadDefaultDiagram Reference.newDate Reference.asBackendList
          (appStart EmptyString) None None)
       Sample.worldWithA [Resolved Sample.remoteList]
     = (Sample.worldWithA, [OpenOpenDiagramDialog false], Done (Ok tt)).
Proof.
  pose proof (nothing_is_sent_without_endpoint Reference.toISOString
                Reference.newDate Reference.JSON_stringify Reference.clock
                Reference.asBackendDiagram Reference.asBackendList
                (appStart EmptyString) Sample.options Sample.diagram "d1"
                None Sample.worldWithA [Resolved Sample.remoteList]
                (or_intror eq_refl)) as H.
  split.
  - apply H.
  - apply (proj2 (proj2 (proj2 (proj2 (proj2 (proj2 H)))))). exact I.
Defined.

